(** * swerver: a shallow embedding of the request pipeline and its matchers

    The development follows the packages of the repository:

    - [Go]: the few functions of Go's standard library that the code under
      study calls ([strings], [strconv], [path], [net/textproto]); they are
      modelled from their documentation, on byte strings.
    - [SwHttp]: [pkg/swhttp/fs.go], the content server (RFC 7232 / 7233).
    - [Proxy]: [pkg/handler/proxy.go], the reverse proxy.
    - [PathToRegexp]: the path-template matcher.
    - [Minimatch]: the glob matcher, brace expansion and balanced match.
    - [Handler]: [pkg/handler/handler.go], the request pipeline.

    Go strings are byte sequences; they are modelled by [string], whose
    characters are the 256 values of [ascii].  Go's [int] and [int64] are
    modelled by [Z], with range checks written out where the code has them. *)

From Stdlib Require Import ZArith String Ascii Lia Bool List.
From stdpp Require Import base option gmap strings list.

Local Open Scope Z_scope.

(* ================================================================== *)
(** * Go standard library                                              *)
(* ================================================================== *)

Module Go.

(** ** Slicing: [s[:n]] and [s[n:]] *)

Fixpoint take (n : nat) (s : string) : string :=
  match n, s with
  | S n', String c s' => String c (take n' s')
  | _, _ => EmptyString
  end.

Fixpoint drop (n : nat) (s : string) : string :=
  match n, s with
  | S n', String _ s' => drop n' s'
  | _, _ => s
  end.

(** [s[i]] as a byte, when [i] is in range. *)
Definition at_ (s : string) (i : nat) : option ascii := String.get i s.

Definition isEmpty (s : string) : bool :=
  match s with EmptyString => true | _ => false end.

(** ** [strings.HasPrefix], [strings.HasSuffix] *)

Definition HasPrefix (s p : string) : bool := String.prefix p s.

Definition HasSuffix (s p : string) : bool :=
  (String.length p <=? String.length s)%nat
  && String.eqb (drop (String.length s - String.length p) s) p.

(** ** [strings.Split(s, sep)] and [strings.Cut(s, sep)] for a one-byte
    separator, [strings.Join] *)

Fixpoint SplitByte (sep : ascii) (s : string) : list string :=
  match s with
  | EmptyString => [EmptyString]
  | String c s' =>
      let r := SplitByte sep s' in
      if Ascii.eqb c sep then EmptyString :: r
      else match r with
           | x :: xs => String c x :: xs
           | [] => [String c EmptyString]
           end
  end.

Fixpoint CutByte (sep : ascii) (s : string) : option (string * string) :=
  match s with
  | EmptyString => None
  | String c s' =>
      if Ascii.eqb c sep then Some (EmptyString, s')
      else match CutByte sep s' with
           | Some (before, after) => Some (String c before, after)
           | None => None
           end
  end.

Definition Join (l : list string) (sep : string) : string := String.concat sep l.

(** ** Trimming *)

Fixpoint trimLeftBy (p : ascii -> bool) (s : string) : string :=
  match s with
  | String c s' => if p c then trimLeftBy p s' else s
  | EmptyString => EmptyString
  end.

Fixpoint trimRightBy (p : ascii -> bool) (s : string) : string :=
  match s with
  | EmptyString => EmptyString
  | String c s' =>
      let r := trimRightBy p s' in
      if isEmpty r && p c then EmptyString else String c r
  end.

(** [strings.TrimRight(s, string(c))] *)
Definition TrimRightByte (s : string) (c : ascii) : string :=
  trimRightBy (Ascii.eqb c) s.

(** [textproto.TrimString]: leading and trailing ASCII space, tab, CR, LF. *)
Definition isASCIISpace (c : ascii) : bool :=
  Ascii.eqb c " " || Ascii.eqb c "009" || Ascii.eqb c "010" || Ascii.eqb c "013".

Definition TrimString (s : string) : string :=
  trimRightBy isASCIISpace (trimLeftBy isASCIISpace s).

(** ** [strings.TrimSpace]

    [strings.TrimSpace] cuts off the leading and the trailing white space
    in the sense of [unicode.IsSpace]: the six ASCII characters of the table
    [asciiSpace] and U+0085, U+00A0, U+1680, U+2000 to U+200A, U+2028,
    U+2029, U+202F, U+205F and U+3000.  A string is a sequence of bytes.
    Bytes that are not valid UTF-8 are decoded to U+FFFD, which is no white
    space, so that a white-space character is decoded exactly where its
    UTF-8 encoding stands, from the front as from the back. *)

(** [asciiSpace]: tab, LF, VT, FF, CR, space. *)
Definition asciiSpace (c : ascii) : bool :=
  Ascii.eqb c " " || Ascii.eqb c "009" || Ascii.eqb c "010"
  || Ascii.eqb c "011" || Ascii.eqb c "012" || Ascii.eqb c "013".

(** The white space of two bytes: U+0085 is [C2 85], U+00A0 is [C2 A0]. *)
Definition space2 (c d : ascii) : bool :=
  Ascii.eqb c "194" && (Ascii.eqb d "133" || Ascii.eqb d "160").

(** The white space of three bytes: U+1680 is [E1 9A 80]; U+2000 to U+200A
    are [E2 80 80] to [E2 80 8A]; U+2028, U+2029 and U+202F are [E2 80 A8],
    [E2 80 A9] and [E2 80 AF]; U+205F is [E2 81 9F]; U+3000 is [E3 80 80]. *)
Definition space3 (c d e : ascii) : bool :=
  (Ascii.eqb c "225" && Ascii.eqb d "154" && Ascii.eqb e "128")
  || (Ascii.eqb c "226" && Ascii.eqb d "128"
      && (((128 <=? nat_of_ascii e)%nat && (nat_of_ascii e <=? 138)%nat)
          || Ascii.eqb e "168" || Ascii.eqb e "169" || Ascii.eqb e "175"))
  || (Ascii.eqb c "226" && Ascii.eqb d "129" && Ascii.eqb e "159")
  || (Ascii.eqb c "227" && Ascii.eqb d "128" && Ascii.eqb e "128").

(** [strings.TrimLeftFunc(s, unicode.IsSpace)]: the string from its first
    character on that is no white space. *)
Fixpoint trimLeftSpace (s : string) : string :=
  match s with
  | EmptyString => EmptyString
  | String c s1 =>
      if asciiSpace c then trimLeftSpace s1
      else
        match s1 with
        | EmptyString => s
        | String d s2 =>
            if space2 c d then trimLeftSpace s2
            else
              match s2 with
              | EmptyString => s
              | String e s3 => if space3 c d e then trimLeftSpace s3 else s
              end
        end
  end.

(** [strings.TrimRightFunc(s, unicode.IsSpace)]: the string without its
    longest end that is made of white space only.  (No encoding of a
    character is the end of another one, so stripping one white-space
    character after the other from the back, as Go does, stops there.) *)
Fixpoint trimRightSpace (s : string) : string :=
  match s with
  | EmptyString => EmptyString
  | String c s' =>
      if isEmpty (trimLeftSpace s) then EmptyString else String c (trimRightSpace s')
  end.

Definition TrimSpace (s : string) : string := trimRightSpace (trimLeftSpace s).

(** ** [strconv]: decimal integers *)

Definition isDigit (c : ascii) : bool :=
  (48 <=? nat_of_ascii c)%nat && (nat_of_ascii c <=? 57)%nat.

Definition digitVal (c : ascii) : Z := Z.of_nat (nat_of_ascii c) - 48.

Definition digitChar (d : Z) : ascii := ascii_of_nat (Z.to_nat (48 + d)).

(** The value of a non-empty run of decimal digits, most significant first. *)
Fixpoint parseDigits (acc : Z) (s : string) : option Z :=
  match s with
  | EmptyString => Some acc
  | String c s' =>
      if isDigit c then parseDigits (acc * 10 + digitVal c) s' else None
  end.

Definition parseUnsigned (s : string) : option Z :=
  match s with
  | EmptyString => None
  | _ => parseDigits 0 s
  end.

Definition int64_min : Z := - 2 ^ 63.
Definition int64_max : Z := 2 ^ 63 - 1.

(** [strconv.ParseInt(s, 10, 64)]; [None] is a syntax or range error. *)
Definition ParseInt (s : string) : option Z :=
  match s with
  | EmptyString => None
  | String c s' =>
      let '(neg, digits) :=
        if Ascii.eqb c "-" then (true, s')
        else if Ascii.eqb c "+" then (false, s')
        else (false, s) in
      match parseUnsigned digits with
      | None => None
      | Some u =>
          let n := if neg then - u else u in
          if (int64_min <=? n) && (n <=? int64_max) then Some n else None
      end
  end.

(** Decimal digits of a non-negative number, most significant first. *)
Fixpoint formatDigits (fuel : nat) (n : Z) (acc : string) : string :=
  match fuel with
  | O => acc
  | S fuel' =>
      let acc' := String (digitChar (n mod 10)) acc in
      if n <? 10 then acc' else formatDigits fuel' (n / 10) acc'
  end.

Definition formatUnsigned (n : Z) : string :=
  formatDigits (S (Z.to_nat (Z.log2 n))) n EmptyString.

(** [strconv.FormatInt(n, 10)], which is also what [%d] prints. *)
Definition FormatInt (n : Z) : string :=
  if n <? 0 then String "-" (formatUnsigned (- n)) else formatUnsigned n.

(** [strconv.Itoa] *)
Definition Itoa (n : Z) : string := FormatInt n.

(** ** [net/textproto]: canonical header keys *)

(** [validHeaderFieldByte]: the token characters of RFC 7230. *)
Definition isLower (c : ascii) : bool :=
  (97 <=? nat_of_ascii c)%nat && (nat_of_ascii c <=? 122)%nat.
Definition isUpper (c : ascii) : bool :=
  (65 <=? nat_of_ascii c)%nat && (nat_of_ascii c <=? 90)%nat.

Definition validHeaderFieldByte (c : ascii) : bool :=
  isLower c || isUpper c || isDigit c
  || existsb (Ascii.eqb c)
       ["!"; "#"; "$"; "%"; "&"; "'"; "*"; "+"; "-"; "."; "^"; "_"; "`"; "|"; "~"]%char.

Fixpoint allBytes (p : ascii -> bool) (s : string) : bool :=
  match s with
  | EmptyString => true
  | String c s' => p c && allBytes p s'
  end.

Definition toUpper (c : ascii) : ascii :=
  if isLower c then ascii_of_nat (nat_of_ascii c - 32) else c.
Definition toLower (c : ascii) : ascii :=
  if isUpper c then ascii_of_nat (nat_of_ascii c + 32) else c.

Fixpoint canonicalize (upper : bool) (s : string) : string :=
  match s with
  | EmptyString => EmptyString
  | String c s' =>
      let c' := if upper then toUpper c else toLower c in
      String c' (canonicalize (Ascii.eqb c' "-") s')
  end.

(** [textproto.CanonicalMIMEHeaderKey]: a key that holds a byte that is not
    a token character is returned unchanged. *)
Definition CanonicalMIMEHeaderKey (s : string) : string :=
  if allBytes validHeaderFieldByte s then canonicalize true s else s.

(** ** [strings.Index], [strings.ReplaceAll], [strings.Contains] *)

(** [strings.Index(s, sub)] *)
Fixpoint Index (s sub : string) : option nat :=
  if String.prefix sub s then Some O
  else match s with
       | EmptyString => None
       | String _ s' => option_map S (Index s' sub)
       end.

Definition Contains (s sub : string) : bool :=
  match Index s sub with Some _ => true | None => false end.

Fixpoint IndexByte (s : string) (c : ascii) : option nat :=
  match s with
  | EmptyString => None
  | String a s' => if Ascii.eqb a c then Some O else option_map S (IndexByte s' c)
  end.

Fixpoint LastIndexByte (s : string) (c : ascii) : option nat :=
  match s with
  | EmptyString => None
  | String a s' =>
      match LastIndexByte s' c with
      | Some i => Some (S i)
      | None => if Ascii.eqb a c then Some O else None
      end
  end.

(** [strings.ReplaceAll(s, old, new)] for a non-empty [old]; [skip] counts
    the bytes of a match that are still to be passed over. *)
Fixpoint replaceAllFrom (skip : nat) (s old new : string) : string :=
  match s with
  | EmptyString => EmptyString
  | String c s' =>
      match skip with
      | S k => replaceAllFrom k s' old new
      | O =>
          if String.prefix old s
          then new +:+ replaceAllFrom (String.length old - 1) s' old new
          else String c (replaceAllFrom O s' old new)
      end
  end.

(** With an empty [old], Go inserts [new] before every character and at the
    end; the model does so for every byte. *)
Fixpoint intersperse (s new : string) : string :=
  match s with
  | EmptyString => new
  | String c s' => new +:+ String c (intersperse s' new)
  end.

Definition ReplaceAll (s old new : string) : string :=
  if isEmpty old then intersperse s new else replaceAllFrom O s old new.

(** ** [net.SplitHostPort] *)

Definition SplitHostPort (hostport : string) : option (string * string) :=
  match LastIndexByte hostport ":" with
  | None => None                                  (* missing port in address *)
  | Some i =>
      let checked : option (string * nat * nat) :=
        if HasPrefix hostport "[" then
          match IndexByte hostport "]" with
          | None => None                          (* missing ']' in address *)
          | Some end_ =>
              if (end_ + 1 =? String.length hostport)%nat then None
              else if (end_ + 1 =? i)%nat
              then Some (take (end_ - 1) (drop 1 hostport), 1%nat, (end_ + 1)%nat)
              else None
          end
        else
          let host := take i hostport in
          match IndexByte host ":" with
          | Some _ => None                        (* too many colons in address *)
          | None => Some (host, O, O)
          end in
      match checked with
      | None => None
      | Some (host, j, k) =>
          match IndexByte (drop j hostport) "[", IndexByte (drop k hostport) "]" with
          | None, None => Some (host, drop (i + 1) hostport)
          | _, _ => None
          end
      end
  end.

(** ** [strings.Split] for a non-empty separator of any length; [skip]
    counts the separator bytes still to be passed over. *)
Fixpoint splitFrom (skip : nat) (s sep : string) : list string :=
  match s with
  | EmptyString => [EmptyString]
  | String c s' =>
      match skip with
      | S k => splitFrom k s' sep
      | O =>
          if String.prefix sep s
          then EmptyString :: splitFrom (String.length sep - 1) s' sep
          else match splitFrom O s' sep with
               | x :: xs => String c x :: xs
               | [] => [String c EmptyString]
               end
      end
  end.

Definition Split (s sep : string) : list string := splitFrom O s sep.

(** [string(rune(b))] for a byte [b]: the UTF-8 encoding of U+0000..U+00FF. *)
Definition stringOfByteRune (c : ascii) : string :=
  let n := nat_of_ascii c in
  if (n <? 128)%nat then String c EmptyString
  else String (ascii_of_nat (192 + n / 64))
         (String (ascii_of_nat (128 + n mod 64)) EmptyString).

(** The longest prefix of bytes that satisfy [p], and the rest. *)
Fixpoint span (p : ascii -> bool) (s : string) : string * string :=
  match s with
  | EmptyString => (EmptyString, EmptyString)
  | String c s' =>
      if p c then let '(a, b) := span p s' in (String c a, b)
      else (EmptyString, s)
  end.

(** ** [path] and [path/filepath] (with [/] as the separator) *)

(** [path.Ext]: the suffix from the last dot of the last path element. *)
Fixpoint Ext (name : string) : string :=
  match name with
  | EmptyString => EmptyString
  | String c s' =>
      let e := Ext s' in
      if negb (isEmpty e) then e
      else if existsb (Ascii.eqb "/") (list_ascii_of_string s') then EmptyString
      else if Ascii.eqb c "." then name
      else EmptyString
  end.

(** One path element met by [Clean]; [stack] holds the elements kept so
    far, the last one first. *)
Definition cleanStep (rooted : bool) (stack : list string) (elem : string) : list string :=
  if isEmpty elem || String.eqb elem "." then stack
  else if String.eqb elem ".." then
    match stack with
    | top :: rest => if String.eqb top ".." then elem :: stack else rest
    | [] => if rooted then [] else [elem]
    end
  else elem :: stack.

(** [path.Clean]: multiple slashes become one, [.] elements go, an inner
    [..] goes with the element before it, [..] elements at the start of a
    rooted path go; the empty result is [.]. *)
Definition Clean (p : string) : string :=
  let rooted := HasPrefix p "/" in
  let kept := rev (fold_left (cleanStep rooted) (SplitByte "/" p) []) in
  let out := (if rooted then "/" else EmptyString) +:+ Join kept "/" in
  if isEmpty out then "." else out.

(** [path.Join]: empty elements are ignored, the result is cleaned. *)
Fixpoint PathJoin (elem : list string) : string :=
  match elem with
  | [] => EmptyString
  | e :: rest => if isEmpty e then PathJoin rest else Clean (Join elem "/")
  end.

(** [path.Base] *)
Definition Base (p : string) : string :=
  if isEmpty p then "."
  else
    let p := TrimRightByte p "/" in
    if isEmpty p then "/"
    else default EmptyString (last (SplitByte "/" p)).

End Go.


(* ================================================================== *)
(** * net/http data: headers, requests, response writers               *)
(* ================================================================== *)

Module Http.

(** [http.Header] is [map[string][]string]. *)
Abbreviation Header := (gmap string (list string)).

(** [h.Get(key)]: the first value stored under the canonical key. *)
Definition Get (h : Header) (key : string) : string :=
  match h !! Go.CanonicalMIMEHeaderKey key with
  | Some (v :: _) => v
  | _ => EmptyString
  end.

Definition Set_ (h : Header) (key value : string) : Header :=
  <[Go.CanonicalMIMEHeaderKey key := [value]]> h.

Definition Add (h : Header) (key value : string) : Header :=
  let k := Go.CanonicalMIMEHeaderKey key in
  <[k := default [] (h !! k) ++ [value]]> h.

Definition Del (h : Header) (key : string) : Header :=
  delete (Go.CanonicalMIMEHeaderKey key) h.

Record Request := {
  Method : string;
  Path : string;            (* r.URL.Path *)
  ReqHeader : Header;
  RemoteAddr : string;
  Body : string
}.

(** What a handler has done to its [http.ResponseWriter]: the header map,
    the status code once [WriteHeader] has been called, the bytes written. *)
Record ResponseWriter := {
  RespHeader : Header;
  Status : option Z;
  Written : string
}.

Definition newResponseWriter : ResponseWriter :=
  {| RespHeader := ∅; Status := None; Written := EmptyString |}.

Definition withHeader (w : ResponseWriter) (h : Header) : ResponseWriter :=
  {| RespHeader := h; Status := Status w; Written := Written w |}.

(** [w.WriteHeader(code)]: only the first call takes effect. *)
Definition WriteHeader (w : ResponseWriter) (code : Z) : ResponseWriter :=
  match Status w with
  | Some _ => w
  | None => {| RespHeader := RespHeader w; Status := Some code; Written := Written w |}
  end.

(** [w.Write(p)]: an implicit [WriteHeader(200)] when none was sent. *)
Definition Write (w : ResponseWriter) (p : string) : ResponseWriter :=
  let w := WriteHeader w 200 in
  {| RespHeader := RespHeader w; Status := Status w; Written := Written w +:+ p |}.

(** [http.Error(w, msg, code)] *)
Definition Error (w : ResponseWriter) (msg : string) (code : Z) : ResponseWriter :=
  let h := Set_ (RespHeader w) "Content-Type" "text/plain; charset=utf-8" in
  let h := Set_ h "X-Content-Type-Options" "nosniff" in
  Write (WriteHeader (withHeader w h) code) (msg +:+ String "010" EmptyString).

Definition StatusOK : Z := 200.
Definition StatusPartialContent : Z := 206.
Definition StatusMovedPermanently : Z := 301.
Definition StatusNotModified : Z := 304.
Definition StatusTemporaryRedirect : Z := 307.
Definition StatusBadRequest : Z := 400.
Definition StatusForbidden : Z := 403.
Definition StatusNotFound : Z := 404.
Definition StatusPreconditionFailed : Z := 412.
Definition StatusRequestedRangeNotSatisfiable : Z := 416.
Definition StatusInternalServerError : Z := 500.

End Http.

(* ================================================================== *)
(** * pkg/swhttp/fs.go: the content server                             *)
(* ================================================================== *)

Module SwHttp.
Import Http.

(** ** Collaborators *)

(** [time.Time], as seconds since the Unix epoch and nanoseconds. *)
Record Time := { sec : Z; nsec : Z }.

Definition zeroTime : Time := {| sec := -62135596800; nsec := 0 |}.
Definition unixEpochTime : Time := {| sec := 0; nsec := 0 |}.

Definition Equal (a b : Time) : bool := (sec a =? sec b) && (nsec a =? nsec b).
Definition Before (a b : Time) : bool :=
  (sec a <? sec b) || ((sec a =? sec b) && (nsec a <? nsec b)).
Definition IsZero (t : Time) : bool := Equal t zeroTime.
Definition TruncateSecond (t : Time) : Time := {| sec := sec t; nsec := 0 |}.
Definition Unix (t : Time) : Z := sec t.

(** An [io.ReadSeeker] over the bytes of a regular file. *)
Record Content := { data : string; pos : nat }.

Inductive Whence := SeekStart | SeekCurrent | SeekEnd.

Definition Seek (c : Content) (offset : Z) (whence : Whence) : option (Z * Content) :=
  let base :=
    match whence with
    | SeekStart => 0
    | SeekCurrent => Z.of_nat (pos c)
    | SeekEnd => Z.of_nat (String.length (data c))
    end in
  let abs := base + offset in
  if abs <? 0 then None
  else Some (abs, {| data := data c; pos := Z.to_nat abs |}).

(** Reading at most [n] bytes from the current position. *)
Definition readN (c : Content) (n : nat) : string * Content :=
  let chunk := Go.take n (Go.drop (pos c) (data c)) in
  (chunk, {| data := data c; pos := pos c + String.length chunk |}).

(** [io.CopyN(w, src, n)] *)
Definition CopyN (w : ResponseWriter) (c : Content) (n : Z) : ResponseWriter :=
  if n <=? 0 then w else Write w (fst (readN c (Z.to_nat n))).

Definition sniffLen : nat := 512.

(** ** Conditions and ranges *)

Inductive condResult := condNone | condTrue | condFalse.

Definition condResult_eqb (a b : condResult) : bool :=
  match a, b with
  | condNone, condNone | condTrue, condTrue | condFalse, condFalse => true
  | _, _ => false
  end.

(** httpRange specifies the byte range to be sent to the client. *)
Record httpRange := { start : Z; length : Z }.

Definition contentRange (r : httpRange) (size : Z) : string :=
  "bytes " +:+ Go.FormatInt (start r) +:+ "-"
  +:+ Go.FormatInt (start r + length r - 1) +:+ "/" +:+ Go.FormatInt size.

Inductive rangeResult :=
| RangesOk (ranges : list httpRange)
| ErrInvalidRange
| ErrNoOverlap.

Definition errSeekerMsg : string := "seeker can't seek".
Definition errNoOverlapMsg : string := "invalid range: failed to overlap".
Definition errInvalidRangeMsg : string := "invalid range".

(** One byte-range-spec of [parseRange]'s loop: [inl] is an early return,
    [inr (Some r)] appends a range, [inr None] records a range that starts
    after the content ([noOverlap = true; continue]). *)
Definition parseRangeSpec (ra : string) (size : Z)
  : rangeResult + option httpRange :=
  match Go.CutByte "-" ra with
  | None => inl ErrInvalidRange
  | Some (start, end_) =>
      let start := Go.TrimString start in
      let end_ := Go.TrimString end_ in
      if Go.isEmpty start then
        if Go.isEmpty end_ || Go.HasPrefix end_ "-" then inl ErrInvalidRange
        else
          match Go.ParseInt end_ with
          | None => inl ErrInvalidRange
          | Some i =>
              if i <? 0 then inl ErrInvalidRange
              else
                let i := if i >? size then size else i in
                let rstart := size - i in
                inr (Some {| start := rstart; length := size - rstart |})
          end
      else
        match Go.ParseInt start with
        | None => inl ErrInvalidRange
        | Some i =>
            if i <? 0 then inl ErrInvalidRange
            else if i >=? size then inr None
            else if Go.isEmpty end_ then
              inr (Some {| start := i; length := size - i |})
            else
              match Go.ParseInt end_ with
              | None => inl ErrInvalidRange
              | Some j =>
                  if i >? j then inl ErrInvalidRange
                  else
                    let j := if j >=? size then size - 1 else j in
                    inr (Some {| start := i; length := j - i + 1 |})
              end
        end
  end.

Fixpoint parseRangeLoop (specs : list string) (size : Z)
    (ranges : list httpRange) (noOverlap : bool) : rangeResult :=
  match specs with
  | [] =>
      if noOverlap && (List.length ranges =? 0)%nat then ErrNoOverlap
      else RangesOk ranges
  | ra :: rest =>
      let ra := Go.TrimString ra in
      if Go.isEmpty ra then parseRangeLoop rest size ranges noOverlap
      else
        match parseRangeSpec ra size with
        | inl e => e
        | inr None => parseRangeLoop rest size ranges true
        | inr (Some r) => parseRangeLoop rest size (ranges ++ [r]) noOverlap
        end
  end.

(** parseRange parses a Range header string as per RFC 7233. *)
Definition parseRange (s : string) (size : Z) : rangeResult :=
  if Go.isEmpty s then RangesOk []
  else if negb (Go.HasPrefix s "bytes=") then ErrInvalidRange
  else parseRangeLoop (Go.SplitByte "," (Go.drop 6 s)) size [] false.

(** Go's [int64] addition wraps around. *)
Definition wrap64 (n : Z) : Z := (n + 2 ^ 63) mod 2 ^ 64 - 2 ^ 63.

Definition sumRangesSize (ranges : list httpRange) : Z :=
  fold_left (fun size ra => wrap64 (size + length ra)) ranges 0.


(** ** ETags *)

(** The double quote character. *)
Definition dquote : ascii := "034".

(** The characters allowed inside an ETag, up to the closing quote:
    the number of bytes before that quote. *)
Fixpoint etagEnd (s : string) : option nat :=
  match s with
  | EmptyString => None
  | String c s' =>
      let n := nat_of_ascii c in
      if (n =? 33)%nat || ((35 <=? n)%nat && (n <=? 126)%nat) || (128 <=? n)%nat
      then option_map S (etagEnd s')
      else if Ascii.eqb c dquote then Some O
      else None
  end.

(** scanETag determines if a syntactically valid ETag is present at s. *)
Definition scanETag (s : string) : string * string :=
  let s := Go.TrimString s in
  let start := if Go.HasPrefix s "W/" then 2%nat else 0%nat in
  if (String.length (Go.drop start s) <? 2)%nat
     || negb (Go.HasPrefix (Go.drop start s) (String dquote EmptyString))
  then (EmptyString, EmptyString)
  else
    match etagEnd (Go.drop (start + 1) s) with
    | Some k =>
        let i := (start + 1 + k)%nat in
        (Go.take (i + 1) s, Go.drop (i + 1) s)
    | None => (EmptyString, EmptyString)
    end.

Definition etagStrongMatch (a b : string) : bool :=
  String.eqb a b && negb (Go.isEmpty a) && Go.HasPrefix a (String dquote EmptyString).

Definition TrimPrefix (s p : string) : string :=
  if Go.HasPrefix s p then Go.drop (String.length p) s else s.

Definition etagWeakMatch (a b : string) : bool :=
  String.eqb (TrimPrefix a "W/") (TrimPrefix b "W/").

Definition isZeroTime (t : Time) : bool := IsZero t || Equal t unixEpochTime.

Section ContentServer.

(** Go library functions whose results the server only passes on. *)
Variable ParseTime : string -> option Time.          (* http.ParseTime *)
Variable FormatHTTPTime : Time -> string.            (* t.UTC().Format(http.TimeFormat) *)
Variable TypeByExtension : string -> string.         (* mime.TypeByExtension *)
Variable DetectContentType : string -> string.       (* http.DetectContentType *)
Variable multipartBoundary : string.                 (* mw.Boundary() *)
(** The bytes the multipart writer produces around the parts, and the
    multipart encoding of the ranges of a content. *)
Variable multipartOverhead : list httpRange -> string -> Z -> Z.
Variable multipartBody : list httpRange -> string -> Z -> string -> string.

(** The loop of [checkIfMatch]; [fuel] bounds the number of iterations,
    each of which shortens [im]. *)
Fixpoint checkIfMatchLoop (fuel : nat) (im : string) (etag : string) : condResult :=
  match fuel with
  | O => condFalse
  | S fuel' =>
      let im := Go.TrimString im in
      match im with
      | EmptyString => condFalse
      | String c rest =>
          if Ascii.eqb c "," then checkIfMatchLoop fuel' rest etag
          else if Ascii.eqb c "*" then condTrue
          else
            let '(et, remain) := scanETag im in
            if Go.isEmpty et then condFalse
            else if etagStrongMatch et etag then condTrue
            else checkIfMatchLoop fuel' remain etag
      end
  end.

Definition checkIfMatch (w : ResponseWriter) (r : Request) : condResult :=
  let im := Get (ReqHeader r) "If-Match" in
  if Go.isEmpty im then condNone
  else checkIfMatchLoop (S (String.length im)) im (Get (RespHeader w) "Etag").

Definition checkIfUnmodifiedSince (r : Request) (modtime : Time) : condResult :=
  let ius := Get (ReqHeader r) "If-Unmodified-Since" in
  if Go.isEmpty ius || isZeroTime modtime then condNone
  else
    match ParseTime ius with
    | None => condNone
    | Some t =>
        let modtime := TruncateSecond modtime in
        if Before modtime t || Equal modtime t then condTrue else condFalse
    end.

Fixpoint checkIfNoneMatchLoop (fuel : nat) (buf : string) (etag : string) : condResult :=
  match fuel with
  | O => condTrue
  | S fuel' =>
      let buf := Go.TrimString buf in
      match buf with
      | EmptyString => condTrue
      | String c rest =>
          if Ascii.eqb c "," then checkIfNoneMatchLoop fuel' rest etag
          else if Ascii.eqb c "*" then condFalse
          else
            let '(et, remain) := scanETag buf in
            if Go.isEmpty et then condTrue
            else if etagWeakMatch et etag then condFalse
            else checkIfNoneMatchLoop fuel' remain etag
      end
  end.

Definition checkIfNoneMatch (w : ResponseWriter) (r : Request) : condResult :=
  let inm := Get (ReqHeader r) "If-None-Match" in
  if Go.isEmpty inm then condNone
  else checkIfNoneMatchLoop (S (String.length inm)) inm (Get (RespHeader w) "Etag").

Definition isGetOrHead (r : Request) : bool :=
  String.eqb (Method r) "GET" || String.eqb (Method r) "HEAD".

Definition checkIfModifiedSince (r : Request) (modtime : Time) : condResult :=
  if negb (isGetOrHead r) then condNone
  else
    let ims := Get (ReqHeader r) "If-Modified-Since" in
    if Go.isEmpty ims || isZeroTime modtime then condNone
    else
      match ParseTime ims with
      | None => condNone
      | Some t =>
          let modtime := TruncateSecond modtime in
          if Before modtime t || Equal modtime t then condFalse else condTrue
      end.

Definition checkIfRange (w : ResponseWriter) (r : Request) (modtime : Time) : condResult :=
  if negb (isGetOrHead r) then condNone
  else
    let ir := Get (ReqHeader r) "If-Range" in
    if Go.isEmpty ir then condNone
    else
      let '(etag, _) := scanETag ir in
      if negb (Go.isEmpty etag) then
        if etagStrongMatch etag (Get (RespHeader w) "Etag") then condTrue else condFalse
      else if IsZero modtime then condFalse
      else
        match ParseTime ir with
        | None => condFalse
        | Some t => if Unix t =? Unix modtime then condTrue else condFalse
        end.

Definition setLastModified (w : ResponseWriter) (modtime : Time) : ResponseWriter :=
  if negb (isZeroTime modtime)
  then withHeader w (Set_ (RespHeader w) "Last-Modified" (FormatHTTPTime modtime))
  else w.

Definition writeNotModified (w : ResponseWriter) : ResponseWriter :=
  let h := RespHeader w in
  let h1 := delete "Content-Length" (delete "Content-Type" h) in
  let h2 := if negb (Go.isEmpty (Get h1 "Etag")) then delete "Last-Modified" h1 else h1 in
  WriteHeader (withHeader w h2) StatusNotModified.

(** checkPreconditions evaluates request preconditions and reports whether
    a precondition resulted in sending StatusNotModified or
    StatusPreconditionFailed; it also returns the Range header to honour. *)
Definition checkPreconditions (w : ResponseWriter) (r : Request) (modtime : Time)
  : bool * string * ResponseWriter :=
  let ch := checkIfMatch w r in
  let ch := if condResult_eqb ch condNone then checkIfUnmodifiedSince r modtime else ch in
  if condResult_eqb ch condFalse then
    (true, EmptyString, WriteHeader w StatusPreconditionFailed)
  else
    let continue_ :=
      let rangeHeader := Get (ReqHeader r) "Range" in
      let rangeHeader :=
        if negb (Go.isEmpty rangeHeader)
           && condResult_eqb (checkIfRange w r modtime) condFalse
        then EmptyString else rangeHeader in
      (false, rangeHeader, w) in
    match checkIfNoneMatch w r with
    | condFalse =>
        if isGetOrHead r then (true, EmptyString, writeNotModified w)
        else (true, EmptyString, WriteHeader w StatusPreconditionFailed)
    | condNone =>
        if condResult_eqb (checkIfModifiedSince r modtime) condFalse
        then (true, EmptyString, writeNotModified w)
        else continue_
    | condTrue => continue_
    end.

(** rangesMIMESize returns the number of bytes it takes to encode the
    provided ranges as a multipart response. *)
Definition rangesMIMESize (ranges : list httpRange) (contentType : string)
    (contentSize : Z) : Z :=
  wrap64 (fold_left (fun enc ra => wrap64 (enc + length ra)) ranges 0
          + multipartOverhead ranges contentType contentSize).

(** The body of [serveContent] once the size of the content is known. *)
Definition serveSized (w : ResponseWriter) (r : Request) (rangeReq ctype : string)
    (size : Z) (content : Content) : ResponseWriter :=
  let finish (w : ResponseWriter) (code sendSize : Z)
             (send : ResponseWriter -> ResponseWriter) : ResponseWriter :=
    let w := WriteHeader w code in
    if negb (String.eqb (Method r) "HEAD") then send w else w in
  if size >=? 0 then
    match parseRange rangeReq size with
    | ErrNoOverlap =>
        let w := withHeader w
                   (Set_ (RespHeader w) "Content-Range" ("bytes */" +:+ Go.FormatInt size)) in
        Error w errNoOverlapMsg StatusRequestedRangeNotSatisfiable
    | ErrInvalidRange =>
        Error w errInvalidRangeMsg StatusRequestedRangeNotSatisfiable
    | RangesOk ranges =>
        let ranges := if sumRangesSize ranges >? size then [] else ranges in
        let lengthHeaders (w : ResponseWriter) (sendSize : Z) : ResponseWriter :=
          let h := Set_ (RespHeader w) "Accept-Ranges" "bytes" in
          let h := if Go.isEmpty (Get h "Content-Encoding")
                   then Set_ h "Content-Length" (Go.FormatInt sendSize) else h in
          withHeader w h in
        match ranges with
        | [] =>
            finish (lengthHeaders w size) StatusOK size
                   (fun w => CopyN w content size)
        | [ra] =>
            match Seek content (start ra) SeekStart with
            | None =>
                Error w "negative position" StatusRequestedRangeNotSatisfiable
            | Some (_, content) =>
                let w := withHeader w
                           (Set_ (RespHeader w) "Content-Range" (contentRange ra size)) in
                finish (lengthHeaders w (length ra)) StatusPartialContent (length ra)
                       (fun w => CopyN w content (length ra))
            end
        | _ =>
            let sendSize := rangesMIMESize ranges ctype size in
            let w := withHeader w
                       (Set_ (RespHeader w) "Content-Type"
                          ("multipart/byteranges; boundary=" +:+ multipartBoundary)) in
            finish (lengthHeaders w sendSize) StatusPartialContent sendSize
                   (fun w =>
                      if sendSize <=? 0 then w
                      else Write w (Go.take (Z.to_nat sendSize)
                                      (multipartBody ranges ctype size (data content))))
        end
    end
  else
    finish w StatusOK size (fun w => CopyN w content size).

(** serveContent: [sizeFunc] is called at most once; [None] is its error. *)
Definition serveContent (w : ResponseWriter) (r : Request) (name : string)
    (modtime : Time) (sizeFunc : Content -> option (Z * Content))
    (content : Content) : ResponseWriter :=
  let w := setLastModified w modtime in
  let '(done, rangeReq, w) := checkPreconditions w r modtime in
  if done then w
  else
    let typed : ResponseWriter + (ResponseWriter * string * Content) :=
      match RespHeader w !! "Content-Type" with
      | None =>
          let ctype := TypeByExtension (Go.Ext name) in
          if Go.isEmpty ctype then
            let '(buf, content) := readN content sniffLen in
            let ctype := DetectContentType buf in
            match Seek content 0 SeekStart with
            | None => inl (Error w errSeekerMsg StatusInternalServerError)
            | Some (_, content) =>
                inr (withHeader w (Set_ (RespHeader w) "Content-Type" ctype), ctype, content)
            end
          else inr (withHeader w (Set_ (RespHeader w) "Content-Type" ctype), ctype, content)
      | Some ctypes => inr (w, hd EmptyString ctypes, content)
      end in
    match typed with
    | inl w => w
    | inr (w, ctype, content) =>
        match sizeFunc content with
        | None => Error w errSeekerMsg StatusInternalServerError
        | Some (size, content) => serveSized w r rangeReq ctype size content
        end
    end.

(** ServeContent: the size is found by seeking to the end and back. *)
Definition ServeContent (w : ResponseWriter) (r : Request) (name : string)
    (modtime : Time) (content : Content) : ResponseWriter :=
  let sizeFunc (c : Content) : option (Z * Content) :=
    match Seek c 0 SeekEnd with
    | None => None
    | Some (size, c) =>
        match Seek c 0 SeekStart with
        | None => None
        | Some (_, c) => Some (size, c)
        end
    end in
  serveContent w r name modtime sizeFunc content.

End ContentServer.

End SwHttp.

(* ================================================================== *)
(** * pkg/handler/proxy.go: the reverse proxy                          *)
(* ================================================================== *)

Module Proxy.
Import Http.

(** [type Set map[string]struct{}] is [gset string]. *)
Definition hopHeaders : gset string :=
  list_to_set
    [ "Connection"; "Keep-Alive"; "Proxy-Authenticate"; "Proxy-Authorization";
      "Te"; "Trailers"; "Transfer-Encoding"; "Upgrade" ].

Definition copyHeader (dst src : Header) (omitHeaders : gset string) : Header :=
  map_fold
    (fun k vv dst =>
       if decide (k ∈ omitHeaders) then dst
       else foldl (fun d v => Add d k v) dst vv)
    dst src.

Definition appendHostToXForwardHeader (header : Header) (host : string) : Header :=
  let host :=
    match header !! "X-Forwarded-For" with
    | Some prior => Go.Join prior ", " +:+ ", " +:+ host
    | None => host
    end in
  Set_ header "X-Forwarded-For" host.

(** The request handed to [http.Client.Do] and the response it returns. *)
Record Upstream := {
  UpMethod : string;
  UpURL : string;
  UpHeader : Header;
  UpBody : string
}.

Record UpstreamResponse := {
  UpStatus : Z;
  UpRespHeader : Header;
  UpRespBody : string
}.

Section ReverseProxy.

(** [http.NewRequest] fails on an invalid method or an unparsable URL. *)
Variable NewRequestOk : string -> string -> bool.
(** [client.Do]: the upstream's answer, or a transport error. *)
Variable Do : Upstream -> option UpstreamResponse.

(** The first half of [proxy.ServeHTTP]: the upstream request.
    [urlParams] is chi's [rctx.URLParams], keys with their values. *)
Definition upstreamRequest (remote : string) (urlParams : list (string * string))
    (req : Request) : option Upstream :=
  let remote :=
    fold_left (fun remote kv => Go.ReplaceAll remote (fst kv) (snd kv)) urlParams remote in
  if negb (NewRequestOk (Method req) remote) then None
  else
    let header := copyHeader ∅ (ReqHeader req) ∅ in
    let header :=
      match Go.SplitHostPort (RemoteAddr req) with
      | Some (clientIP, _) => appendHostToXForwardHeader header clientIP
      | None => header
      end in
    Some {| UpMethod := Method req; UpURL := remote; UpHeader := header;
            UpBody := Body req |}.

(** [proxy.ServeHTTP]; [None] is the process exit of [log.Fatal], after the
    500 answer has been written. *)
Definition ServeHTTP (remote : string) (urlParams : list (string * string))
    (wr : ResponseWriter) (req : Request) : ResponseWriter * bool :=
  match upstreamRequest remote urlParams req with
  | None => (Error wr "Server Error" StatusInternalServerError, false)
  | Some newreq =>
      match Do newreq with
      | None => (Error wr "Server Error" StatusInternalServerError, false)
      | Some resp =>
          let wr := withHeader wr (copyHeader (RespHeader wr) (UpRespHeader resp) hopHeaders) in
          let wr := WriteHeader wr (UpStatus resp) in
          (Write wr (UpRespBody resp), true)
      end
  end.

End ReverseProxy.

End Proxy.


(** * Results of code that can panic

    [Panic] is a Go run-time panic (an index out of range); [OutOfFuel] is
    returned by the recursive functions of the model that run on fuel, when
    the fuel given did not suffice. *)

Inductive run (A : Type) : Type :=
| Ret (a : A)
| Panic (why : string)
| OutOfFuel.
Arguments Ret {A} a.
Arguments Panic {A} why.
Arguments OutOfFuel {A}.

#[global] Instance run_ret : MRet run := fun A a => Ret a.
#[global] Instance run_bind : MBind run := fun A B f m =>
  match m with
  | Ret a => f a
  | Panic why => Panic why
  | OutOfFuel => OutOfFuel
  end.

#[global] Instance run_fmap : FMap run := fun A B f m =>
  match m with
  | Ret a => Ret (f a)
  | Panic why => Panic why
  | OutOfFuel => OutOfFuel
  end.

Definition indexOutOfRange : string := "index out of range".

(* ================================================================== *)
(** * path_to_regexp: the path-template matcher                        *)
(* ================================================================== *)

Module PathToRegexp.

Definition DEFAULT_DELIMITER : string := "/".

Record Options := {
  Delimiter : string;
  Whitelist : string;
  Sensitive : bool;
  Strict : bool;
  Start : bool;
  End_ : bool;
  EndsWith : string
}.

Definition NewOptions : Options :=
  {| Delimiter := EmptyString; Whitelist := EmptyString; Sensitive := false;
     Strict := false; Start := true; End_ := true; EndsWith := EmptyString |}.

Record Token := {
  path : string;          (* "string" version *)
  Name : string;
  Prefix : string;
  TokDelimiter : string;
  Optional : bool;
  Repeat : bool;
  Pattern : string
}.

Definition literalToken (p : string) : Token :=
  {| path := p; Name := EmptyString; Prefix := EmptyString;
     TokDelimiter := EmptyString; Optional := false; Repeat := false;
     Pattern := EmptyString |}.

(** The compiled expression is kept as its source text. *)
Record matcherParser := {
  regexp : string;
  keys : list Token
}.

Record Result := {
  ResKeys : list Token;
  Results : list string
}.

(** [escapeStringRE]: every byte of [.+*?=^!:${}()[]|/\] gets a backslash. *)
Fixpoint escapeWith (special : list ascii) (str : string) : string :=
  match str with
  | EmptyString => EmptyString
  | String c s' =>
      if existsb (Ascii.eqb c) special
      then String "\" (String c (escapeWith special s'))
      else String c (escapeWith special s')
  end.

Definition escapeString (str : string) : string :=
  escapeWith
    ["."; "+"; "*"; "?"; "="; "^"; "!"; ":"; "$"; "{"; "}"; "("; ")"; "["; "]";
     "|"; "/"; "\"]%char str.

Definition escapeGroup (str : string) : string :=
  escapeWith ["="; "!"; ":"; "$"; "/"; "("; ")"]%char str.

(** ** The scanner [pathRegexp]

    [(\\.)|(?:\:(\w+)(?:\(((?:\\.|[^\\()])+)\))?|\(((?:\\.|[^\\()])+)\))([+*?])?],
    written out as a function; it is exact on ASCII templates, where a
    character is a byte. *)

Definition isWordByte (c : ascii) : bool :=
  Go.isLower c || Go.isUpper c || Go.isDigit c || Ascii.eqb c "_".

Definition newline : ascii := "010".

(** Zero or more of [\\.] or [[^\\()]], then the closing parenthesis:
    the group body and what follows the parenthesis. *)
Fixpoint groupBody (s : string) : option (string * string) :=
  match s with
  | EmptyString => None
  | String c s' =>
      if Ascii.eqb c ")" then Some (EmptyString, s')
      else if Ascii.eqb c "(" then None
      else if Ascii.eqb c "\" then
        match s' with
        | EmptyString => None
        | String d s'' =>
            if Ascii.eqb d newline then None
            else match groupBody s'' with
                 | Some (b, r) => Some (String c (String d b), r)
                 | None => None
                 end
        end
      else match groupBody s' with
           | Some (b, r) => Some (String c b, r)
           | None => None
           end
  end.

(** A parenthesised group at the head of [s]: its non-empty body. *)
Definition parenGroup (s : string) : option (string * string) :=
  match s with
  | String "(" s' =>
      match groupBody s' with
      | Some (b, r) => if Go.isEmpty b then None else Some (b, r)
      | None => None
      end
  | _ => None
  end.

(** The submatches of one match of [pathRegexp]. *)
Record submatches := {
  whole : string;       (* match(0) *)
  escaped : string;     (* match(1) *)
  name : string;        (* match(2) *)
  capture : string;     (* match(3) *)
  group : string;       (* match(4) *)
  modifier : string     (* match(5) *)
}.

Definition takeModifier (s : string) : string * string :=
  match s with
  | String c s' =>
      if Ascii.eqb c "+" || Ascii.eqb c "*" || Ascii.eqb c "?"
      then (String c EmptyString, s') else (EmptyString, s)
  | EmptyString => (EmptyString, s)
  end.

(** A match of [pathRegexp] that starts at the head of [s], and the rest. *)
Definition matchHere (s : string) : option (submatches * string) :=
  match s with
  | String "\" (String d rest) =>
      if Ascii.eqb d newline then None
      else
        let e := String "\" (String d EmptyString) in
        Some ({| whole := e; escaped := e; name := EmptyString;
                 capture := EmptyString; group := EmptyString;
                 modifier := EmptyString |}, rest)
  | String ":" s' =>
      let '(nm, r) := Go.span isWordByte s' in
      if Go.isEmpty nm then None
      else
        let '(cap, capText, r1) :=
          match parenGroup r with
          | Some (b, r') => (b, "(" +:+ b +:+ ")", r')
          | None => (EmptyString, EmptyString, r)
          end in
        let '(md, r2) := takeModifier r1 in
        Some ({| whole := ":" +:+ nm +:+ capText +:+ md; escaped := EmptyString;
                 name := nm; capture := cap; group := EmptyString;
                 modifier := md |}, r2)
  | String "(" _ =>
      match parenGroup s with
      | Some (b, r1) =>
          let '(md, r2) := takeModifier r1 in
          Some ({| whole := "(" +:+ b +:+ ")" +:+ md; escaped := EmptyString;
                   name := EmptyString; capture := EmptyString; group := b;
                   modifier := md |}, r2)
      | None => None
      end
  | _ => None
  end.

(** [pathRegexp.FindStringSubmatchIndex(s)]: the leftmost match, the text
    before it, and the text after it. *)
Fixpoint findMatch (s : string) : option (string * submatches * string) :=
  match matchHere s with
  | Some (m, rest) => Some (EmptyString, m, rest)
  | None =>
      match s with
      | EmptyString => None
      | String c s' =>
          match findMatch s' with
          | Some (before, m, rest) => Some (String c before, m, rest)
          | None => None
          end
      end
  end.

(** The last byte of a non-empty string and what precedes it. *)
Fixpoint unsnoc (s : string) : option (string * ascii) :=
  match s with
  | EmptyString => None
  | String c s' =>
      match unsnoc s' with
      | None => Some (EmptyString, c)
      | Some (init, l) => Some (String c init, l)
      end
  end.

(** The loop of [parse]; [rest] is [str[index:]]. Every match is at least
    two bytes long, so [fuel] above the length of [str] is never used up. *)
Fixpoint parseLoop (fuel : nat) (options : Options) (rest : string)
    (path_ : string) (pathEscaped : bool) (key : Z) (tokens : list Token)
  : list Token * string * string :=
  match fuel with
  | O => (tokens, path_, rest)
  | S fuel' =>
      match findMatch rest with
      | None => (tokens, path_, rest)
      | Some (before, m, rest') =>
          let path_ := path_ +:+ before in
          if negb (Go.isEmpty (escaped m)) then
            parseLoop fuel' options rest'
              (path_ +:+ match Go.drop 1 (escaped m) with
                         | String d _ => Go.stringOfByteRune d
                         | EmptyString => EmptyString
                         end) true key tokens
          else
            let defaultDelimiter :=
              if Go.isEmpty (Delimiter options) then DEFAULT_DELIMITER
              else Delimiter options in
            let '(prev, path_) :=
              if negb pathEscaped && negb (Go.isEmpty path_) then
                match unsnoc path_ with
                | Some (init, c) =>
                    let matches :=
                      if negb (Go.isEmpty (Whitelist options)) then
                        match Go.Index (Whitelist options) (Go.stringOfByteRune c) with
                        | Some i => (0 <? i)%nat
                        | None => false
                        end
                      else true in
                    if matches then (Go.stringOfByteRune c, init)
                    else (EmptyString, path_)
                | None => (EmptyString, path_)
                end
              else (EmptyString, path_) in
            let '(tokens, path_, pathEscaped) :=
              if negb (Go.isEmpty path_)
              then (tokens ++ [literalToken path_], EmptyString, false)
              else (tokens, path_, pathEscaped) in
            let repeat := String.eqb (modifier m) "+" || String.eqb (modifier m) "*" in
            let optional := String.eqb (modifier m) "?" || String.eqb (modifier m) "*" in
            let pattern := if negb (Go.isEmpty (capture m)) then capture m else group m in
            let delimiter := if negb (Go.isEmpty prev) then prev else DEFAULT_DELIMITER in
            let '(tokName, key) :=
              if Go.isEmpty (name m) then (Go.Itoa key, key + 1) else (name m, key) in
            let pattern :=
              if negb (Go.isEmpty pattern) then escapeGroup pattern
              else if String.eqb delimiter defaultDelimiter
              then "[^" +:+ escapeString delimiter +:+ "]+?"
              else "[^" +:+ escapeString (delimiter +:+ defaultDelimiter) +:+ "]+?" in
            parseLoop fuel' options rest' path_ pathEscaped key
              (tokens ++ [{| path := EmptyString; Name := tokName; Prefix := prev;
                             TokDelimiter := delimiter; Optional := optional;
                             Repeat := repeat; Pattern := pattern |}])
      end
  end.

Definition parse (str : string) (options : Options) : list Token :=
  let '(tokens, path_, rest) :=
    parseLoop (S (String.length str)) options str EmptyString false 0 [] in
  (* Push any remaining characters. *)
  if negb (Go.isEmpty path_) && negb (Go.isEmpty rest)
  then tokens ++ [literalToken rest]
  else tokens.

(** The expression that [tokensToRegExp] builds, and the keys it collects. *)
Definition tokenRoute (token : Token) : string :=
  if negb (Go.isEmpty (path token)) then escapeString (path token)
  else
    let capture_ :=
      if Repeat token
      then "(?:" +:+ Pattern token +:+ ")(?:" +:+ escapeString (TokDelimiter token)
           +:+ "(?:" +:+ Pattern token +:+ "))*"
      else Pattern token in
    if Optional token then
      if Go.isEmpty (Prefix token) then "(" +:+ capture_ +:+ ")?"
      else "(?:" +:+ escapeString (Prefix token) +:+ "(" +:+ capture_ +:+ "))?"
    else escapeString (Prefix token) +:+ "(" +:+ capture_ +:+ ")".

Definition routeOf (tokens : list Token) (options : Options) : string :=
  let strict := Strict options in
  let delimiter :=
    if Go.isEmpty (Delimiter options) then DEFAULT_DELIMITER else Delimiter options in
  let endsWith :=
    if negb (Go.isEmpty (EndsWith options))
    then escapeString (EndsWith options) +:+ "|$" else "$" in
  let route := if Start options then "^" else EmptyString in
  let route := fold_left (fun route token => route +:+ tokenRoute token) tokens route in
  let route :=
    if End_ options then
      let route := if negb strict then route +:+ "(?:" +:+ escapeString delimiter +:+ ")?"
                   else route in
      if String.eqb endsWith "$" then route +:+ "$"
      else route +:+ "(?=" +:+ endsWith +:+ ")"
    else
      let isEndDelimited :=
        match last tokens with
        | None => true
        | Some endToken =>
            if negb (Go.isEmpty (path endToken)) then
              match unsnoc (path endToken) with
              | Some (_, c) => String.eqb (String c EmptyString) delimiter
              | None => false
              end
            else false
        end in
      let route :=
        if negb strict
        then route +:+ "(?:" +:+ escapeString delimiter +:+ "(?=" +:+ endsWith +:+ "))?"
        else route in
      if negb isEndDelimited
      then route +:+ "(?=" +:+ escapeString delimiter +:+ "|" +:+ endsWith +:+ ")"
      else route in
  if negb (Sensitive options) then "(?i)" +:+ route else route.

Definition keysOf (tokens : list Token) : list Token :=
  filter (fun token => Go.isEmpty (path token) = true) tokens.

Section Compile.

(** [regexp.Compile(src)] returns no error. *)
Variable regexpCompiles : string -> bool.

(** PathToRegexp converts a path to a tokenized regular expression based on
    [:NAME] tokens; the second component is [err != nil]. *)
Definition PathToRegexp (path_ : string) (options : Options) : matcherParser * bool :=
  let tokens := parse path_ options in
  let route := routeOf tokens options in
  ({| regexp := route; keys := keysOf tokens |}, negb (regexpCompiles route)).

End Compile.

Definition MatchString (matcher : matcherParser) (path_ : string) : bool * Result :=
  (true, {| ResKeys := keys matcher; Results := [] |}).

(** [Compile(path)] returns the function [toPath]. *)
Definition Compile (path_ : string) : gmap string string -> string :=
  fun params => path_.

End PathToRegexp.

(* ================================================================== *)
(** * minimatch: balanced match, brace expansion, the glob matcher     *)
(* ================================================================== *)

Module Minimatch.

(** ** balanced.go *)

Record BalanceMatchResult := {
  Start : Z;
  End_ : Z;
  Pre : string;
  Body : string;
  Post : string
}.

(** [indexOf]: [-1] when [substr] does not occur from [offset] on. *)
Definition indexOf (str substr : string) (offset : Z) : Z :=
  match Go.Index (Go.drop (Z.to_nat offset) str) substr with
  | None => -1
  | Some value => Z.of_nat value + offset
  end.

(** The loop of [balanceMatchRange]; the position [i] grows at every turn,
    so [fuel] above the length of [str] is never used up. *)
Fixpoint balanceLoop (fuel : nat) (a b str : string) (ai bi i : Z)
    (begs : list Z) (left_ right_ : Z) : run (option (Z * Z) * list Z * Z * Z) :=
  match fuel with
  | O => OutOfFuel
  | S fuel' =>
      if i <? 0 then Ret (None, begs, left_, right_)
      else
        let next (ai bi : Z) (begs : list Z) (left_ right_ : Z) :=
          let i := if (ai <? bi) && (ai >=? 0) then ai else bi in
          balanceLoop fuel' a b str ai bi i begs left_ right_ in
        if i =? ai then
          next (indexOf str a (i + 1)) bi (begs ++ [i]) left_ right_
        else
          match begs with
          | [beg] => Ret (Some (beg, bi), [], left_, right_)
          | _ =>
              match last begs with
              | None => Panic indexOutOfRange
              | Some beg =>
                  let begs := removelast begs in
                  let '(left_, right_) := if beg <? left_ then (beg, bi) else (left_, right_) in
                  next ai (indexOf str b (i + 1)) begs left_ right_
              end
          end
  end.

Definition balanceMatchRange (a b str : string) : run (option (Z * Z)) :=
  let ai := indexOf str a 0 in
  let bi := indexOf str b (ai + 1) in
  if (ai >=? 0) && (bi >? 0) then
    r ← balanceLoop (S (String.length str)) a b str ai bi ai []
          (Z.of_nat (String.length str)) 0;
    let '(result, begs, left_, right_) := r in
    if negb (List.length begs =? 0)%nat then Ret (Some (left_, right_))
    else Ret result
  else Ret None.

(** BalancedMatch; [None] is the error "No match found". *)
Definition BalancedMatch (prefix suffix str : string) : run (option BalanceMatchResult) :=
  result ← balanceMatchRange prefix suffix str;
  match result with
  | None => Ret None
  | Some (start, end_) =>
      let lp := Z.of_nat (String.length prefix) in
      let ls := Z.of_nat (String.length suffix) in
      let body :=
        if start + lp >? end_ then EmptyString
        else Go.take (Z.to_nat (end_ - (start + lp))) (Go.drop (Z.to_nat (start + lp)) str) in
      let post :=
        if end_ + ls >? Z.of_nat (String.length str) then EmptyString
        else Go.drop (Z.to_nat (end_ + ls)) str in
      Ret (Some {| Start := start; End_ := end_; Pre := Go.take (Z.to_nat start) str;
                   Body := body; Post := post |})
  end.

(** ** brace_expansion.go *)

Section BraceExpansion.

(** The five values of [rand.Int31()] drawn when the package is loaded. *)
Variables rSlash rOpen rClose rComma rPeriod : Z.

Definition nul : string := String "000" EmptyString.
Definition escSlash : string := nul +:+ "SLASH" +:+ Go.Itoa rSlash +:+ nul.
Definition escOpen : string := nul +:+ "OPEN" +:+ Go.Itoa rOpen +:+ nul.
Definition escClose : string := nul +:+ "CLOSE" +:+ Go.Itoa rClose +:+ nul.
Definition escComma : string := nul +:+ "COMMA" +:+ Go.Itoa rComma +:+ nul.
Definition escPeriod : string := nul +:+ "PERIOD" +:+ Go.Itoa rPeriod +:+ nul.

Definition swap (str old new : string) : string := Go.Join (Go.Split str old) new.

Definition escapeBraces (str : string) : string :=
  let str := swap str "\\" escSlash in
  let str := swap str "\{" escOpen in
  let str := swap str "\}" escClose in
  let str := swap str "\," escComma in
  swap str "\." escPeriod.

Definition unescapeBraces (str : string) : string :=
  let str := swap str escSlash "\" in
  let str := swap str escOpen "{" in
  let str := swap str escClose "}" in
  let str := swap str escComma "," in
  swap str escPeriod ".".

(** Basically just [str.split(",")], but handling cases where we have
    nested braced sections, which should be treated as individual members. *)
Fixpoint parseCommaParts (fuel : nat) (str : string) : run (list string) :=
  match fuel with
  | O => OutOfFuel
  | S fuel' =>
      if Go.isEmpty str then Ret [EmptyString]
      else
        m ← BalancedMatch "{" "}" str;
        match m with
        | None => Ret (Go.SplitByte "," str)
        | Some m =>
            let p := Go.SplitByte "," (Pre m) in
            let p := removelast p ++ [default EmptyString (last p) +:+ "{" +:+ Body m +:+ "}"] in
            postParts ← parseCommaParts fuel' (Post m);
            if negb (Go.isEmpty (Post m)) then
              match postParts with
              | [] => Panic indexOutOfRange
              | first :: postParts =>
                  Ret (removelast p ++ [default EmptyString (last p) +:+ first] ++ postParts)
              end
            else Ret p
        end
  end.

Definition embrace (str : string) : string := "{" +:+ str +:+ "}".

(** [^-?\d+] at the head of [s]: what follows it. *)
Definition signedDigits (s : string) : option string :=
  let s := match s with String "-" s' => s' | _ => s end in
  let '(ds, rest) := Go.span Go.isDigit s in
  if Go.isEmpty ds then None else Some rest.

Definition dotdot (s : string) : option string :=
  match s with String "." (String "." s') => Some s' | _ => None end.

(** [(?:\.\.-?\d+)?$] *)
Definition optionalStep (s : string) : bool :=
  Go.isEmpty s
  || match dotdot s with
     | Some s1 => match signedDigits s1 with Some s2 => Go.isEmpty s2 | None => false end
     | None => false
     end.

(** [^-?\d+\.\.-?\d+(?:\.\.-?\d+)?$] *)
Definition isNumericSequence (body : string) : bool :=
  match signedDigits body with
  | Some s1 =>
      match dotdot s1 with
      | Some s2 => match signedDigits s2 with Some s3 => optionalStep s3 | None => false end
      | None => false
      end
  | None => false
  end.

Definition isLetter (c : ascii) : bool := Go.isLower c || Go.isUpper c.

(** [^[a-zA-Z]\.\.[a-zA-Z](?:\.\.-?\d+)?$] *)
Definition isAlphaSequence (body : string) : bool :=
  match body with
  | String x (String "." (String "." (String y rest))) =>
      isLetter x && isLetter y && optionalStep rest
  | _ => false
  end.

(** A closing brace before the end of the line. *)
Fixpoint closeOnLine (s : string) : bool :=
  match s with
  | EmptyString => false
  | String c s' =>
      if Ascii.eqb c "}" then true
      else if Ascii.eqb c "010" then false
      else closeOnLine s'
  end.

(** [,.*\}] occurs in [s]. *)
Fixpoint commaThenClose (s : string) : bool :=
  match s with
  | EmptyString => false
  | String c s' => (Ascii.eqb c "," && closeOnLine s') || commaThenClose s'
  end.

(** [braceShortcut], [\{.*\}], occurs in [s]. *)
Fixpoint braceShortcut (s : string) : bool :=
  match s with
  | EmptyString => false
  | String c s' => (Ascii.eqb c "{" && closeOnLine s') || braceShortcut s'
  end.

(** All of [f x] for [x] in [l], in order. *)
Fixpoint concatMapRun {A B : Type} (f : A -> run (list B)) (l : list A) : run (list B) :=
  match l with
  | [] => Ret []
  | x :: xs => ys ← f x; zs ← concatMapRun f xs; Ret (ys ++ zs)
  end.

Fixpoint expand (fuel : nat) (str : string) (isTop : bool) : run (list string) :=
  match fuel with
  | O => OutOfFuel
  | S fuel' =>
      m ← BalancedMatch "{" "}" str;
      match m with
      | None => Ret [str]
      | Some m =>
          if Go.HasSuffix (Pre m) "$" then Ret [str]
          else
            let isSequence := isNumericSequence (Body m) || isAlphaSequence (Body m) in
            let isOptions := Go.Contains (Body m) "," in
            if negb isSequence && negb isOptions then
              (* {a},b} *)
              if commaThenClose (Post m)
              then expand fuel' (Pre m +:+ "{" +:+ Body m +:+ escClose +:+ Post m) false
              else Ret [str]
            else
              let expandPost :=
                if negb (Go.isEmpty (Post m)) then expand fuel' (Post m) false
                else Ret [EmptyString] in
              let combine (N post : list string) : list string :=
                flat_map
                  (fun Nitem =>
                     flat_map
                       (fun postItem =>
                          let expansion := Pre m +:+ Nitem +:+ postItem in
                          if isTop || isSequence || negb (Go.isEmpty expansion)
                          then [expansion] else [])
                       post)
                  N in
              if isSequence then
                (* n = strings.SplitAfterN(m.Body, "..", 1) has one element,
                   so n[1] is out of range once post has been expanded *)
                _ ← expandPost;
                Panic indexOutOfRange
              else
                n ← parseCommaParts fuel' (Body m);
                match n with
                | [nv] =>
                    (* x{{a,b}}y ==> x{a}y x{b}y *)
                    n ← expand fuel' nv false;
                    let n := map embrace n in
                    match n with
                    | [n0] =>
                        post ← expandPost;
                        Ret (map (fun item => Pre m +:+ n0 +:+ item) post)
                    | _ =>
                        post ← expandPost;
                        N ← concatMapRun (fun item => expand fuel' item false) n;
                        Ret (combine N post)
                    end
                | _ =>
                    post ← expandPost;
                    N ← concatMapRun (fun item => expand fuel' item false) n;
                    Ret (combine N post)
                end
      end
  end.

Definition BraceExpansion (str : string) : run (list string) :=
  if Go.isEmpty str then Ret []
  else
    let str := if Go.HasPrefix str "{}" then "\{\}" +:+ Go.drop 2 str else str in
    let str := escapeBraces str in
    items ← expand (S (String.length str)) str true;
    Ret (map unescapeBraces items).

End BraceExpansion.

(** ** The matcher *)

Record Options := {
  Debug : bool;
  NoBrace : bool;
  NoGlobStar : bool;
  Dot : bool;
  NoExt : bool;
  NoCase : bool;
  NoNull : bool;
  MatchBase : bool;
  NoComment : bool;
  NoNegate : bool;
  FlipNegate : bool
}.

(** [minimatch.Options{}] *)
Definition zeroOptions : Options :=
  {| Debug := false; NoBrace := false; NoGlobStar := false; Dot := false;
     NoExt := false; NoCase := false; NoNull := false; MatchBase := false;
     NoComment := false; NoNegate := false; FlipNegate := false |}.

(** [slashSplit.Split(s, -1)], with [slashSplit] the expression [/+]:
    [inRun] holds after a slash. *)
Fixpoint slashSplitFrom (inRun : bool) (s : string) : list string :=
  match s with
  | EmptyString => [EmptyString]
  | String c s' =>
      if Ascii.eqb c "/" then
        if inRun then slashSplitFrom true s'
        else EmptyString :: slashSplitFrom true s'
      else
        match slashSplitFrom false s' with
        | x :: xs => String c x :: xs
        | [] => [String c EmptyString]
        end
  end.

Definition slashSplit (s : string) : list string := slashSplitFrom false s.

Section Matcher.

Variables rSlash rOpen rClose rComma rPeriod : Z.

(** Go's compiled expressions, [*regexp.Regexp], and [re.MatchString]. *)
Variable Regexp : Type.
Variable reMatchString : Regexp -> string -> bool.
(** [emptyRegexp], the compiled [^$]. *)
Variable emptyRegexp : Regexp.

(** An element of a row of [set]: the sentinel [GLOBSTAR] or an expression. *)
Inductive part :=
| GLOBSTAR
| Re (re : Regexp).

(** What [parse] hands to [make]: a panic, [nil], or a part. *)
Inductive parsed :=
| ParsePanic (why : string)
| ParseNil
| ParsePart (p : part).

(** The translation of a non-empty path portion other than [**] into an
    expression (the loop of [parse] and what follows it), for [isSub = false]. *)
Variable parsePortion : Options -> string -> parsed.

Record matcher := {
  Comment : bool;
  Empty : bool;
  pattern : string;
  options : Options;
  negate : bool;
  set : list (list part)
}.

(** parse a component of the expanded set. *)
Definition parse (m_options : Options) (pattern_ : string) : parsed :=
  if (64 * 1024 <? String.length pattern_)%nat then ParseNil
  else if negb (NoGlobStar m_options) && String.eqb pattern_ "**" then ParsePart GLOBSTAR
  else if Go.isEmpty pattern_ then ParsePart (Re emptyRegexp)
  else parsePortion m_options pattern_.

(** [parseNegate]: the new [negate] flag and the new pattern. *)
Fixpoint stripBangs (negate_ : bool) (pattern_ : string) : bool * string :=
  match pattern_ with
  | String "!" rest => stripBangs (negb negate_) rest
  | _ => (negate_, pattern_)
  end.

Definition parseNegate (m : matcher) : matcher :=
  if NoNegate (options m) then m
  else
    let '(negate_, pattern_) := stripBangs (negate m) (pattern m) in
    {| Comment := Comment m; Empty := Empty m; pattern := pattern_;
       options := options m; negate := negate_; set := set m |}.

Definition braceExpand (m : matcher) : run (list string) :=
  if NoBrace (options m) || braceShortcut (pattern m) then Ret [pattern m]
  else BraceExpansion rSlash rOpen rClose rComma rPeriod (pattern m).

(** One row of [set]: the parts of one expanded pattern, or nothing when a
    portion did not compile or the row is empty. *)
Fixpoint makeGroup (m_options : Options) (s : list string) (group : list part)
    (allGood : bool) : run (option (list part)) :=
  match s with
  | [] =>
      Ret (if allGood && negb (List.length group =? 0)%nat then Some group else None)
  | item :: rest =>
      match parse m_options item with
      | ParsePanic why => Panic why
      | ParseNil => makeGroup m_options rest group false
      | ParsePart val => makeGroup m_options rest (group ++ [val]) allGood
      end
  end.

Fixpoint makeSet (m_options : Options) (globParts : list (list string))
  : run (list (list part)) :=
  match globParts with
  | [] => Ret []
  | s :: rest =>
      g ← makeGroup m_options s [] true;
      gs ← makeSet m_options rest;
      Ret (match g with Some group => group :: gs | None => gs end)
  end.

(** [make], on a matcher whose [regexp] is still [nil]. *)
Definition make (m : matcher) : run matcher :=
  (* empty patterns and comments match nothing. *)
  isComment ←
    (if negb (NoComment (options m)) then
       match pattern m with
       | EmptyString => Panic indexOutOfRange          (* m.pattern[0] *)
       | String c _ => Ret (Ascii.eqb c "#")
       end
     else Ret false);
  if isComment : bool then
    Ret {| Comment := true; Empty := Empty m; pattern := pattern m;
           options := options m; negate := negate m; set := set m |}
  else if (String.length (pattern m) =? 0)%nat then
    Ret {| Comment := Comment m; Empty := true; pattern := pattern m;
           options := options m; negate := negate m; set := set m |}
  else
    (* step 1: figure out negation, etc. *)
    let m := parseNegate m in
    (* step 2: expand braces *)
    globSet ← braceExpand m;
    (* step 3: turn each one into a series of path-portion matching patterns *)
    set_ ← makeSet (options m) (map slashSplit globSet);
    Ret {| Comment := Comment m; Empty := Empty m; pattern := pattern m;
           options := options m; negate := negate m; set := set_ |}.

(** [NewMinimatch]; the error it returns is always [nil]. *)
Definition NewMinimatch (pattern_ : string) (options_ : Options) : run matcher :=
  let pattern_ := Go.TrimSpace pattern_ in
  make {| Comment := false; Empty := false; pattern := pattern_;
          options := options_; negate := false; set := [] |}.

Definition isDotted (dot : bool) (p : string) : bool :=
  String.eqb p "." || String.eqb p ".."
  || (negb dot && negb (Go.isEmpty p) && Go.HasPrefix p ".").

Fixpoint matchOne (m_options : Options) (pattern_ : list part) (file : list string)
    (partial : bool) {struct pattern_} : run bool :=
  match pattern_ with
  | [] =>
      (* ran out of pattern: an exact hit, or only the last empty segment
         of a file with a trailing slash is left *)
      match file with
      | [] => Ret true
      | [f] => Ret (Go.isEmpty f)
      | _ => Ret false
      end
  | p :: prest =>
      match file with
      | [] => Ret partial            (* ran out of file, still had pattern left *)
      | f :: frest =>
          match p with
          | GLOBSTAR =>
              match prest with
              | [] =>
                  (* a ** at the end will just swallow the rest *)
                  Ret (forallb (fun p => negb (isDotted (Dot m_options) p)) file)
              | _ =>
                  (fix swallow (rest : list string) : run bool :=
                     match rest with
                     | [] => Ret partial
                     | swallowee :: rest' =>
                         hit ← matchOne m_options prest rest partial;
                         if hit : bool then Ret true
                         else if String.eqb swallowee "." || String.eqb swallowee ".."
                         then Ret false
                         else if negb (Dot m_options) then
                           match swallowee with
                           | EmptyString => Panic indexOutOfRange   (* swallowee[0] *)
                           | String c _ =>
                               if Ascii.eqb c "." then Ret false else swallow rest'
                           end
                         else swallow rest'
                     end) file
              end
          | Re re =>
              if reMatchString re f then matchOne m_options prest frest partial
              else Ret false
          end
      end
  end.

(** The last non-empty segment of the path, or the empty string. *)
Definition basename (fparts : list string) : string :=
  default EmptyString (List.find (fun p => negb (Go.isEmpty p)) (rev fparts)).

Fixpoint matchSet (m : matcher) (fparts : list string) (filename : string)
    (partial : bool) (rows : list (list part)) : run bool :=
  match rows with
  | [] =>
      (* didn't get any hits *)
      Ret (if FlipNegate (options m) then false else negate m)
  | pattern_ :: rest =>
      let file :=
        if MatchBase (options m) && (List.length pattern_ =? 1)%nat
        then [filename] else fparts in
      hit ← matchOne (options m) pattern_ file partial;
      if hit : bool then
        Ret (if FlipNegate (options m) then true else negb (negate m))
      else matchSet m fparts filename partial rest
  end.

Definition Match (m : matcher) (f : string) (partial : bool) : run bool :=
  if Comment m then Ret false
  else if Empty m then Ret (Go.isEmpty f)
  else if String.eqb f "/" && partial then Ret true
  else
    let fparts := slashSplit f in
    matchSet m fparts (basename fparts) partial (set m).

(** MatchString - a string against the pattern and options. *)
Definition MatchString (path_ pattern_ : string) (options_ : Options) : run bool :=
  mm ← NewMinimatch pattern_ options_;
  Match mm path_ false.

(** The loop of the function [Match]: the items that the matcher matches. *)
Fixpoint matchItems (mm : matcher) (list_ : list string) : run (list string) :=
  match list_ with
  | [] => Ret []
  | item :: rest =>
      hit ← Match mm item false;
      result ← matchItems mm rest;
      Ret (if hit : bool then item :: result else result)
  end.

(** Match - match a list of strings against the pattern and options
    (the function [minimatch.Match], not the method of the matcher). *)
Definition MatchList (list_ : list string) (pattern_ : string) (options_ : Options)
  : run (list string) :=
  mm ← NewMinimatch pattern_ options_;
  result ← matchItems mm list_;
  if NoNull options_ && (List.length result =? 0)%nat then Ret [pattern_]
  else Ret result.

End Matcher.

End Minimatch.

(* ================================================================== *)
(** * pkg/handler: the request pipeline                                *)
(* ================================================================== *)

Module Handler.
Import Http.

Record ConfigRewrite := {
  Source : string;
  Destination : string
}.

Record ConfigRedirect := {
  RedirSource : string;
  RedirDestination : string;
  Type_ : Z
}.

Record Configuration := {
  Public : string;
  NoCleanUrls : bool;
  CleanUrls : list string;
  Rewrites : list ConfigRewrite;
  Redirects : list ConfigRedirect;
  NoDirectoryListing : bool;
  DirectoryListing : list string;
  Unlisted : list string;
  TrailingSlash : bool;
  RenderSingle : bool;
  Symlinks : bool
}.

(** ** pathIsInside.go

    The branch for [runtime.GOOS == "windows"], which lowers both paths,
    is left out: the separator is [/]. *)

Definition Separator : ascii := "/".

Definition stripTrailingSep (thePath : string) : string :=
  Go.TrimRightByte thePath Separator.

Definition pathIsInside (thePath potentialParent : string) : bool :=
  (* For inside-directory checking, we want to allow trailing slashes, so normalize. *)
  let thePath := stripTrailingSep thePath in
  let potentialParent := stripTrailingSep potentialParent in
  (* They are either the same or the path has subdirectories from here *)
  let plen := String.length potentialParent in
  Go.HasPrefix thePath potentialParent
  && ((String.length thePath =? plen)%nat
      || match Go.at_ thePath plen with
         | Some c => Ascii.eqb c Separator
         | None => false
         end).

(** ** The file system, as the pipeline sees it *)

Record FileInfo := {
  FileName : string;
  IsDir : bool;
  IsSymlink : bool;        (* Mode()&os.ModeSymlink == os.ModeSymlink *)
  ModTime : Z
}.

(** The three outcomes the code tells apart: no error, an error for which
    [os.IsNotExist] holds, any other error. *)
Inductive fsResult (A : Type) : Type :=
| FsOk (a : A)
| FsNotExist
| FsError.
Arguments FsOk {A} a.
Arguments FsNotExist {A}.
Arguments FsError {A}.

Record FileSystem := {
  Lstat : string -> fsResult FileInfo;
  ReadDir : string -> option (list FileInfo);
  Readlink : string -> fsResult string;
  Open : string -> bool;                         (* [os.Open] returns no error *)
  Rel : string -> string -> option string        (* [filepath.Rel] *)
}.

(** What the pipeline answers. *)
Inductive response :=
| SendError (statusCode : Z)
| Redirect (location : string) (statusCode : Z)
| Listing (directory : string)
| ServeContent (absolutePath : string) (modtime : Z).

Definition slasher (value : string) : string :=
  let normalize (value : string) := Go.PathJoin ["/"; value] in
  match value with
  | String "!" rest => "!" +:+ normalize rest
  | _ => normalize value
  end.

Definition ensureSlashStart (target : string) : string :=
  if Go.HasPrefix target "/" then target else "/" +:+ target.

Definition getPossiblePaths (relativePath extension : string) : list string :=
  let entries := [Go.PathJoin [relativePath; "index" +:+ extension]] in
  let part :=
    if Go.HasSuffix relativePath "/"
    then Go.take (String.length relativePath - 1) relativePath
    else relativePath in
  let part := part +:+ extension in
  if negb (String.eqb (Go.Base part) extension) then entries ++ [part] else entries.

Section Pipeline.

(** Collaborators: Go's [regexp.Compile] and [url.Parse] (the scheme of the
    URL, or an error), the glob matcher's own collaborators, the file system. *)
Variable regexpCompiles : string -> bool.
Variable urlParse : string -> option string.
Variables rSlash rOpen rClose rComma rPeriod : Z.
Variable Regexp : Type.
Variable reMatchString : Regexp -> string -> bool.
Variable emptyRegexp : Regexp.
Variable parsePortion : Minimatch.Options -> string -> Minimatch.parsed Regexp.
Variable fs : FileSystem.

Definition minimatchMatchString : string -> string -> Minimatch.Options -> run bool :=
  Minimatch.MatchString rSlash rOpen rClose rComma rPeriod
    Regexp reMatchString emptyRegexp parsePortion.

(** [sourceMatches]: whether the source matched, the keys, the results. *)
Definition sourceMatches (source requestPath : string) (allowSegments : bool)
  : run (bool * list PathToRegexp.Token * list string) :=
  let keys : list PathToRegexp.Token := [] in
  let slashed := slasher source in
  let resolvedPath := Go.Clean requestPath in
  let glob :=
    ok ← minimatchMatchString resolvedPath slashed Minimatch.zeroOptions;
    Ret (ok, keys, @nil string) in
  if allowSegments then
    let normalized := Go.ReplaceAll slashed "*" "(.*)" in
    let '(matcher, err) :=
      PathToRegexp.PathToRegexp regexpCompiles normalized PathToRegexp.NewOptions in
    if err : bool then Ret (false, keys, [])
    else
      let '(didMatch, result) := PathToRegexp.MatchString matcher resolvedPath in
      if didMatch : bool then Ret (true, keys, PathToRegexp.Results result)
      else glob
  else glob.

(** The loop of [toTarget] that fills [props]: [results[index+1]] must exist. *)
Fixpoint fillProps (keys : list PathToRegexp.Token) (results : list string)
    (index : nat) (props : gmap string string) : run (gmap string string) :=
  match keys with
  | [] => Ret props
  | item :: rest =>
      match results !! (index + 1)%nat with
      | None => Panic indexOutOfRange
      | Some v => fillProps rest results (S index) (<[PathToRegexp.Name item := v]> props)
      end
  end.

Definition toTarget (source destination previousPath : string) : run (option string) :=
  r ← sourceMatches source previousPath true;
  let '(didMatch, keys, results) := r in
  if negb didMatch then Ret None
  else
    match urlParse destination with
    | None => Ret None
    | Some scheme =>
        let normalizedDest :=
          if negb (Go.isEmpty scheme) then slasher destination else destination in
        let toPath := PathToRegexp.Compile normalizedDest in
        props ← fillProps keys results O ∅;
        Ret (Some (toPath props))
    end.

(** The first rule of [rewrites] with a target, with its index. *)
Fixpoint firstTarget (path_ : string) (rewrites : list ConfigRewrite) (idx : nat)
  : run (option (nat * string)) :=
  match rewrites with
  | [] => Ret None
  | item :: rest =>
      target ← toTarget (Source item) (Destination item) path_;
      match target with
      | Some t => Ret (Some (idx, t))
      | None => firstTarget path_ rest (S idx)
      end
  end.

(** Go's [copy(dst, src)] where both are slices [array[:n]] of one array:
    the array afterwards. *)
Definition copyPrefix (array : list ConfigRewrite) (dstLen srcLen : nat)
  : list ConfigRewrite :=
  let n := Nat.min dstLen srcLen in
  firstn n (firstn srcLen array) ++ skipn n array.

(** [applyRewrites], with the indices of the rules that fired, in order.
    The working list loses one element at every call, so [fuel] above the
    number of rules is never used up. *)
Fixpoint applyRewritesFrom (fuel : nat) (path_ : string) (rewrites : list ConfigRewrite)
  : run (list nat * option string) :=
  match fuel with
  | O => OutOfFuel
  | S fuel' =>
      if (List.length rewrites =? 0)%nat then Ret ([], Some path_)
      else
        found ← firstTarget path_ rewrites O;
        match found with
        | None => Ret ([], None)                  (* fallback *)
        | Some (idx, target) =>
            (* Remove rules that were already applied *)
            let offset := O in
            let rewritesCopy := copyPrefix rewrites (idx - offset) (idx - offset + 1) in
            let rewritesCopy := firstn (List.length rewritesCopy - 1) rewritesCopy in
            r ← applyRewritesFrom fuel' (slasher target) rewritesCopy;
            Ret (idx :: fst r, snd r)
        end
  end.

Definition applyRewritesTrace (path_ : string) (rewrites : list ConfigRewrite)
  : run (list nat * option string) :=
  applyRewritesFrom (S (List.length rewrites)) path_ rewrites.

Definition applyRewrites (path_ : string) (rewrites : list ConfigRewrite)
  : run (option string) :=
  r ← applyRewritesTrace path_ rewrites; Ret (snd r).

Fixpoint anySourceMatches (sources : list string) (decodedPath : string) : run bool :=
  match sources with
  | [] => Ret false
  | source :: rest =>
      r ← sourceMatches source decodedPath false;
      let '(ok, _, _) := r in
      if ok : bool then Ret true else anySourceMatches rest decodedPath
  end.

Definition applicable (decodedPath : string) (configEntry : list string)
    (noFlag : bool) : run bool :=
  if noFlag then Ret false
  else if (List.length configEntry =? 0)%nat then Ret true
  else anySourceMatches configEntry decodedPath.

Fixpoint firstRedirect (redirects : list ConfigRedirect) (decodedPath : string)
    (defaultType : Z) : run (option string * Z) :=
  match redirects with
  | [] => Ret (None, defaultType)
  | item :: rest =>
      target ← toTarget (RedirSource item) (RedirDestination item) decodedPath;
      match target with
      | Some t =>
          if Type_ item =? 0 then Ret (Some t, defaultType)
          else Ret (Some t, Type_ item)
      | None => firstRedirect rest decodedPath defaultType
      end
  end.

Definition shouldRedirect (state : Configuration) (decodedPath : string)
    (cleanUrl : bool) : run (option string * Z) :=
  let slashing := false in
  let defaultType := StatusTemporaryRedirect in
  if (List.length (Redirects state) =? 0)%nat && negb slashing && negb cleanUrl
  then Ret (None, defaultType)
  else
    let '(decodedPath, cleanedUrl) :=
      if cleanUrl then
        if Go.HasSuffix decodedPath ".html"
        then (Go.take (String.length decodedPath - 5) decodedPath, true)
        else if Go.HasSuffix decodedPath "/index"
        then (Go.take (String.length decodedPath - 6) decodedPath, true)
        else (decodedPath, false)
      else (decodedPath, false) in
    let slashed : option string * string :=
      if slashing then
        let name := Go.Base decodedPath in
        let ext := Go.Ext decodedPath in
        let isTrailed := Go.HasSuffix decodedPath "/" in
        let isDotfile := Go.HasPrefix name "." in
        let target :=
          if TrailingSlash state && isTrailed
          then Go.take (String.length decodedPath - 1) decodedPath
          else if TrailingSlash state && negb isTrailed && Go.isEmpty ext && negb isDotfile
          then decodedPath +:+ "/"
          else EmptyString in
        (if negb (Go.isEmpty target) then Some target else None,
         Go.ReplaceAll decodedPath "//" "/")
      else (None, decodedPath) in
    match slashed with
    | (Some target, _) => Ret (Some target, defaultType)
    | (None, decodedPath) =>
        if cleanedUrl then Ret (Some (ensureSlashStart decodedPath), defaultType)
        else firstRedirect (Redirects state) decodedPath defaultType
    end.

Fixpoint canBeListedFrom (excluded : list string) (slashed : string) : run bool :=
  match excluded with
  | [] => Ret true
  | source :: rest =>
      r ← sourceMatches source slashed false;
      let '(ok, _, _) := r in
      if ok : bool then Ret false else canBeListedFrom rest slashed
  end.

Definition canBeListed (excluded : list string) (file : string) : run bool :=
  canBeListedFrom excluded (slasher file).

Record renderDirResult := {
  singleFile : bool;
  absolutePath : string;
  stats : option FileInfo;
  outputData : bool          (* [outputData != nil] *)
}.

Definition noResult : renderDirResult :=
  {| singleFile := false; absolutePath := EmptyString; stats := None;
     outputData := false |}.

(** The loop of [renderDirectory] over the directory entries: the single
    file to serve instead of the listing, if the loop returns one. *)
Fixpoint firstSingle (unlisted : list string) (canRenderSingle : bool)
    (absolutePath_ : string) (files : list FileInfo) : run (option renderDirResult) :=
  match files with
  | [] => Ret None
  | file :: rest =>
      listed ← canBeListed unlisted (FileName file);
      if negb listed then firstSingle unlisted canRenderSingle absolutePath_ rest
      else if negb (IsDir file) && canRenderSingle then
        Ret (Some {| singleFile := true;
                     absolutePath := Go.PathJoin [absolutePath_; FileName file];
                     stats := Some file; outputData := false |})
      else firstSingle unlisted canRenderSingle absolutePath_ rest
  end.

(** [renderDirectory]; [inr tt] is its error result. *)
Definition renderDirectory (state : Configuration) (current relativePath absolutePath_ : string)
  : run (renderDirResult + unit) :=
  ok ← applicable relativePath (DirectoryListing state) (NoDirectoryListing state);
  if negb ok then Ret (inl noResult)
  else
    match ReadDir fs absolutePath_ with
    | None => Ret (inr tt)
    | Some files =>
        let canRenderSingle := RenderSingle state && (List.length files =? 1)%nat in
        single ← firstSingle (Unlisted state) canRenderSingle absolutePath_ files;
        match single with
        | Some result => Ret (inl result)
        | None =>
            match Rel fs current absolutePath_ with
            | None => Ret (inr tt)
            | Some _ =>
                (* pathParts[1 : len(pathParts)-1] *)
                if (List.length (Go.SplitByte "/" relativePath) <? 2)%nat
                then Panic "slice bounds out of range"
                else Ret (inl {| singleFile := false; absolutePath := EmptyString;
                                 stats := None; outputData := true |})
            end
        end
    end.

(** The related path that [findRelated] settles on. *)
Fixpoint firstExisting (current : string) (possible : list string)
  : option FileInfo * string :=
  match possible with
  | [] => (None, EmptyString)
  | related :: rest =>
      let absolutePath_ := Go.PathJoin [current; related] in
      match Lstat fs absolutePath_ with
      | FsNotExist => firstExisting current rest
      | FsOk stats_ => (Some stats_, absolutePath_)
      | FsError => (None, absolutePath_)
      end
  end.

Definition findRelated (current relativePath : string) (rewrittenPath : option string)
  : option FileInfo * string :=
  let possible :=
    match rewrittenPath with
    | None => getPossiblePaths relativePath ".html"
    | Some p => if Go.isEmpty p then getPossiblePaths relativePath ".html" else [p]
    end in
  firstExisting current possible.

(** [os.Lstat] as the pipeline uses it: [None] is the 400 answer. *)
Definition lstatOr400 (absolutePath_ : string) : option (option FileInfo) :=
  match Lstat fs absolutePath_ with
  | FsError => None
  | FsNotExist => Some None
  | FsOk info => Some (Some info)
  end.

(** The end of [ServeHTTP]: symlink policy, open, serve. *)
Definition serveResolved (state : Configuration) (stats_ : option FileInfo)
    (absolutePath_ : string) : run response :=
  let isSymLink := match stats_ with Some info => IsSymlink info | None => false end in
  (* There are two scenarios in which we want to reply with a 404 error:
     Either the path does not exist, or it is a symlink while the
     `symlinks` option is disabled. *)
  match stats_ with
  | None => Ret (SendError StatusNotFound)
  | Some _ =>
      if negb (Symlinks state) && isSymLink then Ret (SendError StatusNotFound)
      else
        let resolved : option (option FileInfo * string) :=
          if isSymLink then
            match Readlink fs absolutePath_ with
            | FsError => None
            | linked =>
                let absolutePath_ :=
                  match linked with FsOk target => target | _ => EmptyString end in
                match lstatOr400 absolutePath_ with
                | None => None
                | Some stats_ => Some (stats_, absolutePath_)
                end
            end
          else Some (stats_, absolutePath_) in
        match resolved with
        | None => Ret (SendError StatusBadRequest)
        | Some (stats_, absolutePath_) =>
            if Open fs absolutePath_ then
              match stats_ with
              | Some info => Ret (ServeContent absolutePath_ (ModTime info))
              | None => Panic "nil pointer dereference"      (* stats.ModTime() *)
              end
            else Ret (SendError StatusBadRequest)
        end
  end.

Definition ServeHTTP (state : Configuration) (r : Request) : run response :=
  let relativePath := Path r in
  let absolutePath_ := Go.PathJoin [Public state; relativePath] in
  if negb (pathIsInside absolutePath_ (Public state)) then Ret (SendError StatusBadRequest)
  else
    cleanUrl ← applicable relativePath (CleanUrls state) (NoCleanUrls state);
    redirect ← shouldRedirect state relativePath cleanUrl;
    match fst redirect with
    | Some location => Ret (Redirect location StatusTemporaryRedirect)
    | None =>
        let first : option (option FileInfo) :=
          if negb (Go.isEmpty (Go.Ext relativePath)) then lstatOr400 absolutePath_
          else Some None in
        match first with
        | None => Ret (SendError StatusBadRequest)
        | Some stats_ =>
            rewrittenPath ← applyRewrites relativePath (Rewrites state);
            let '(stats_, absolutePath_) :=
              match stats_ with
              | None =>
                  if cleanUrl || bool_decide (rewrittenPath <> None) then
                    match findRelated (Public state) relativePath rewrittenPath with
                    | (Some tstats, tabsolutePath) => (Some tstats, tabsolutePath)
                    | (None, _) => (stats_, absolutePath_)
                    end
                  else (stats_, absolutePath_)
              | Some _ => (stats_, absolutePath_)
              end in
            let second : option (option FileInfo) :=
              match stats_ with
              | None => lstatOr400 absolutePath_
              | Some _ => Some stats_
              end in
            match second with
            | None => Ret (SendError StatusBadRequest)
            | Some stats_ =>
                match stats_ with
                | Some info =>
                    if IsDir info then
                      related ← renderDirectory state (Public state) relativePath absolutePath_;
                      match related with
                      | inr _ => Ret (SendError StatusInternalServerError)
                      | inl related =>
                          if singleFile related
                          then serveResolved state (stats related) (absolutePath related)
                          else if outputData related then Ret (Listing absolutePath_)
                          else serveResolved state None absolutePath_
                      end
                    else serveResolved state stats_ absolutePath_
                | None => serveResolved state stats_ absolutePath_
                end
            end
        end
    end.

End Pipeline.

End Handler.


(* ================================================================== *)
(** * swhttp: the file handler                                         *)
(* ================================================================== *)

Module FileHandler.
Import Http SwHttp.

(** The errors of [fs.Open] and [f.Stat], as far as [toHTTPError] tells
    them apart. *)
Inductive fsError := ErrNotExist | ErrPermission | ErrOther.

Record FileInfo := {
  Name : string;
  Size : Z;
  ModTime : Time;
  IsDir : bool
}.

(** An open [http.File]: what [Stat] returns, and the bytes to read. *)
Record File := {
  Stat : fsError + FileInfo;
  Data : Content
}.

Record fileHandler := {
  root : string -> fsError + File;     (* fs.Open of the [http.FileSystem] *)
  singlePage : bool;
  allowDirectoryListing : bool
}.

Definition withPath (r : Request) (p : string) : Request :=
  {| Method := Method r; Path := p; ReqHeader := ReqHeader r;
     RemoteAddr := RemoteAddr r; Body := Body r |}.

(** [strings.TrimSuffix] *)
Definition TrimSuffix (s suffix : string) : string :=
  if Go.HasSuffix s suffix then Go.take (String.length s - String.length suffix) s else s.

(** toHTTPError returns a non-specific HTTP error message and status code
    for a given non-nil error value. *)
Definition toHTTPError (err : fsError) : string * Z :=
  match err with
  | ErrNotExist => ("404 page not found", StatusNotFound)
  | ErrPermission => ("403 Forbidden", StatusForbidden)
  | ErrOther => ("500 Internal Server Error", StatusInternalServerError)
  end.

(** The body of an error, as [json.NewEncoder(w).Encode] writes it; the
    codes and messages of [sendError] need no escaping. *)
Definition jsonString (s : string) : string :=
  String dquote (s +:+ String dquote EmptyString).

Definition errorJSON (code message : string) : string :=
  "{" +:+ jsonString "error" +:+ ":{" +:+ jsonString "code" +:+ ":" +:+ jsonString code
  +:+ "," +:+ jsonString "message" +:+ ":" +:+ jsonString message +:+ "}}"
  +:+ String "010" EmptyString.

Definition nilDereference : string := "nil pointer dereference".

Section Server.

Variable ParseTime : string -> option Time.          (* http.ParseTime *)
Variable FormatHTTPTime : Time -> string.            (* t.UTC().Format(http.TimeFormat) *)
Variable TypeByExtension : string -> string.         (* mime.TypeByExtension *)
Variable DetectContentType : string -> string.       (* http.DetectContentType *)
Variable multipartBoundary : string.                 (* mw.Boundary() *)
Variable multipartOverhead : list httpRange -> string -> Z -> Z.
Variable multipartBody : list httpRange -> string -> Z -> string -> string.

(** [r.URL.RawQuery] of the request that is served *)
Variable RawQuery : string.
(** [strings.ToLower] *)
Variable ToLower : string -> string.
(** What [errorTemplate.Execute] writes for a status code, a code and a
    message; the template, [error.html], is embedded at build time. *)
Variable errorTemplate : Z -> string -> string -> string.
(** What [dirList] and [directoryTemplate.Execute] on its data write for
    an open directory and its name; [None] is the error of [dirList]. *)
Variable directoryPage : Request -> File -> string -> option string.

Definition indexPage : string := "/index.html".

(** localRedirect gives a Moved Permanently response.  It does not convert
    relative paths to absolute paths like Redirect does. *)
Definition localRedirect (w : ResponseWriter) (r : Request) (newPath : string)
  : ResponseWriter :=
  let newPath :=
    if negb (Go.isEmpty RawQuery) then newPath +:+ "?" +:+ RawQuery else newPath in
  WriteHeader (withHeader w (Set_ (RespHeader w) "Location" newPath)) StatusMovedPermanently.

(** Check to see if we have an Accept: application/json in the request. *)
Definition acceptJSON (r : Request) : bool :=
  let accept := default [] (ReqHeader r !! Go.CanonicalMIMEHeaderKey "accept") in
  existsb (fun value => Go.Contains (ToLower value) "application/json") accept.

(** Generate an error page; [serve] is [fh.serveFile].  When [Stat] fails
    on the error page, [d] is nil and [d.IsDir()] panics. *)
Definition sendErrorWith
    (serve : ResponseWriter -> Request -> string -> bool -> run ResponseWriter)
    (fh : fileHandler) (w : ResponseWriter) (r : Request) (path_ : string)
    (statusCode : Z) : run ResponseWriter :=
  let errorPage := Go.Itoa statusCode +:+ ".html" in
  let plain :=
    let '(code, message) :=
      if statusCode =? StatusBadRequest then ("bad_request", "Bad request")
      else if statusCode =? StatusNotFound
      then ("not_found", "The requested path could not be found")
      else if statusCode =? StatusInternalServerError
      then ("internal_server_error", "A server error has occurred")
      else (EmptyString, EmptyString) in
    let w := WriteHeader w statusCode in
    if acceptJSON r then
      let w := withHeader w (Set_ (RespHeader w) "Content-Type"
                               "application/json; charset=utf-8") in
      Ret (Write w (errorJSON code message))
    else
      let w := withHeader w (Set_ (RespHeader w) "Content-Type"
                               "text/html; charset=utf-8") in
      Ret (Write w (errorTemplate statusCode code message)) in
  match root fh errorPage with
  | inr f =>
      match Stat f with
      | inl _ => Panic nilDereference
      | inr d =>
          if negb (IsDir d) then serve (WriteHeader w statusCode) r errorPage false
          else plain
      end
  | inl _ => plain
  end.

(** [name] is '/'-separated, not filepath.Separator.  [serveFile] and
    [sendError] call each other; [fuel] bounds the depth of the calls. *)
Fixpoint serveFile (fuel : nat) (fh : fileHandler) (w : ResponseWriter) (r : Request)
    (name : string) (redirect : bool) : run ResponseWriter :=
  match fuel with
  | O => OutOfFuel
  | S fuel' =>
      let sendError := sendErrorWith (serveFile fuel' fh) fh in
      (* redirect .../index.html to .../ *)
      if Go.HasSuffix (Path r) indexPage then Ret (localRedirect w r "./")
      else
        match root fh name with
        | inl err =>
            if singlePage fh && negb (String.eqb name "/")
            then serveFile fuel' fh w r "/" false
            else let '(msg, code) := toHTTPError err in sendError w r msg code
        | inr f =>
            match Stat f with
            | inl err => let '(msg, code) := toHTTPError err in sendError w r msg code
            | inr d =>
                let url := Path r in
                (* redirect to canonical path: / at end of directory url *)
                redirected ←
                  (if redirect then
                     if Go.isEmpty url then Panic indexOutOfRange
                     else if IsDir d then
                       if negb (Go.HasSuffix url "/")
                       then Ret (Some (localRedirect w r (Go.Base url +:+ "/")))
                       else Ret None
                     else
                       if Go.HasSuffix url "/"
                       then Ret (Some (localRedirect w r ("../" +:+ Go.Base url)))
                       else Ret None
                   else Ret None);
                match redirected with
                | Some w' => Ret w'
                | None =>
                    let found : ResponseWriter + (string * FileInfo * File) :=
                      if IsDir d then
                        (* redirect if the directory name doesn't end in a slash *)
                        if Go.isEmpty url || negb (Go.HasSuffix url "/")
                        then inl (localRedirect w r (Go.Base url +:+ "/"))
                        else
                          (* use contents of index.html for directory, if present *)
                          let index := TrimSuffix name "/" +:+ indexPage in
                          match root fh index with
                          | inr ff =>
                              match Stat ff with
                              | inr dd => inr (index, dd, ff)
                              | inl _ => inr (name, d, f)
                              end
                          | inl _ => inr (name, d, f)
                          end
                      else inr (name, d, f) in
                    match found with
                    | inl w' => Ret w'
                    | inr (name, d, f) =>
                        (* Still a directory? (we didn't find an index.html file) *)
                        if IsDir d then
                          if negb (allowDirectoryListing fh)
                          then sendError w r name StatusNotFound
                          else if condResult_eqb (checkIfModifiedSince ParseTime r (ModTime d))
                                    condFalse
                          then Ret (writeNotModified w)
                          else
                            let w := setLastModified FormatHTTPTime w (ModTime d) in
                            match directoryPage r f name with
                            | None => Ret w
                            | Some page =>
                                let w := withHeader w (Set_ (RespHeader w) "Content-Type"
                                                         "text/html; charset=utf-8") in
                                Ret (Write w page)
                            end
                        else
                          (* serveContent will check modification time *)
                          let sizeFunc (c : Content) := Some (Size d, c) in
                          Ret (serveContent ParseTime FormatHTTPTime TypeByExtension
                                 DetectContentType multipartBoundary multipartOverhead
                                 multipartBody w r (Name d) (ModTime d) sizeFunc (Data f))
                    end
                end
            end
        end
  end.

Definition sendError (fuel : nat) (fh : fileHandler) :=
  sendErrorWith (serveFile fuel fh) fh.

(** [fileHandler.ServeHTTP]; three nested calls of [serveFile] are the most
    there can be: the file, [/] for a single-page site, the error page. *)
Definition ServeHTTP (f : fileHandler) (w : ResponseWriter) (r : Request)
  : run ResponseWriter :=
  let upath := Path r in
  let '(upath, r) :=
    if negb (Go.HasPrefix upath "/")
    then let upath := "/" +:+ upath in (upath, withPath r upath)
    else (upath, r) in
  serveFile 3 f w r (Go.Clean upath) true.

End Server.

End FileHandler.

(* ================================================================== *)
(** * Stand-ins for the collaborators, and sample inputs               *)
(* ================================================================== *)

Module Sample.
Import Http.

(** A glob engine for path portions without special characters: such a
    portion [p] is compiled by [parse] to the expression [^p$], which
    matches [p] and nothing else.  The expression is kept as the text
    it has to match. *)
Definition literalMatch (re : string) (s : string) : bool := String.eqb re s.
Definition literalEmpty : string := EmptyString.
Definition literalPortion (o : Minimatch.Options) (p : string) : Minimatch.parsed string :=
  Minimatch.ParsePart string (Minimatch.Re string p).

(** An engine that accepts every expression, a URL parser that finds no
    scheme: what Go answers on the plain paths of the samples below. *)
Definition compilesAll (src : string) : bool := true.
Definition noScheme (u : string) : option string := Some EmptyString.

(** [minimatch.MatchString] on patterns without special characters. *)
Definition literalMatchString : string -> string -> Minimatch.Options -> run bool :=
  Minimatch.MatchString 0 0 0 0 0 string literalMatch literalEmpty literalPortion.

(** The glob [a] after a no-break space, U+00A0 (the bytes [C2 A0]). *)
Definition nbspA : string := String "194" (String "160" "a").

(** Options with one flag set. *)
Definition noComment : Minimatch.Options :=
  {| Minimatch.Debug := false; Minimatch.NoBrace := false; Minimatch.NoGlobStar := false;
     Minimatch.Dot := false; Minimatch.NoExt := false; Minimatch.NoCase := false;
     Minimatch.NoNull := false; Minimatch.MatchBase := false;
     Minimatch.NoComment := true; Minimatch.NoNegate := false;
     Minimatch.FlipNegate := false |}.

Definition flipNegate : Minimatch.Options :=
  {| Minimatch.Debug := false; Minimatch.NoBrace := false; Minimatch.NoGlobStar := false;
     Minimatch.Dot := false; Minimatch.NoExt := false; Minimatch.NoCase := false;
     Minimatch.NoNull := false; Minimatch.MatchBase := false;
     Minimatch.NoComment := false; Minimatch.NoNegate := false;
     Minimatch.FlipNegate := true |}.

Definition noNull : Minimatch.Options :=
  {| Minimatch.Debug := false; Minimatch.NoBrace := false; Minimatch.NoGlobStar := false;
     Minimatch.Dot := false; Minimatch.NoExt := false; Minimatch.NoCase := false;
     Minimatch.NoNull := true; Minimatch.MatchBase := false;
     Minimatch.NoComment := false; Minimatch.NoNegate := false;
     Minimatch.FlipNegate := false |}.

(** [minimatch.Match] on patterns without special characters. *)
Definition literalMatchList : list string -> string -> Minimatch.Options -> run (list string) :=
  Minimatch.MatchList 0 0 0 0 0 string literalMatch literalEmpty literalPortion.

Definition get (p : string) (h : Header) : Request :=
  {| Method := "GET"; Path := p; ReqHeader := h;
     RemoteAddr := "10.0.0.1:4711"; Body := EmptyString |}.

(** Stand-ins for the library functions the content server passes through. *)
Definition noTime (s : string) : option SwHttp.Time := None.
Definition anyDate (t : SwHttp.Time) : string := "Thu, 01 Jan 1970 00:00:01 GMT".
Definition textPlain (s : string) : string := "text/plain; charset=utf-8".
Definition boundary : string := "boundary".
Definition noOverhead (ranges : list SwHttp.httpRange) (ctype : string) (size : Z) : Z := 0.
Definition noParts (ranges : list SwHttp.httpRange) (ctype : string) (size : Z)
    (content : string) : string := EmptyString.

(** A file of ten bytes, and requests for it. *)
Definition tenBytes : SwHttp.Content :=
  {| SwHttp.data := "0123456789"; SwHttp.pos := 0 |}.

Definition ranged (method range : string) : Request :=
  {| Method := method; Path := "/digits.txt";
     ReqHeader := {[ "Range" := [range] ]};
     RemoteAddr := "10.0.0.1:4711"; Body := EmptyString |}.

Definition rangedIfNoneMatch (range : string) : Request :=
  {| Method := "GET"; Path := "/digits.txt";
     ReqHeader := {[ "Range" := [range]; "If-None-Match" := ["*"] ]};
     RemoteAddr := "10.0.0.1:4711"; Body := EmptyString |}.

Definition serve (r : Request) : ResponseWriter :=
  SwHttp.ServeContent noTime anyDate textPlain textPlain boundary noOverhead noParts
    newResponseWriter r "digits.txt" SwHttp.unixEpochTime tenBytes.

(** A proxied request, and an upstream that answers it. *)
Definition ping : Request :=
  {| Method := "GET"; Path := "/api/ping";
     ReqHeader := {[ "Connection" := ["keep-alive"];
                     "X-Forwarded-For" := ["192.0.2.1"] ]};
     RemoteAddr := "10.0.0.1:4711"; Body := "ping" |}.

Definition anyRequest (method url : string) : bool := true.

Definition pong (up : Proxy.Upstream) : option Proxy.UpstreamResponse :=
  Some {| Proxy.UpStatus := 201;
          Proxy.UpRespHeader := {[ "Connection" := ["close"];
                                   "Content-Type" := ["text/plain"] ]};
          Proxy.UpRespBody := "pong" |}.

Import Handler.

Definition ruleA : ConfigRewrite := {| Source := "/a"; Destination := "/a" |}.
Definition ruleB : ConfigRewrite := {| Source := "/b"; Destination := "/c" |}.

Definition redirectState : Configuration :=
  {| Public := "/srv/www"; NoCleanUrls := true; CleanUrls := [];
     Rewrites := [];
     Redirects := [{| RedirSource := "/old"; RedirDestination := "/new"; Type_ := 301 |}];
     NoDirectoryListing := false; DirectoryListing := []; Unlisted := [];
     TrailingSlash := false; RenderSingle := false; Symlinks := false |}.

(** A file system without files. *)
Definition noFiles : FileSystem :=
  {| Lstat := fun _ => FsNotExist; ReadDir := fun _ => None;
     Readlink := fun _ => FsNotExist; Open := fun _ => false;
     Rel := fun _ _ => None |}.

(** A site below [/srv/www]: the file [a.txt], the symlink [x] to
    [/etc/passwd]; next to the root, the file [/srv/www.html]. *)
Definition entry (name : string) (dir link : bool) (mt : Z) : FileInfo :=
  {| FileName := name; IsDir := dir; IsSymlink := link; ModTime := mt |}.

Definition siteFiles : FileSystem :=
  {| Lstat := fun p =>
       if String.eqb p "/srv/www" then FsOk (entry "www" true false 4)
       else if String.eqb p "/srv/www/a.txt" then FsOk (entry "a.txt" false false 7)
       else if String.eqb p "/srv/www/x" then FsOk (entry "x" false true 3)
       else if String.eqb p "/srv/www.html" then FsOk (entry "www.html" false false 1)
       else if String.eqb p "/etc/passwd" then FsOk (entry "passwd" false false 2)
       else FsNotExist;
     ReadDir := fun p =>
       if String.eqb p "/srv/www"
       then Some [entry "a.txt" false false 7; entry "x" false true 3]
       else None;
     Readlink := fun p =>
       if String.eqb p "/srv/www/x" then FsOk "/etc/passwd" else FsError;
     Open := fun p =>
       String.eqb p "/srv/www/a.txt" || String.eqb p "/srv/www.html"
       || String.eqb p "/etc/passwd";
     Rel := fun _ target => Some target |}.

Definition siteState (symlinks : bool) : Configuration :=
  {| Public := "/srv/www"; NoCleanUrls := true; CleanUrls := [];
     Rewrites := []; Redirects := [];
     NoDirectoryListing := false; DirectoryListing := []; Unlisted := [];
     TrailingSlash := false; RenderSingle := false; Symlinks := symlinks |}.

(** The same site with clean URLs and one rewrite rule whose destination
    is not a URL: [url.Parse] rejects the escape [%zz]. *)
Definition strictParse (u : string) : option string :=
  if Go.Contains u "%zz" then None else Some EmptyString.

Definition cleanUrlState : Configuration :=
  {| Public := "/srv/www"; NoCleanUrls := false; CleanUrls := [];
     Rewrites := [{| Source := "/old"; Destination := "/%zz" |}]; Redirects := [];
     NoDirectoryListing := false; DirectoryListing := []; Unlisted := [];
     TrailingSlash := false; RenderSingle := false; Symlinks := false |}.

End Sample.


(* ================================================================== *)
(** * Auxiliary definitions used in the statements below               *)
(* ================================================================== *)

Module Rules.

Section Target.

Variable regexpCompiles : string -> bool.
Variable urlParse : string -> option string.

(** What [toTarget] comes to: the destination of the rule (normalised when
    it has a scheme) as soon as the expression of the source compiles and
    the destination parses as a URL; the path plays no part. *)
Definition targetOf (source destination : string) : option string :=
  if regexpCompiles
       (PathToRegexp.routeOf
          (PathToRegexp.parse (Go.ReplaceAll (Handler.slasher source) "*" "(.*)")
             PathToRegexp.NewOptions)
          PathToRegexp.NewOptions)
  then match urlParse destination with
       | None => None
       | Some scheme =>
           Some (if negb (Go.isEmpty scheme) then Handler.slasher destination
                 else destination)
       end
  else None.

End Target.

End Rules.

Module Ranges.

(** A byte-range-spec [first-] or [first-last], as a client writes it. *)
Definition rangeSpec (spec : Z * option Z) : string :=
  Go.FormatInt (fst spec) +:+ "-"
  +:+ match snd spec with
      | Some last => Go.FormatInt last
      | None => EmptyString
      end.

(** The value of a [Range] header that lists the given byte-range-specs. *)
Definition rangeHeader (specs : list (Z * option Z)) : string :=
  "bytes=" +:+ Go.Join (map rangeSpec specs) ",".

(** The bytes of decimal numbers and the dash. *)
Definition plainByte (c : ascii) : bool := Go.isDigit c || Ascii.eqb c "-".


(** A range that lies within a content of the given size. *)
Definition within (size : Z) (ra : SwHttp.httpRange) : Prop :=
  0 <= SwHttp.start ra /\ 0 <= SwHttp.length ra
  /\ SwHttp.start ra + SwHttp.length ra <= size.

(** The bytes allowed between the quotes of an entity tag. *)
Definition etagByte (c : ascii) : bool :=
  let n := nat_of_ascii c in
  (n =? 33)%nat || ((35 <=? n)%nat && (n <=? 126)%nat) || (128 <=? n)%nat.

(** An opaque tag: bytes between double quotes. *)
Definition quoted (body : string) : string :=
  String SwHttp.dquote (body +:+ String SwHttp.dquote EmptyString).

End Ranges.

Module Headers.

(** The keys of the header map are in canonical form, as those of a
    parsed request or response are. *)
Definition canonicalKeys (h : Http.Header) : Prop :=
  forall k vv, h !! k = Some vv -> Go.CanonicalMIMEHeaderKey k = k.

(** The values under [k] once the values [src !! k] have been added to
    those of [dst]. *)
Definition added (dst src : Http.Header) (k : string) : option (list string) :=
  match src !! k with
  | Some (v :: vs) => Some (default [] (dst !! k) ++ v :: vs)
  | _ => dst !! k
  end.

End Headers.

Module Balanced.

(** The string [x] occurs in [str] at the position [i]. *)
Definition occurs (x str : string) (i : Z) : Prop :=
  0 <= i
  /\ String.prefix x (Go.drop (Z.to_nat i) str) = true
  /\ i + Z.of_nat (String.length x) <= Z.of_nat (String.length str).

End Balanced.

Module Globs.

(** The call returned, and said yes. *)
Definition saysYes (r : run bool) : bool :=
  match r with Ret true => true | _ => false end.

End Globs.

Module Paths.

(** A path element that [path.Clean] keeps as it is: not empty, not [.],
    not [..], and without a slash.  The names of directory entries are of
    this kind. *)
Definition normalElem (e : string) : bool :=
  negb (Go.isEmpty e) && negb (String.eqb e ".") && negb (String.eqb e "..")
  && Go.allBytes (fun c => negb (Ascii.eqb c "/")) e.

(** An element that is empty, [.] or normal: anything but [..]. *)
Definition benign (e : string) : bool :=
  Go.isEmpty e || String.eqb e "." || normalElem e.

(** The rooted path with the given elements; [/] when there is none. *)
Definition rootedPath (elems : list string) : string := "/" +:+ Go.Join elems "/".

(** A rooted path without its trailing separators. *)
Definition stripped (elems : list string) : string :=
  if elems is [] then EmptyString else rootedPath elems.

(** The path is a cleaned rooted path inside [root]. *)
Definition insideRoot (root p : string) : Prop :=
  exists k, Forall (fun e => normalElem e = true) k
            /\ p = rootedPath k /\ Handler.pathIsInside p root = true.

(** The second candidate of [getPossiblePaths relativePath ".html"]. *)
Definition htmlCompanion (relativePath : string) : string :=
  (if Go.HasSuffix relativePath "/"
   then Go.take (String.length relativePath - 1) relativePath
   else relativePath) +:+ ".html".

End Paths.


Module Files.
Import FileHandler.

(** The name under which [sendError] looks for an error page. *)
Definition errorPage (statusCode : Z) : string := Go.Itoa statusCode +:+ ".html".

(** [Stat] works on every error page that opens. *)
Definition errorPagesStat (fh : fileHandler) : Prop :=
  forall statusCode f, root fh (errorPage statusCode) = inr f -> exists d, Stat f = inr d.

(** The site has no error page for the status code: none opens, or what
    opens is a directory. *)
Definition noErrorPage (fh : fileHandler) (statusCode : Z) : Prop :=
  match root fh (errorPage statusCode) with
  | inl _ => True
  | inr f => exists d, Stat f = inr d /\ IsDir d = true
  end.

(** The directory [name] has no index page to serve: [index.html] does
    not open, or [Stat] fails on it, or it is a directory. *)
Definition noIndexPage (fh : fileHandler) (name : string) : Prop :=
  match root fh (TrimSuffix name "/" +:+ "/index.html") with
  | inl _ => True
  | inr ff => match Stat ff with inl _ => True | inr dd => IsDir dd = true end
  end.

(** The code and the message in the body of the answer to an error of the
    file system. *)
Definition errorWords (err : fsError) : string * string :=
  match err with
  | ErrNotExist => ("not_found", "The requested path could not be found")
  | ErrPermission => (EmptyString, EmptyString)
  | ErrOther => ("internal_server_error", "A server error has occurred")
  end.

End Files.

Module Templates.

(** A template without escapes, parameters and groups: no backslash, no
    colon, no opening parenthesis. *)
Definition plain (template : string) : bool :=
  Go.allBytes
    (fun c => negb (Ascii.eqb c "\" || Ascii.eqb c ":" || Ascii.eqb c "("))
    template.

End Templates.

(* ================================================================== *)
(** * A sample site for the file handler                               *)
(* ================================================================== *)

Module SampleSite.
Import Http SwHttp FileHandler.

Definition regular (name text : string) : File :=
  {| Stat := inr {| Name := name; Size := Z.of_nat (String.length text);
                    ModTime := unixEpochTime; IsDir := false |};
     Data := {| data := text; pos := 0 |} |}.

Definition directory (name : string) : File :=
  {| Stat := inr {| Name := name; Size := 0; ModTime := unixEpochTime; IsDir := true |};
     Data := {| data := EmptyString; pos := 0 |} |}.

(** The root with [index.html], the directory [docs] without one, and
    [secret], which may not be opened. *)
Definition webRoot (name : string) : fsError + File :=
  if String.eqb name "/" then inr (directory "/")
  else if String.eqb name "/index.html" then inr (regular "index.html" "<h1>home</h1>")
  else if String.eqb name "/docs" then inr (directory "docs")
  else if String.eqb name "/secret" then inl ErrPermission
  else inl ErrNotExist.

(** The same with an error page for 404. *)
Definition withErrorPage (name : string) : fsError + File :=
  if String.eqb name "404.html" then inr (regular "404.html" "lost")
  else webRoot name.

Definition site : fileHandler :=
  {| root := webRoot; singlePage := false; allowDirectoryListing := false |}.

Definition singlePageSite : fileHandler :=
  {| root := webRoot; singlePage := true; allowDirectoryListing := false |}.

Definition siteWithErrorPage : fileHandler :=
  {| root := withErrorPage; singlePage := false; allowDirectoryListing := false |}.

(** Stand-ins: [strings.ToLower] on ASCII, an error template, a directory
    page that is never asked for. *)
Fixpoint asciiLower (s : string) : string :=
  match s with
  | EmptyString => EmptyString
  | String c s' => String (Go.toLower c) (asciiLower s')
  end.

Definition errorText (statusCode : Z) (code message : string) : string :=
  Go.Itoa statusCode +:+ " " +:+ message.

Definition noDirectoryPage (r : Request) (f : File) (name : string) : option string := None.

Definition serveSite (query : string) (fh : fileHandler) (r : Request) : run ResponseWriter :=
  FileHandler.ServeHTTP Sample.noTime Sample.anyDate Sample.textPlain Sample.textPlain
    Sample.boundary Sample.noOverhead Sample.noParts query asciiLower errorText
    noDirectoryPage fh newResponseWriter r.

End SampleSite.
(* ================================================================== *)
(** * Facts about the string functions                                 *)
(* ================================================================== *)

Lemma append_cons (c : ascii) (a b : string) :
  String c a +:+ b = String c (a +:+ b).
Proof. reflexivity. Qed.

Lemma append_nil_l (s : string) : EmptyString +:+ s = s.
Proof. reflexivity. Qed.

(** One step of a proof by induction on a string that is appended to. *)
Ltac sstep := rewrite ?append_cons, ?append_nil_l; cbn.

Section GoFacts.

Lemma append_nil_r (s : string) : s +:+ EmptyString = s.
Proof.
  induction s as [|c s IH]; [reflexivity |].
  rewrite append_cons, IH. reflexivity.
Qed.

Lemma append_assoc (a b c : string) : (a +:+ b) +:+ c = a +:+ (b +:+ c).
Proof.
  induction a as [|x a IH]; [reflexivity |].
  rewrite !append_cons, IH. reflexivity.
Qed.

Lemma length_append (a b : string) :
  String.length (a +:+ b) = (String.length a + String.length b)%nat.
Proof.
  induction a as [|x a IH]; [reflexivity |].
  rewrite append_cons. cbn. rewrite IH. reflexivity.
Qed.


Lemma allBytes_append (p : ascii -> bool) (a b : string) :
  Go.allBytes p (a +:+ b) = Go.allBytes p a && Go.allBytes p b.
Proof.
  induction a as [|x a IH]; sstep; [reflexivity |].
  rewrite IH. now rewrite andb_assoc.
Qed.

Lemma allBytes_impl (p q : ascii -> bool) (s : string) :
  (forall c, p c = true -> q c = true) ->
  Go.allBytes p s = true -> Go.allBytes q s = true.
Proof.
  intros Hpq. induction s as [|c s IH]; cbn; [reflexivity |].
  intros [Hc Hs]%andb_prop. rewrite (Hpq c Hc), (IH Hs). reflexivity.
Qed.

Lemma isEmpty_append (a b : string) :
  Go.isEmpty (a +:+ b) = Go.isEmpty a && Go.isEmpty b.
Proof. destruct a; reflexivity. Qed.

Lemma isEmpty_true (s : string) : Go.isEmpty s = true -> s = EmptyString.
Proof. destruct s; [reflexivity | discriminate]. Qed.

(** ** Slices *)

Lemma drop_append_length (a b : string) : Go.drop (String.length a) (a +:+ b) = b.
Proof. induction a as [|x a IH]; sstep; [now destruct b | exact IH]. Qed.

Lemma take_append_length (a b : string) : Go.take (String.length a) (a +:+ b) = a.
Proof.
  induction a as [|x a IH]; sstep; [now destruct b | now rewrite IH].
Qed.

Lemma length_take (n : nat) (s : string) :
  String.length (Go.take n s) = Nat.min n (String.length s).
Proof.
  revert s. induction n as [|n IH]; intros [|c s]; cbn; try reflexivity.
  now rewrite IH.
Qed.

Lemma length_drop (n : nat) (s : string) :
  String.length (Go.drop n s) = (String.length s - n)%nat.
Proof.
  revert s. induction n as [|n IH]; intros [|c s]; cbn; try reflexivity.
  apply IH.
Qed.

Lemma prefix_append (p s : string) : String.prefix p (p +:+ s) = true.
Proof.
  induction p as [|c p IH]; sstep; [now destruct s |].
  destruct (ascii_dec c c); [exact IH | congruence].
Qed.

(** ** Trimming *)

Lemma trimLeftBy_id (p : ascii -> bool) (s : string) :
  Go.allBytes (fun c => negb (p c)) s = true -> Go.trimLeftBy p s = s.
Proof.
  destruct s as [|c s]; cbn; [reflexivity |].
  intros [Hc _]%andb_prop. apply negb_true_iff in Hc. now rewrite Hc.
Qed.

Lemma trimRightBy_id (p : ascii -> bool) (s : string) :
  Go.allBytes (fun c => negb (p c)) s = true -> Go.trimRightBy p s = s.
Proof.
  induction s as [|c s IH]; cbn; [reflexivity |].
  intros [Hc Hs]%andb_prop. apply negb_true_iff in Hc.
  rewrite (IH Hs), Hc, andb_false_r. reflexivity.
Qed.

(** ** Splitting and cutting at a byte *)

Lemma SplitByte_without (sep : ascii) (s : string) :
  Go.allBytes (fun c => negb (Ascii.eqb c sep)) s = true ->
  Go.SplitByte sep s = [s].
Proof.
  induction s as [|c s IH]; cbn; [reflexivity |].
  intros [Hc Hs]%andb_prop. apply negb_true_iff in Hc.
  rewrite Hc, (IH Hs). reflexivity.
Qed.

Lemma SplitByte_append (sep : ascii) (a b : string) :
  Go.allBytes (fun c => negb (Ascii.eqb c sep)) a = true ->
  Go.SplitByte sep (a +:+ String sep b) = a :: Go.SplitByte sep b.
Proof.
  induction a as [|c a IH]; sstep.
  - intros _. now rewrite Ascii.eqb_refl.
  - intros [Hc Ha]%andb_prop. apply negb_true_iff in Hc.
    rewrite Hc, (IH Ha). reflexivity.
Qed.

Lemma SplitByte_Join (sep : ascii) (l : list string) :
  l <> [] ->
  Forall (fun s => Go.allBytes (fun c => negb (Ascii.eqb c sep)) s = true) l ->
  Go.SplitByte sep (Go.Join l (String sep EmptyString)) = l.
Proof.
  intros Hne Hall. induction Hall as [|x l Hx Hl IH]; [congruence |].
  destruct l as [|y l].
  - cbn. now apply SplitByte_without.
  - unfold Go.Join in *. cbn [String.concat].
    change (String sep EmptyString +:+ ?t) with (String sep t).
    rewrite SplitByte_append by exact Hx.
    f_equal. apply IH. discriminate.
Qed.

Lemma CutByte_append (sep : ascii) (a b : string) :
  Go.allBytes (fun c => negb (Ascii.eqb c sep)) a = true ->
  Go.CutByte sep (a +:+ String sep b) = Some (a, b).
Proof.
  induction a as [|c a IH]; sstep.
  - intros _. now rewrite Ascii.eqb_refl.
  - intros [Hc Ha]%andb_prop. apply negb_true_iff in Hc.
    rewrite Hc, (IH Ha). reflexivity.
Qed.

(** ** Decimal numbers *)

Lemma nat_of_digitChar (d : Z) :
  0 <= d <= 9 -> nat_of_ascii (Go.digitChar d) = Z.to_nat (48 + d).
Proof.
  intros Hd. unfold Go.digitChar. apply nat_ascii_embedding. lia.
Qed.

Lemma isDigit_digitChar (d : Z) : 0 <= d <= 9 -> Go.isDigit (Go.digitChar d) = true.
Proof.
  intros Hd. unfold Go.isDigit. rewrite nat_of_digitChar by exact Hd.
  apply andb_true_intro; split; apply Nat.leb_le; lia.
Qed.

Lemma digitVal_digitChar (d : Z) : 0 <= d <= 9 -> Go.digitVal (Go.digitChar d) = d.
Proof.
  intros Hd. unfold Go.digitVal. rewrite nat_of_digitChar by exact Hd. lia.
Qed.

Lemma formatDigits_acc (fuel : nat) (n : Z) (acc : string) :
  Go.formatDigits fuel n acc = Go.formatDigits fuel n EmptyString +:+ acc.
Proof.
  revert n acc. induction fuel as [|fuel IH]; intros n acc; cbn; [reflexivity |].
  destruct (n <? 10); [reflexivity |].
  rewrite IH, (IH _ (String _ EmptyString)), append_assoc. reflexivity.
Qed.

Lemma parseDigits_append (v : Z) (a b : string) :
  Go.parseDigits v (a +:+ b) =
  match Go.parseDigits v a with
  | Some v' => Go.parseDigits v' b
  | None => None
  end.
Proof.
  revert v. induction a as [|c a IH]; intros v; sstep; [reflexivity |].
  destruct (Go.isDigit c); [apply IH | reflexivity].
Qed.

(** Printing then parsing: the digits of [n] after a value [v] read so
    far give [v] shifted by their number, plus [n]. *)
Lemma parseDigits_formatDigits (fuel : nat) (n v : Z) :
  0 <= n < 10 ^ Z.of_nat fuel ->
  Go.parseDigits v (Go.formatDigits fuel n EmptyString)
  = Some (v * 10 ^ Z.of_nat (String.length (Go.formatDigits fuel n EmptyString)) + n).
Proof.
  revert n v. induction fuel as [|fuel IH]; intros n v Hn.
  - cbn in *. f_equal. lia.
  - cbn [Go.formatDigits]. destruct (n <? 10) eqn:Hlt.
    + apply Z.ltb_lt in Hlt. cbn [Go.parseDigits String.length].
      rewrite isDigit_digitChar, digitVal_digitChar
        by (rewrite Z.mod_small; lia).
      rewrite Z.mod_small by lia. reflexivity.
    + apply Z.ltb_ge in Hlt.
      rewrite formatDigits_acc, parseDigits_append, length_append.
      assert (Hdiv : 0 <= n / 10 < 10 ^ Z.of_nat fuel).
      { split; [apply Z.div_pos; lia |].
        apply Z.div_lt_upper_bound; [lia |].
        rewrite Nat2Z.inj_succ, Z.pow_succ_r in Hn by lia. lia. }
      rewrite (IH _ _ Hdiv). cbn [Go.parseDigits String.length].
      pose proof (Z.mod_pos_bound n 10 ltac:(lia)) as Hmod.
      rewrite isDigit_digitChar, digitVal_digitChar by lia.
      f_equal. rewrite Nat2Z.inj_add. cbn [Z.of_nat].
      rewrite Z.pow_add_r by lia.
      pose proof (Z.div_mod n 10 ltac:(lia)) as Hdm.
      change (10 ^ Z.pos 1) with 10. nia.
Qed.

Lemma allDigits_formatDigits (fuel : nat) (n : Z) :
  0 <= n ->
  Go.allBytes Go.isDigit (Go.formatDigits fuel n EmptyString) = true.
Proof.
  revert n. induction fuel as [|fuel IH]; intros n Hn; cbn; [reflexivity |].
  pose proof (Z.mod_pos_bound n 10 ltac:(lia)) as Hmod.
  destruct (n <? 10).
  - cbn. now rewrite isDigit_digitChar by lia.
  - rewrite formatDigits_acc, allBytes_append. cbn.
    rewrite IH by (apply Z.div_pos; lia).
    now rewrite isDigit_digitChar by lia.
Qed.

Lemma formatDigits_not_empty (fuel : nat) (n : Z) :
  Go.isEmpty (Go.formatDigits (S fuel) n EmptyString) = false.
Proof.
  cbn. destruct (n <? 10); [reflexivity |].
  rewrite formatDigits_acc, isEmpty_append. cbn. apply andb_false_r.
Qed.

Lemma enough_fuel (n : Z) : 0 <= n -> n < 10 ^ Z.of_nat (S (Z.to_nat (Z.log2 n))).
Proof.
  intros Hn. rewrite Nat2Z.inj_succ, Z2Nat.id by apply Z.log2_nonneg.
  destruct (Z.eq_dec n 0) as [-> | Hz]; [cbn; lia |].
  pose proof (Z.log2_spec n ltac:(lia)) as [_ Hup].
  eapply Z.lt_le_trans; [exact Hup |].
  apply Z.pow_le_mono_l. split; [lia | lia].
Qed.

Lemma FormatInt_digits (n : Z) :
  0 <= n ->
  Go.allBytes Go.isDigit (Go.FormatInt n) = true
  /\ Go.isEmpty (Go.FormatInt n) = false.
Proof.
  intros Hn. unfold Go.FormatInt.
  destruct (n <? 0) eqn:Hneg; [apply Z.ltb_lt in Hneg; lia |].
  split; [now apply allDigits_formatDigits | apply formatDigits_not_empty].
Qed.

(** [strconv.ParseInt] reads back what [strconv.FormatInt] prints. *)
Lemma ParseInt_FormatInt (n : Z) :
  0 <= n <= Go.int64_max -> Go.ParseInt (Go.FormatInt n) = Some n.
Proof.
  intros Hn.
  destruct (FormatInt_digits n ltac:(lia)) as [Hdigits Hne].
  assert (Hparse : Go.parseDigits 0 (Go.FormatInt n) = Some n).
  { unfold Go.FormatInt.
    destruct (n <? 0) eqn:Hneg; [apply Z.ltb_lt in Hneg; lia |].
    unfold Go.formatUnsigned.
    rewrite parseDigits_formatDigits by (split; [lia | now apply enough_fuel]).
    reflexivity. }
  destruct (Go.FormatInt n) as [|c s] eqn:E; [discriminate |].
  unfold Go.ParseInt.
  cbn in Hdigits. apply andb_prop in Hdigits as [Hc _].
  assert (Hminus : Ascii.eqb c "-" = false).
  { destruct (Ascii.eqb_spec c "-") as [-> |]; [discriminate | reflexivity]. }
  assert (Hplus : Ascii.eqb c "+" = false).
  { destruct (Ascii.eqb_spec c "+") as [-> |]; [discriminate | reflexivity]. }
  rewrite Hminus, Hplus. unfold Go.parseUnsigned. rewrite Hparse.
  unfold Go.int64_min, Go.int64_max in *.
  replace (- 2 ^ 63 <=? n) with true by (symmetry; apply Z.leb_le; lia).
  replace (n <=? 2 ^ 63 - 1) with true by (symmetry; apply Z.leb_le; lia).
  reflexivity.
Qed.

End GoFacts.
(* ================================================================== *)
(** * Glob matcher: the empty pattern, brace sets                      *)
(* ================================================================== *)

Section MinimatchFacts.

Variables rSlash rOpen rClose rComma rPeriod : Z.
Variable Regexp : Type.
Variable reMatchString : Regexp -> string -> bool.
Variable emptyRegexp : Regexp.
Variable parsePortion : Minimatch.Options -> string -> Minimatch.parsed Regexp.

Local Abbreviation NewMinimatch :=
  (Minimatch.NewMinimatch rSlash rOpen rClose rComma rPeriod Regexp emptyRegexp parsePortion).
Local Abbreviation MatchString :=
  (Minimatch.MatchString rSlash rOpen rClose rComma rPeriod Regexp reMatchString
     emptyRegexp parsePortion).

(** With comment handling on, [make] reads [m.pattern[0]] before it has
    looked at the length of the pattern. *)
Lemma NewMinimatch_blank_panics (pattern : string) (options : Minimatch.Options) :
  Go.TrimSpace pattern = EmptyString ->
  Minimatch.NoComment options = false ->
  NewMinimatch pattern options = Panic indexOutOfRange.
Proof.
  intros Hblank Hcomment.
  unfold Minimatch.NewMinimatch, Minimatch.make; simpl.
  rewrite Hblank, Hcomment. reflexivity.
Qed.

(** C10 (the code fails the claim): for the empty pattern and the zero
    [Options] value, [NewMinimatch], and so [MatchString] on any path,
    neither returns a matcher nor an error: the comment check indexes the
    pattern at position 0, past its end, and the call panics. *)
Theorem C10_empty_pattern_panics (path : string) :
  NewMinimatch EmptyString Minimatch.zeroOptions = Panic indexOutOfRange
  /\ MatchString path EmptyString Minimatch.zeroOptions = Panic indexOutOfRange.
Proof.
  split.
  - apply NewMinimatch_blank_panics; reflexivity.
  - unfold Minimatch.MatchString.
    rewrite NewMinimatch_blank_panics by reflexivity. reflexivity.
Qed.

(** A pattern in which [braceShortcut] finds a brace set is handed on as it
    is: the test of [braceExpand] is the wrong way round. *)
Lemma braceExpand_keeps_brace_sets (m : Minimatch.matcher Regexp) :
  Minimatch.braceShortcut (Minimatch.pattern Regexp m) = true ->
  Minimatch.braceExpand rSlash rOpen rClose rComma rPeriod Regexp m
  = Ret [Minimatch.pattern Regexp m].
Proof.
  intros H. unfold Minimatch.braceExpand. rewrite H, orb_true_r. reflexivity.
Qed.

(** C5 (the code fails the claim): [BraceExpansion] turns [a{b,c}d] into
    [abd] and [acd], but the matcher never calls it on a pattern with a
    brace set: [a{b,c}d] is compiled as the single portion [a{b,c}d], and a
    path is matched against that one portion only. *)
Theorem C5_brace_set_is_not_expanded :
  Minimatch.BraceExpansion rSlash rOpen rClose rComma rPeriod "a{b,c}d"
    = Ret ["abd"; "acd"]
  /\ forall path : string,
       MatchString path "a{b,c}d" Minimatch.zeroOptions =
       match parsePortion Minimatch.zeroOptions "a{b,c}d" with
       | Minimatch.ParsePanic _ why => Panic why
       | Minimatch.ParseNil _ => Ret false
       | Minimatch.ParsePart _ p =>
           Minimatch.matchOne Regexp reMatchString Minimatch.zeroOptions [p]
             (Minimatch.slashSplit path) false
       end.
Proof.
  split; [reflexivity |].
  intros path. unfold Minimatch.zeroOptions.
  remember (Minimatch.slashSplit path) as fparts eqn:Hparts.
  destruct (parsePortion _ "a{b,c}d") as [why| |p] eqn:E;
    cbv beta iota;
    try (remember (Minimatch.matchOne _ _ _ _ _ _) as one eqn:Hone);
    unfold Minimatch.MatchString, Minimatch.NewMinimatch, Minimatch.make,
      Minimatch.braceExpand, Minimatch.parseNegate, Minimatch.Match;
    cbn -[Minimatch.matchOne];
    unfold Minimatch.parse; cbn -[Minimatch.matchOne];
    rewrite E; cbn -[Minimatch.matchOne];
    rewrite ?andb_false_r; try reflexivity.
  rewrite <- Hparts, <- Hone.
  destruct one as [[|]| |]; reflexivity.
Qed.

(** ** Negation *)

(** No white-space character starts with the byte [!]. *)
Lemma trimLeftSpace_bang (G : string) :
  Go.trimLeftSpace (String "!" G) = String "!" G.
Proof. destruct G as [|d [|e G]]; reflexivity. Qed.

Lemma TrimSpace_bang (G : string) :
  Go.trimLeftSpace G = G ->
  Go.TrimSpace (String "!" G) = String "!" (Go.TrimSpace G).
Proof.
  intros Hlead. unfold Go.TrimSpace. rewrite trimLeftSpace_bang, Hlead.
  cbn [Go.trimRightSpace]. now rewrite trimLeftSpace_bang.
Qed.

Lemma stripBangs_none (negate : bool) (pattern : string) :
  Go.HasPrefix pattern "!" = false ->
  Minimatch.stripBangs negate pattern = (negate, pattern).
Proof.
  destruct pattern as [|c rest]; [reflexivity |].
  unfold Go.HasPrefix. cbn [String.prefix].
  destruct (ascii_dec "!" c) as [<- | Hc].
  - destruct rest; discriminate.
  - intros _. cbn [Minimatch.stripBangs].
    destruct c as [[] [] [] [] [] [] [] []]; try reflexivity. congruence.
Qed.

(** Two matchers that differ in [negate] only give opposite answers. *)
Lemma matchSet_negate (m m' : Minimatch.matcher Regexp) (fparts : list string)
    (filename : string) (partial : bool) (rows : list (list (Minimatch.part Regexp))) :
  Minimatch.options Regexp m' = Minimatch.options Regexp m ->
  Minimatch.negate Regexp m' = negb (Minimatch.negate Regexp m) ->
  Minimatch.FlipNegate (Minimatch.options Regexp m) = false ->
  Minimatch.matchSet Regexp reMatchString m' fparts filename partial rows
  = negb <$> Minimatch.matchSet Regexp reMatchString m fparts filename partial rows.
Proof.
  intros Hopt Hneg Hflip.
  induction rows as [|row rows IH]; cbn [Minimatch.matchSet].
  - rewrite Hopt, Hflip, Hneg. reflexivity.
  - rewrite Hopt, Hflip, Hneg.
    destruct (Minimatch.matchOne _ _ _ _ _ _) as [[|]| |]; cbn;
      (reflexivity || exact IH).
Qed.

(** C8, as amended: for a glob [G] without leading white space (in the
    sense of [unicode.IsSpace], which is what [strings.TrimSpace] trims)
    that, once trimmed, is not empty and starts with neither [!] nor
    (unless comments are off) [#], and with [NoNegate] and [FlipNegate]
    unset, matching a path against [!G] gives the negation of matching it
    against [G]; the one call panics exactly when the other does. *)
Theorem C8_negated_glob (G P : string) (options : Minimatch.Options) :
  Go.trimLeftSpace G = G ->
  Go.isEmpty (Go.TrimSpace G) = false ->
  Go.HasPrefix (Go.TrimSpace G) "!" = false ->
  Go.HasPrefix (Go.TrimSpace G) "#" = false \/ Minimatch.NoComment options = true ->
  Minimatch.NoNegate options = false ->
  Minimatch.FlipNegate options = false ->
  MatchString P ("!" +:+ G) options = negb <$> MatchString P G options.
Proof.
  intros Hlead Hne Hbang Hhash Hnoneg Hflip.
  unfold Minimatch.MatchString, Minimatch.NewMinimatch.
  change ("!" +:+ G) with (String "!" G). rewrite TrimSpace_bang by exact Hlead.
  remember (Go.TrimSpace G) as pat eqn:Hpat.
  destruct pat as [|c rest]; [discriminate |].
  unfold Minimatch.make.
  cbn [Minimatch.pattern Minimatch.options Minimatch.negate Minimatch.Comment
       Minimatch.Empty Minimatch.set String.length Nat.eqb].
  assert (Hc : (if negb (Minimatch.NoComment options)
                then Ret (Ascii.eqb c "#") else Ret false) = @Ret bool false).
  { destruct Hhash as [Hhash | ->]; [| reflexivity].
    destruct (Minimatch.NoComment options); [reflexivity |]. cbn [negb].
    unfold Go.HasPrefix in Hhash. cbn [String.prefix] in Hhash.
    destruct (Ascii.eqb_spec c "#") as [-> | _]; [| reflexivity].
    cbn in Hhash. destruct rest; discriminate. }
  rewrite Hc.
  change (Ascii.eqb "!" "#") with false.
  replace (if negb (Minimatch.NoComment options) then Ret false else Ret false)
    with (@Ret bool false) by (now destruct (Minimatch.NoComment options)).
  cbn [mbind run_bind].
  unfold Minimatch.parseNegate.
  cbn [Minimatch.pattern Minimatch.options Minimatch.negate Minimatch.Comment
       Minimatch.Empty Minimatch.set].
  rewrite Hnoneg.
  change (Minimatch.stripBangs false (String "!" (String c rest)))
    with (Minimatch.stripBangs true (String c rest)).
  rewrite !stripBangs_none by exact Hbang.
  unfold Minimatch.braceExpand.
  cbn [Minimatch.pattern Minimatch.options Minimatch.negate Minimatch.Comment
       Minimatch.Empty Minimatch.set].
  destruct (if Minimatch.NoBrace options || Minimatch.braceShortcut (String c rest)
            then Ret [String c rest]
            else Minimatch.BraceExpansion rSlash rOpen rClose rComma rPeriod
                   (String c rest)) as [globSet| |]; try reflexivity.
  cbn [mbind run_bind].
  destruct (Minimatch.makeSet _ _ _ _ _) as [rows| |]; try reflexivity.
  cbn [mbind run_bind].
  unfold Minimatch.Match.
  cbn [Minimatch.pattern Minimatch.options Minimatch.negate Minimatch.Comment
       Minimatch.Empty Minimatch.set].
  rewrite andb_false_r.
  apply matchSet_negate; [reflexivity | reflexivity | exact Hflip].
Qed.

End MinimatchFacts.

(** The glob [a] and the path [b], for [C8_negated_glob]: [a] does not
    match, [!a] does. *)
Lemma C8_witness :
  Sample.literalMatchString "b" "a" Minimatch.zeroOptions = Ret false
  /\ Sample.literalMatchString "b" "!a" Minimatch.zeroOptions
     = negb <$> Sample.literalMatchString "b" "a" Minimatch.zeroOptions.
Proof.
  split; [reflexivity |].
  apply (C8_negated_glob 0 0 0 0 0 string Sample.literalMatch Sample.literalEmpty
           Sample.literalPortion "a" "b" Minimatch.zeroOptions);
    solve [ reflexivity | left; reflexivity ].
Defined.

(** With an engine that takes the portion [a{b,c}d] literally, as the
    expression that [parse] builds for it does, the path [abd] is not
    matched by the glob [a{b,c}d], though it is by [abd]. *)
Lemma brace_set_is_taken_literally :
  Sample.literalMatchString "abd" "a{b,c}d" Minimatch.zeroOptions = Ret false
  /\ Sample.literalMatchString "abd" "abd" Minimatch.zeroOptions = Ret true.
Proof. split; reflexivity. Qed.

(** C8, as stated, fails on comments: [#a] is a comment and matches
    nothing, not even the path [#a]; [!#a] is the negation of the glob [#a],
    which that path matches, so it does not match either. *)
Lemma C8_counterexample :
  Sample.literalMatchString "#a" "#a" Minimatch.zeroOptions = Ret false
  /\ Sample.literalMatchString "#a" "!#a" Minimatch.zeroOptions = Ret false
  /\ Sample.literalMatchString "#a" "#a" Minimatch.zeroOptions
     <> negb <$> Sample.literalMatchString "#a" "!#a" Minimatch.zeroOptions.
Proof. vm_compute. repeat split. discriminate. Qed.

(** Leading white space is trimmed before the [!] is looked for, also when
    it is not ASCII: the glob made of U+00A0 and [a] matches the path [a],
    and so does that glob after a [!], which is then no negation. *)
Lemma leading_white_space_is_trimmed :
  Go.TrimSpace Sample.nbspA = "a"
  /\ Sample.literalMatchString "a" Sample.nbspA Minimatch.zeroOptions = Ret true
  /\ Sample.literalMatchString "a" ("!" +:+ Sample.nbspA) Minimatch.zeroOptions = Ret true.
Proof. repeat split. Qed.

(* ================================================================== *)
(** * Path templates                                                   *)
(* ================================================================== *)

Section PathToRegexpFacts.

Variable regexpCompiles : string -> bool.

(** [MatchString] reports a match whatever the path and hands back no
    capture at all; [Compile] hands back the template it was given. *)
Lemma MatchString_is_a_stub (matcher : PathToRegexp.matcherParser) (path : string) :
  PathToRegexp.MatchString matcher path
  = (true, {| PathToRegexp.ResKeys := PathToRegexp.keys matcher;
              PathToRegexp.Results := [] |}).
Proof. reflexivity. Qed.

Lemma Compile_is_a_stub (template : string) (params : gmap string string) :
  PathToRegexp.Compile template params = template.
Proof. reflexivity. Qed.

(** C4 (the code fails the claim): for the template [/:id] and the
    parameters [id = 42], reverse compilation returns the template itself
    and matching it returns [true] with an empty list of results: the value
    [42] is not recovered (it is not even put into the path). *)
Theorem C4_captures_are_not_recovered :
  let template := "/:id" in
  let params : gmap string string := {[ "id" := "42" ]} in
  let '(matcher, err) :=
    PathToRegexp.PathToRegexp regexpCompiles template PathToRegexp.NewOptions in
  map PathToRegexp.Name (PathToRegexp.keys matcher) = ["id"]
  /\ PathToRegexp.Compile template params = "/:id"
  /\ PathToRegexp.MatchString matcher (PathToRegexp.Compile template params)
     = (true, {| PathToRegexp.ResKeys := PathToRegexp.keys matcher;
                 PathToRegexp.Results := [] |}).
Proof. cbv zeta. unfold PathToRegexp.PathToRegexp. repeat split. Qed.

End PathToRegexpFacts.

(* ================================================================== *)
(** * Reverse proxy                                                    *)
(* ================================================================== *)

Section ProxyFacts.
Import Http.

Variable NewRequestOk : string -> string -> bool.

(** C9 (the code fails the claim): a client request with a [Connection]
    header is forwarded with that header: the upstream request is built
    with [copyHeader(newreq.Header, req.Header, Set{})], an empty set of
    headers to omit.  Method, body and [X-Forwarded-For] are as claimed. *)
Theorem C9_hop_by_hop_header_is_forwarded :
  let req :=
    {| Method := "GET"; Path := "/api/ping";
       ReqHeader := {[ "Connection" := ["keep-alive"];
                       "X-Forwarded-For" := ["192.0.2.1"] ]};
       RemoteAddr := "10.0.0.1:4711"; Body := "ping" |} in
  NewRequestOk "GET" "http://u/ping" = true ->
  exists up,
    Proxy.upstreamRequest NewRequestOk "http://u/*" [("*", "ping")] req = Some up
    /\ Proxy.UpMethod up = "GET" /\ Proxy.UpBody up = "ping"
    /\ Proxy.UpHeader up !! "X-Forwarded-For" = Some ["192.0.2.1, 10.0.0.1"]
    /\ "Connection" ∈ Proxy.hopHeaders
    /\ Proxy.UpHeader up !! "Connection" = Some ["keep-alive"].
Proof.
  intros req Hok.
  eexists. split.
  - unfold Proxy.upstreamRequest. cbn [fold_left fst snd].
    change (Go.ReplaceAll "http://u/*" "*" "ping") with "http://u/ping".
    subst req. cbn [Method]. rewrite Hok. cbn [negb]. reflexivity.
  - repeat split; reflexivity.
Qed.

End ProxyFacts.

(** A request that passes [http.NewRequest], for [C9_hop_by_hop_header_is_forwarded]. *)
Lemma C9_witness :
  exists up,
    Proxy.upstreamRequest (fun _ _ => true) "http://u/*" [("*", "ping")]
      {| Http.Method := "GET"; Http.Path := "/api/ping";
         Http.ReqHeader := {[ "Connection" := ["keep-alive"];
                         "X-Forwarded-For" := ["192.0.2.1"] ]};
         Http.RemoteAddr := "10.0.0.1:4711"; Http.Body := "ping" |} = Some up
    /\ Proxy.UpMethod up = "GET" /\ Proxy.UpBody up = "ping"
    /\ Proxy.UpHeader up !! "X-Forwarded-For" = Some ["192.0.2.1, 10.0.0.1"]
    /\ "Connection" ∈ Proxy.hopHeaders
    /\ Proxy.UpHeader up !! "Connection" = Some ["keep-alive"].
Proof.
  apply (C9_hop_by_hop_header_is_forwarded (fun _ _ => true)). reflexivity.
Defined.


(* ================================================================== *)
(** * Pipeline: rewrites and redirects                                 *)
(* ================================================================== *)

Section PipelineFacts.
Import Http Handler.

Variable regexpCompiles : string -> bool.
Variable urlParse : string -> option string.
Variables rSlash rOpen rClose rComma rPeriod : Z.
Variable Regexp : Type.
Variable reMatchString : Regexp -> string -> bool.
Variable emptyRegexp : Regexp.
Variable parsePortion : Minimatch.Options -> string -> Minimatch.parsed Regexp.
Variable fs : FileSystem.

Local Abbreviation sourceMatches :=
  (Handler.sourceMatches regexpCompiles rSlash rOpen rClose rComma rPeriod
     Regexp reMatchString emptyRegexp parsePortion).
Local Abbreviation toTarget :=
  (Handler.toTarget regexpCompiles urlParse rSlash rOpen rClose rComma rPeriod
     Regexp reMatchString emptyRegexp parsePortion).
Local Abbreviation firstTarget :=
  (Handler.firstTarget regexpCompiles urlParse rSlash rOpen rClose rComma rPeriod
     Regexp reMatchString emptyRegexp parsePortion).
Local Abbreviation applyRewritesFrom :=
  (Handler.applyRewritesFrom regexpCompiles urlParse rSlash rOpen rClose rComma rPeriod
     Regexp reMatchString emptyRegexp parsePortion).
Local Abbreviation applyRewritesTrace :=
  (Handler.applyRewritesTrace regexpCompiles urlParse rSlash rOpen rClose rComma rPeriod
     Regexp reMatchString emptyRegexp parsePortion).
Local Abbreviation applyRewrites :=
  (Handler.applyRewrites regexpCompiles urlParse rSlash rOpen rClose rComma rPeriod
     Regexp reMatchString emptyRegexp parsePortion).
Local Abbreviation shouldRedirect :=
  (Handler.shouldRedirect regexpCompiles urlParse rSlash rOpen rClose rComma rPeriod
     Regexp reMatchString emptyRegexp parsePortion).
Local Abbreviation targetOf := (Rules.targetOf regexpCompiles urlParse).
Local Abbreviation ServeHTTP :=
  (Handler.ServeHTTP regexpCompiles urlParse rSlash rOpen rClose rComma rPeriod
     Regexp reMatchString emptyRegexp parsePortion fs).

(** With segments allowed, a source matches every path as soon as its
    expression compiles: the template matcher never says no, and the glob
    matcher is not asked. *)
Lemma sourceMatches_segments (source requestPath : string) :
  sourceMatches source requestPath true =
  Ret (regexpCompiles
         (PathToRegexp.routeOf
            (PathToRegexp.parse (Go.ReplaceAll (slasher source) "*" "(.*)")
               PathToRegexp.NewOptions)
            PathToRegexp.NewOptions),
       [], []).
Proof.
  unfold Handler.sourceMatches, PathToRegexp.PathToRegexp.
  destruct (regexpCompiles _); reflexivity.
Qed.

Lemma toTarget_targetOf (source destination previousPath : string) :
  toTarget source destination previousPath = Ret (targetOf source destination).
Proof.
  unfold Handler.toTarget, Rules.targetOf. rewrite sourceMatches_segments.
  cbn. destruct (regexpCompiles _); cbn; [|reflexivity].
  destruct (urlParse destination); reflexivity.
Qed.

Lemma firstTarget_returns (path_ : string) (rewrites : list ConfigRewrite) (idx : nat) :
  exists found, firstTarget path_ rewrites idx = Ret found
    /\ forall i t, found = Some (i, t) -> (idx <= i < idx + List.length rewrites)%nat.
Proof.
  revert idx. induction rewrites as [|item rest IH]; intros idx;
    cbn [Handler.firstTarget].
  - eexists; split; [reflexivity | discriminate].
  - rewrite toTarget_targetOf. cbn [mbind run_bind].
    destruct (targetOf _ _) as [t|].
    + eexists; split; [reflexivity |]. intros i t' [= <- <-]. cbn. lia.
    + destruct (IH (S idx)) as (found & -> & Hb).
      eexists; split; [reflexivity |]. intros i t' E. specialize (Hb i t' E).
      cbn. lia.
Qed.

(** What is removed after a rule has fired is the last rule of the working
    list: the [copy] overwrites a prefix of the list with itself. *)
Lemma copyPrefix_unchanged (array : list ConfigRewrite) (idx : nat) :
  copyPrefix array idx (idx + 1) = array.
Proof.
  unfold copyPrefix. rewrite Nat.min_l by lia.
  rewrite firstn_firstn, Nat.min_l by lia. apply firstn_skipn.
Qed.

(** Rewrite resolution returns, and no more rules fire than are configured. *)
Lemma applyRewritesFrom_bound (fuel : nat) (path_ : string) (rewrites : list ConfigRewrite) :
  (List.length rewrites < fuel)%nat ->
  exists trace result,
    applyRewritesFrom fuel path_ rewrites = Ret (trace, result)
    /\ (List.length trace <= List.length rewrites)%nat.
Proof.
  revert path_ rewrites.
  induction fuel as [|fuel IH]; intros path_ rewrites Hfuel; [lia |].
  cbn [Handler.applyRewritesFrom].
  destruct rewrites as [|item rest] eqn:Hrw.
  - cbn. eexists _, _. split; [reflexivity | cbn; lia].
  - rewrite <- Hrw in *.
    assert (Hlen : (List.length rewrites =? 0)%nat = false)
      by (subst rewrites; reflexivity).
    assert (Hpos : (0 < List.length rewrites)%nat) by (subst rewrites; cbn; lia).
    rewrite Hlen.
    destruct (firstTarget_returns path_ rewrites 0) as (found & -> & _).
    cbn [mbind run_bind]. destruct found as [[idx target]|].
    + rewrite Nat.sub_0_r, copyPrefix_unchanged.
      destruct (IH (slasher target) (firstn (List.length rewrites - 1) rewrites))
        as (trace & result & -> & Hb).
      { rewrite length_firstn. lia. }
      cbn [mbind run_bind fst snd]. eexists _, _. split; [reflexivity |].
      rewrite length_firstn in Hb. cbn [List.length]. lia.
    + eexists _, _. split; [reflexivity | cbn; lia].
Qed.

(** X5. Rewrite resolution returns, whatever the path and the rules, and
    no more rules fire than are configured. *)
Lemma applyRewrites_terminates (path_ : string) (rewrites : list ConfigRewrite) :
  exists trace result,
    applyRewritesTrace path_ rewrites = Ret (trace, result)
    /\ (List.length trace <= List.length rewrites)%nat.
Proof. apply applyRewritesFrom_bound. lia. Qed.

(** C2 (the code fails the claim): with the rules [/a -> /a] and [/b -> /c]
    and the path [/a], the first rule fires, the working list loses its
    last rule, [/b -> /c], and the first rule fires again.  (Resolution
    still ends after two rule applications.) *)
Theorem C2_fired_rule_fires_again :
  regexpCompiles "(?i)^(?:\/)?$" = true ->
  urlParse "/a" = Some EmptyString ->
  applyRewritesTrace "/a" [Sample.ruleA; Sample.ruleB] = Ret ([0%nat; 0%nat], Some "/a").
Proof.
  intros Hre Hurl.
  assert (Ht : targetOf "/a" "/a" = Some "/a").
  { unfold Rules.targetOf.
    change (PathToRegexp.routeOf _ _) with "(?i)^(?:\/)?$".
    rewrite Hre, Hurl. reflexivity. }
  unfold Handler.applyRewritesTrace, Sample.ruleA, Sample.ruleB.
  cbn [List.length Handler.applyRewritesFrom Handler.firstTarget Nat.eqb
       Source Destination].
  rewrite !toTarget_targetOf, Ht. cbn [mbind run_bind].
  change (slasher "/a") with "/a".
  rewrite Nat.sub_0_r, copyPrefix_unchanged.
  cbn [List.length Handler.applyRewritesFrom Handler.firstTarget Nat.eqb
       Source Destination firstn Nat.sub].
  rewrite !toTarget_targetOf, Ht. cbn [mbind run_bind].
  reflexivity.
Qed.

(** C3 (the code fails the claim): the rule [/old -> /new] has type 301;
    [shouldRedirect] returns the target with 301, and [ServeHTTP] drops the
    status and redirects with 307. *)
Theorem C3_redirect_type_is_dropped :
  regexpCompiles "(?i)^(?:\/)?$" = true ->
  urlParse "/new" = Some EmptyString ->
  shouldRedirect Sample.redirectState "/old" false = Ret (Some "/new", 301)
  /\ ServeHTTP Sample.redirectState (Sample.get "/old" ∅)
     = Ret (Redirect "/new" StatusTemporaryRedirect).
Proof.
  intros Hre Hurl.
  assert (Ht : targetOf "/old" "/new" = Some "/new").
  { unfold Rules.targetOf.
    change (PathToRegexp.routeOf _ _) with "(?i)^(?:\/)?$".
    rewrite Hre, Hurl. reflexivity. }
  assert (Hs : shouldRedirect Sample.redirectState "/old" false = Ret (Some "/new", 301)).
  { unfold Handler.shouldRedirect.
    cbn [Sample.redirectState Redirects List.length Nat.eqb andb negb Handler.firstRedirect
         RedirSource RedirDestination Type_].
    rewrite toTarget_targetOf, Ht. reflexivity. }
  split; [exact Hs |].
  unfold Handler.ServeHTTP.
  change (pathIsInside _ _) with true.
  cbn [negb Sample.get Path].
  change (Handler.applicable _ _ _ _ _ _ _ _ _ _ _ _ _) with (@Ret bool false).
  cbn [mbind run_bind]. rewrite Hs. reflexivity.
Qed.

End PipelineFacts.

(** The collaborators' answers assumed by [C2_fired_rule_fires_again] are those of
    the stand-ins. *)
Lemma C2_witness :
  Handler.applyRewritesTrace Sample.compilesAll Sample.noScheme 0 0 0 0 0
    string Sample.literalMatch Sample.literalEmpty Sample.literalPortion
    "/a" [Sample.ruleA; Sample.ruleB] = Ret ([0%nat; 0%nat], Some "/a").
Proof.
  apply (C2_fired_rule_fires_again Sample.compilesAll Sample.noScheme); reflexivity.
Defined.

(** The same for [C3_redirect_type_is_dropped], on a file system without files. *)
Lemma C3_witness :
  Handler.shouldRedirect Sample.compilesAll Sample.noScheme 0 0 0 0 0
    string Sample.literalMatch Sample.literalEmpty Sample.literalPortion
    Sample.redirectState "/old" false = Ret (Some "/new", 301)
  /\ Handler.ServeHTTP Sample.compilesAll Sample.noScheme 0 0 0 0 0
       string Sample.literalMatch Sample.literalEmpty Sample.literalPortion
       Sample.noFiles Sample.redirectState (Sample.get "/old" ∅)
     = Ret (Handler.Redirect "/new" Http.StatusTemporaryRedirect).
Proof.
  apply (C3_redirect_type_is_dropped Sample.compilesAll Sample.noScheme);
    reflexivity.
Defined.

(* ================================================================== *)
(** * Content server: byte ranges                                      *)
(* ================================================================== *)

(** Decides a comparison of integers by [lia]. *)
Ltac zdecide :=
  symmetry; rewrite ?Z.geb_leb, ?Z.gtb_ltb;
  first [ apply Z.leb_le | apply Z.leb_gt | apply Z.ltb_lt | apply Z.ltb_ge ];
  cbn in *; lia.

Section RangeFacts.
Import Http SwHttp Ranges.

Lemma plainByte_digit (c : ascii) : Go.isDigit c = true -> plainByte c = true.
Proof. intros H. unfold plainByte. now rewrite H. Qed.

Lemma digit_not_dash (c : ascii) :
  Go.isDigit c = true -> negb (Ascii.eqb c "-") = true.
Proof.
  intros H. destruct (Ascii.eqb_spec c "-") as [-> |]; [discriminate | reflexivity].
Qed.

Lemma plainByte_not_space (c : ascii) :
  plainByte c = true -> negb (Go.isASCIISpace c) = true.
Proof.
  unfold plainByte, Go.isASCIISpace. intros H.
  destruct (Ascii.eqb_spec c " ") as [-> |]; [discriminate |].
  destruct (Ascii.eqb_spec c "009") as [-> |]; [discriminate |].
  destruct (Ascii.eqb_spec c "010") as [-> |]; [discriminate |].
  destruct (Ascii.eqb_spec c "013") as [-> |]; [discriminate | reflexivity].
Qed.

Lemma plainByte_not_comma (c : ascii) :
  plainByte c = true -> negb (Ascii.eqb c ",") = true.
Proof.
  unfold plainByte. intros H.
  destruct (Ascii.eqb_spec c ",") as [-> |]; [discriminate | reflexivity].
Qed.

Lemma FormatInt_plain (n : Z) : Go.allBytes plainByte (Go.FormatInt n) = true.
Proof.
  unfold Go.FormatInt. destruct (n <? 0) eqn:Hneg.
  - apply Z.ltb_lt in Hneg. cbn [Go.allBytes].
    change (plainByte "-") with true. cbn [andb].
    eapply allBytes_impl; [exact plainByte_digit |].
    apply allDigits_formatDigits. lia.
  - apply Z.ltb_ge in Hneg.
    eapply allBytes_impl; [exact plainByte_digit |].
    now apply allDigits_formatDigits.
Qed.

Lemma rangeSpec_plain (spec : Z * option Z) :
  Go.allBytes plainByte (rangeSpec spec) = true.
Proof.
  unfold rangeSpec. rewrite !allBytes_append, FormatInt_plain. cbn.
  destruct (snd spec); [apply FormatInt_plain | reflexivity].
Qed.

Lemma rangeSpec_not_empty (spec : Z * option Z) :
  Go.isEmpty (rangeSpec spec) = false.
Proof.
  unfold rangeSpec. rewrite !isEmpty_append. cbn. apply andb_false_r.
Qed.

Lemma TrimString_plain (s : string) :
  Go.allBytes plainByte s = true -> Go.TrimString s = s.
Proof.
  intros H. unfold Go.TrimString.
  assert (Hs : Go.allBytes (fun c => negb (Go.isASCIISpace c)) s = true)
    by (eapply allBytes_impl; [exact plainByte_not_space | exact H]).
  rewrite trimLeftBy_id by exact Hs. now apply trimRightBy_id.
Qed.

Lemma TrimString_FormatInt (n : Z) : Go.TrimString (Go.FormatInt n) = Go.FormatInt n.
Proof. apply TrimString_plain, FormatInt_plain. Qed.

Lemma CutByte_rangeSpec (spec : Z * option Z) :
  0 <= fst spec ->
  Go.CutByte "-" (rangeSpec spec)
  = Some (Go.FormatInt (fst spec),
          match snd spec with Some last => Go.FormatInt last | None => EmptyString end).
Proof.
  intros Ha. unfold rangeSpec.
  change ("-" +:+ ?t) with (String "-" t).
  apply CutByte_append.
  eapply allBytes_impl; [exact digit_not_dash |].
  now apply FormatInt_digits.
Qed.

(** A spec whose first byte lies at or after the end of the content only
    sets [noOverlap]; its last-byte position is not even parsed. *)
Lemma parseRangeSpec_after (spec : Z * option Z) (size : Z) :
  size <= fst spec <= Go.int64_max -> 0 <= size ->
  parseRangeSpec (rangeSpec spec) size = inr None.
Proof.
  intros Ha Hsize. unfold parseRangeSpec.
  rewrite CutByte_rangeSpec by lia.
  rewrite TrimString_FormatInt.
  destruct (FormatInt_digits (fst spec) ltac:(lia)) as [_ ->].
  rewrite ParseInt_FormatInt by lia.
  replace (fst spec <? 0) with false by zdecide.
  replace (fst spec >=? size) with true by zdecide.
  reflexivity.
Qed.

Lemma parseRangeLoop_after (specs : list (Z * option Z)) (size : Z)
    (ranges : list httpRange) (noOverlap : bool) :
  0 <= size ->
  Forall (fun spec => size <= fst spec <= Go.int64_max) specs ->
  parseRangeLoop (map rangeSpec specs) size ranges noOverlap
  = parseRangeLoop [] size ranges (noOverlap || negb (List.length specs =? 0)%nat).
Proof.
  intros Hsize Hall. revert noOverlap.
  induction Hall as [|spec specs Hspec _ IH]; intros noOverlap.
  - cbn [map List.length Nat.eqb negb]. now rewrite orb_false_r.
  - cbn [map parseRangeLoop].
    rewrite TrimString_plain by apply rangeSpec_plain.
    rewrite rangeSpec_not_empty, parseRangeSpec_after by (exact Hspec || exact Hsize).
    rewrite IH. cbn [List.length Nat.eqb negb orb]. now rewrite orb_true_r.
Qed.

Lemma rangeHeader_split (specs : list (Z * option Z)) :
  specs <> [] ->
  Go.SplitByte "," (Go.drop 6 (rangeHeader specs)) = map rangeSpec specs.
Proof.
  intros Hne. unfold rangeHeader.
  change 6%nat with (String.length "bytes="). rewrite drop_append_length.
  apply SplitByte_Join.
  - destruct specs; [congruence | discriminate].
  - apply Forall_map, Forall_forall. intros spec _. cbn.
    eapply allBytes_impl; [exact plainByte_not_comma | apply rangeSpec_plain].
Qed.

Lemma rangeHeader_prefix (specs : list (Z * option Z)) :
  Go.isEmpty (rangeHeader specs) = false
  /\ Go.HasPrefix (rangeHeader specs) "bytes=" = true.
Proof.
  unfold rangeHeader. split; [reflexivity |]. apply prefix_append.
Qed.

(** No spec overlaps the content: [parseRange] returns [errNoOverlap]. *)
Lemma parseRange_no_overlap (specs : list (Z * option Z)) (size : Z) :
  0 <= size -> specs <> [] ->
  Forall (fun spec => size <= fst spec <= Go.int64_max) specs ->
  parseRange (rangeHeader specs) size = ErrNoOverlap.
Proof.
  intros Hsize Hne Hall. unfold parseRange.
  destruct (rangeHeader_prefix specs) as [-> ->]. cbn [negb].
  rewrite rangeHeader_split, parseRangeLoop_after by assumption.
  destruct specs; [congruence | reflexivity].
Qed.

(** One range [a-b] inside the content. *)
Lemma parseRange_single (a b size : Z) :
  0 <= a <= b -> b < size <= Go.int64_max ->
  parseRange (rangeHeader [(a, Some b)]) size
  = RangesOk [{| start := a; length := b - a + 1 |}].
Proof.
  intros Hab Hsize. unfold parseRange.
  destruct (rangeHeader_prefix [(a, Some b)]) as [-> ->]. cbn [negb].
  rewrite rangeHeader_split by discriminate.
  cbn [map parseRangeLoop].
  rewrite TrimString_plain by apply rangeSpec_plain.
  rewrite rangeSpec_not_empty.
  unfold parseRangeSpec. rewrite CutByte_rangeSpec by (cbn; lia).
  cbn [fst snd]. rewrite !TrimString_FormatInt.
  destruct (FormatInt_digits a ltac:(lia)) as [_ ->].
  destruct (FormatInt_digits b ltac:(lia)) as [_ ->].
  rewrite !ParseInt_FormatInt by lia.
  replace (a <? 0) with false by zdecide.
  replace (a >=? size) with false by zdecide.
  replace (a >? b) with false by zdecide.
  replace (b >=? size) with false by zdecide.
  reflexivity.
Qed.

End RangeFacts.

(** Evaluates the canonical form of the header names that occur in the goal,
    and then looks a name up in a header map built by insertions. *)
Ltac canon :=
  repeat match goal with
    | |- context [Go.CanonicalMIMEHeaderKey ?k] =>
        let v := eval vm_compute in (Go.CanonicalMIMEHeaderKey k) in
        change (Go.CanonicalMIMEHeaderKey k) with v
    end.

Ltac lookup_header :=
  canon;
  repeat first [ rewrite lookup_insert_eq | rewrite lookup_insert_ne by discriminate ].

Section ContentFacts.
Import Http SwHttp Ranges.

Variable ParseTime : string -> option Time.
Variable FormatHTTPTime : Time -> string.
Variable TypeByExtension : string -> string.
Variable DetectContentType : string -> string.
Variable multipartBoundary : string.
Variable multipartOverhead : list httpRange -> string -> Z -> Z.
Variable multipartBody : list httpRange -> string -> Z -> string -> string.

Local Abbreviation checkPreconditions := (SwHttp.checkPreconditions ParseTime).
Local Abbreviation setLastModified := (SwHttp.setLastModified FormatHTTPTime).
Local Abbreviation serveSized :=
  (SwHttp.serveSized multipartBoundary multipartOverhead multipartBody).
Local Abbreviation ServeContent :=
  (SwHttp.ServeContent ParseTime FormatHTTPTime TypeByExtension DetectContentType
     multipartBoundary multipartOverhead multipartBody).

(** When the preconditions let the request through, they leave the
    response as it was. *)
Lemma checkPreconditions_continue (w w1 : ResponseWriter) (r : Request)
    (modtime : Time) (rangeReq : string) :
  checkPreconditions w r modtime = (false, rangeReq, w1) -> w1 = w.
Proof.
  unfold SwHttp.checkPreconditions. intros H.
  repeat (case_match; try discriminate); congruence.
Qed.

Lemma setLastModified_status (w : ResponseWriter) (modtime : Time) :
  Status (setLastModified w modtime) = Status w
  /\ Written (setLastModified w modtime) = Written w.
Proof. unfold SwHttp.setLastModified. case_match; split; reflexivity. Qed.

Lemma Seek_start (c : Content) :
  Seek c 0 SeekStart = Some (0, {| data := data c; pos := 0 |}).
Proof. reflexivity. Qed.

Lemma Seek_end (c : Content) :
  Seek c 0 SeekEnd
  = Some (Z.of_nat (String.length (data c)),
          {| data := data c; pos := String.length (data c) |}).
Proof.
  unfold Seek. rewrite Z.add_0_r.
  replace (Z.of_nat (String.length (data c)) <? 0) with false by zdecide.
  now rewrite Nat2Z.id.
Qed.

Lemma Seek_to (c : Content) (a : Z) :
  0 <= a ->
  Seek c a SeekStart = Some (a, {| data := data c; pos := Z.to_nat a |}).
Proof.
  intros Ha. unfold Seek. rewrite Z.add_0_l.
  replace (a <? 0) with false by zdecide. reflexivity.
Qed.

(** Past the preconditions, [ServeContent] finds the size of the content
    and goes on with the range stage on a response that has no status and
    no body yet if it had none before. *)
Lemma ServeContent_continue (w w1 : ResponseWriter) (r : Request) (name : string)
    (modtime : Time) (content : Content) (rangeReq : string) :
  checkPreconditions (setLastModified w modtime) r modtime = (false, rangeReq, w1) ->
  exists w2 ctype,
    ServeContent w r name modtime content
    = serveSized w2 r rangeReq ctype (Z.of_nat (String.length (data content)))
        {| data := data content; pos := 0 |}
    /\ Status w2 = Status w /\ Written w2 = Written w.
Proof.
  intros Hpre.
  pose proof (checkPreconditions_continue _ _ _ _ _ Hpre) as ->.
  destruct (setLastModified_status w modtime) as [Hst Hwr].
  unfold SwHttp.ServeContent, SwHttp.serveContent. cbv beta zeta. rewrite Hpre.
  set (w1 := setLastModified w modtime) in *.
  destruct (RespHeader w1 !! "Content-Type") as [ctypes|] eqn:Hct.
  - exists w1, (hd EmptyString ctypes).
    rewrite Seek_end, Seek_start. auto.
  - destruct (Go.isEmpty (TypeByExtension (Go.Ext name))) eqn:Hext.
    + destruct (readN content sniffLen) as [buf content1] eqn:Hread.
      assert (Hdata : data content1 = data content).
      { unfold readN in Hread. injection Hread as _ <-. reflexivity. }
      rewrite Seek_start, Seek_end, Seek_start. cbn [data]. rewrite Hdata.
      eexists _, _. split; [reflexivity |]. auto.
    + rewrite Seek_end, Seek_start. eexists _, _. split; [reflexivity |]. auto.
Qed.

(** A request without conditional headers gets past the preconditions,
    with its Range header. *)
Lemma checkPreconditions_unconditional (w : ResponseWriter) (r : Request)
    (modtime : Time) :
  Get (ReqHeader r) "If-Match" = EmptyString ->
  Get (ReqHeader r) "If-Unmodified-Since" = EmptyString ->
  Get (ReqHeader r) "If-None-Match" = EmptyString ->
  Get (ReqHeader r) "If-Modified-Since" = EmptyString ->
  Get (ReqHeader r) "If-Range" = EmptyString ->
  checkPreconditions w r modtime = (false, Get (ReqHeader r) "Range", w).
Proof.
  intros H1 H2 H3 H4 H5.
  unfold SwHttp.checkPreconditions, checkIfMatch, SwHttp.checkIfUnmodifiedSince,
    checkIfNoneMatch, SwHttp.checkIfModifiedSince, SwHttp.checkIfRange.
  rewrite H1, H2, H3, H4, H5. cbn.
  destruct (isGetOrHead r); cbn;
    destruct (Go.isEmpty (Get (ReqHeader r) "Range")); reflexivity.
Qed.

(** C7, as amended: when every byte-range-spec of the Range header starts
    at or after the end of the content, at a position that fits [int64]
    (and there is at least one spec), a request that gets past the
    preconditions with that header is answered 416 with
    [Content-Range: bytes */size]. *)
Theorem C7_no_overlap_is_416 (w w1 : ResponseWriter) (r : Request) (name : string)
    (modtime : Time) (content : Content) (specs : list (Z * option Z)) :
  let size := Z.of_nat (String.length (data content)) in
  specs <> [] ->
  Forall (fun spec => size <= fst spec <= Go.int64_max) specs ->
  Status w = None ->
  checkPreconditions (setLastModified w modtime) r modtime
    = (false, rangeHeader specs, w1) ->
  let resp := ServeContent w r name modtime content in
  Status resp = Some StatusRequestedRangeNotSatisfiable
  /\ RespHeader resp !! "Content-Range" = Some ["bytes */" +:+ Go.FormatInt size].
Proof.
  intros size Hne Hall Hfresh Hpre resp.
  destruct (ServeContent_continue w w1 r name modtime content _ Hpre)
    as (w2 & ctype & Hserve & Hst & _).
  subst resp. rewrite Hserve. fold size.
  unfold SwHttp.serveSized.
  replace (size >=? 0) with true by (subst size; zdecide).
  rewrite parseRange_no_overlap by (assumption || subst size; lia).
  unfold Error, Write, WriteHeader, withHeader, Set_. cbn.
  rewrite Hst, Hfresh. cbn. split; [reflexivity |].
  lookup_header. reflexivity.
Qed.

(** C6, as amended: for a request other than HEAD that gets past the
    preconditions with the Range header [bytes=a-b], [0 <= a <= b < size],
    the answer has status 206, its body is the [b-a+1] bytes of the content
    from [a] on, and [Content-Range] is [bytes a-b/size]. *)
Theorem C6_single_range_is_206 (w w1 : ResponseWriter) (r : Request) (name : string)
    (modtime : Time) (content : Content) (a b : Z) :
  let size := Z.of_nat (String.length (data content)) in
  0 <= a <= b -> b < size <= Go.int64_max ->
  Method r <> "HEAD" ->
  Status w = None ->
  checkPreconditions (setLastModified w modtime) r modtime
    = (false, rangeHeader [(a, Some b)], w1) ->
  let resp := ServeContent w r name modtime content in
  let sent := Go.take (Z.to_nat (b - a + 1)) (Go.drop (Z.to_nat a) (data content)) in
  Status resp = Some StatusPartialContent
  /\ Written resp = Written w +:+ sent
  /\ Z.of_nat (String.length sent) = b - a + 1
  /\ RespHeader resp !! "Content-Range"
     = Some ["bytes " +:+ Go.FormatInt a +:+ "-" +:+ Go.FormatInt b
             +:+ "/" +:+ Go.FormatInt size].
Proof.
  intros size Hab Hsize Hmethod Hfresh Hpre resp sent.
  destruct (ServeContent_continue w w1 r name modtime content _ Hpre)
    as (w2 & ctype & Hserve & Hst & Hwr).
  subst resp. rewrite Hserve. fold size.
  unfold SwHttp.serveSized.
  replace (size >=? 0) with true by zdecide.
  rewrite parseRange_single by assumption.
  change (sumRangesSize [{| start := a; length := b - a + 1 |}])
    with (wrap64 (0 + (b - a + 1))).
  assert (Hwrap : wrap64 (0 + (b - a + 1)) = b - a + 1).
  { unfold wrap64, Go.int64_max in *.
    rewrite Z.mod_small by lia. lia. }
  rewrite Hwrap.
  replace (b - a + 1 >? size) with false by zdecide.
  cbv beta iota zeta. cbn [start length].
  rewrite Seek_to by lia.
  assert (Hhead : String.eqb (Method r) "HEAD" = false) by now apply String.eqb_neq.
  rewrite Hhead. cbn [negb].
  unfold CopyN. replace (b - a + 1 <=? 0) with false by zdecide.
  unfold readN. cbn [data pos fst].
  unfold Write, WriteHeader, withHeader, Set_. cbn [Status RespHeader Written].
  rewrite Hst, Hfresh. cbn [Status RespHeader Written].
  assert (Hsent : Z.of_nat (String.length sent) = b - a + 1).
  { subst sent. rewrite length_take, length_drop. lia. }
  repeat split.
  - now rewrite Hwr.
  - exact Hsent.
  - unfold contentRange. cbn [start length].
    replace (a + (b - a + 1) - 1) with b by lia.
    destruct (Go.isEmpty _); lookup_header; reflexivity.
Qed.

End ContentFacts.

(** [Range: bytes=100-] against the file of ten bytes, for [C7_no_overlap_is_416]. *)
Lemma C7_witness :
  Http.Status (Sample.serve (Sample.ranged "GET" "bytes=100-"))
    = Some Http.StatusRequestedRangeNotSatisfiable
  /\ Http.RespHeader (Sample.serve (Sample.ranged "GET" "bytes=100-")) !! "Content-Range"
     = Some ["bytes */10"].
Proof.
  refine (C7_no_overlap_is_416 Sample.noTime Sample.anyDate Sample.textPlain
            Sample.textPlain Sample.boundary Sample.noOverhead Sample.noParts
            Http.newResponseWriter Http.newResponseWriter
            (Sample.ranged "GET" "bytes=100-") "digits.txt" SwHttp.unixEpochTime
            Sample.tenBytes [(100, None)] _ _ _ _).
  - discriminate.
  - repeat constructor; vm_compute; discriminate.
  - reflexivity.
  - reflexivity.
Defined.

(** C7, as stated, fails on a first-byte position beyond [int64]:
    [strconv.ParseInt] rejects it, the header is an invalid range rather
    than one without overlap, and the answer is 416 without a
    [Content-Range] header. *)
Lemma C7_counterexample :
  10 <= 9223372036854775808
  /\ Http.Status (Sample.serve (Sample.ranged "GET" "bytes=9223372036854775808-"))
     = Some Http.StatusRequestedRangeNotSatisfiable
  /\ Http.RespHeader (Sample.serve (Sample.ranged "GET" "bytes=9223372036854775808-"))
       !! "Content-Range" = None.
Proof. split; [lia | split; reflexivity]. Qed.

(** [Range: bytes=0-4] against the file of ten bytes, for [C6_single_range_is_206]. *)
Lemma C6_witness :
  Http.Status (Sample.serve (Sample.ranged "GET" "bytes=0-4"))
    = Some Http.StatusPartialContent
  /\ Http.Written (Sample.serve (Sample.ranged "GET" "bytes=0-4")) = "01234"
  /\ Z.of_nat (String.length "01234") = 5
  /\ Http.RespHeader (Sample.serve (Sample.ranged "GET" "bytes=0-4")) !! "Content-Range"
     = Some ["bytes 0-4/10"].
Proof.
  refine (C6_single_range_is_206 Sample.noTime Sample.anyDate Sample.textPlain
            Sample.textPlain Sample.boundary Sample.noOverhead Sample.noParts
            Http.newResponseWriter Http.newResponseWriter
            (Sample.ranged "GET" "bytes=0-4") "digits.txt" SwHttp.unixEpochTime
            Sample.tenBytes 0 4 _ _ _ _ _).
  - lia.
  - vm_compute. split; [reflexivity | discriminate].
  - discriminate.
  - reflexivity.
  - reflexivity.
Defined.

(** C6, as stated, fails on HEAD requests: with [Range: bytes=0-4] for the
    file of ten bytes the answer is 206 with [Content-Range: bytes 0-4/10],
    and its body has no byte at all, not [4 - 0 + 1]. *)
Lemma C6_counterexample :
  Http.Status (Sample.serve (Sample.ranged "HEAD" "bytes=0-4"))
    = Some Http.StatusPartialContent
  /\ Http.RespHeader (Sample.serve (Sample.ranged "HEAD" "bytes=0-4")) !! "Content-Range"
     = Some ["bytes 0-4/10"]
  /\ Http.Written (Sample.serve (Sample.ranged "HEAD" "bytes=0-4")) = EmptyString
  /\ Z.of_nat (String.length
                 (Http.Written (Sample.serve (Sample.ranged "HEAD" "bytes=0-4"))))
     <> 4 - 0 + 1.
Proof. vm_compute. repeat split. discriminate. Qed.

(** The preconditions come before the ranges: the same range on a GET
    request that also carries [If-None-Match: *] is answered 304. *)
Lemma precondition_before_range :
  Http.Status (Sample.serve (Sample.rangedIfNoneMatch "bytes=0-4"))
  = Some Http.StatusNotModified.
Proof. reflexivity. Qed.

(* ================================================================== *)
(** * Paths: [path.Clean], [path.Join] and [pathIsInside]              *)
(* ================================================================== *)

Section PathFacts.
Import Paths.

Local Abbreviation noSlash := (Go.allBytes (fun c => negb (Ascii.eqb c "/"))).
Local Abbreviation keep := (fun rooted => fold_left (Go.cleanStep rooted)).

Lemma normalElem_spec (e : string) :
  normalElem e = true ->
  Go.isEmpty e = false /\ String.eqb e "." = false /\ String.eqb e ".." = false
  /\ noSlash e = true.
Proof.
  unfold normalElem. intros H.
  apply andb_prop in H as [H H4]. apply andb_prop in H as [H H3].
  apply andb_prop in H as [H1 H2].
  rewrite negb_true_iff in H1, H2, H3. auto.
Qed.

(** ** Splitting at slashes *)

Lemma SplitByte_not_nil (sep : ascii) (s : string) : Go.SplitByte sep s <> [].
Proof.
  induction s as [|c s IH]; cbn; [discriminate |].
  destruct (Ascii.eqb c sep); [discriminate |].
  destruct (Go.SplitByte sep s); [congruence | discriminate].
Qed.

Lemma SplitByte_app (sep : ascii) (a b : string) :
  Go.SplitByte sep (a +:+ String sep b) = Go.SplitByte sep a ++ Go.SplitByte sep b.
Proof.
  induction a as [|c a IH]; sstep.
  - now rewrite Ascii.eqb_refl.
  - rewrite IH. destruct (Ascii.eqb c sep); [reflexivity |].
    pose proof (SplitByte_not_nil sep a) as Hne.
    destruct (Go.SplitByte sep a); [congruence | reflexivity].
Qed.

Lemma SplitByte_noSlash (sep : ascii) (s : string) :
  Forall (fun e => Go.allBytes (fun c => negb (Ascii.eqb c sep)) e = true)
    (Go.SplitByte sep s).
Proof.
  induction s as [|c s IH]; cbn; [repeat constructor |].
  destruct (Ascii.eqb c sep) eqn:Hc; [constructor; [reflexivity | exact IH] |].
  destruct (Go.SplitByte sep s) as [|x xs]; [repeat constructor; cbn; now rewrite Hc |].
  inversion IH as [|? ? Hx Hxs]; subst.
  constructor; [cbn; now rewrite Hc, Hx | exact Hxs].
Qed.

Lemma Join_cons (x : string) (l : list string) (sep : string) :
  l <> [] -> Go.Join (x :: l) sep = x +:+ sep +:+ Go.Join l sep.
Proof. destruct l; [congruence | reflexivity]. Qed.

Lemma Join_snoc (l : list string) (x : string) (sep : string) :
  l <> [] -> Go.Join (l ++ [x]) sep = Go.Join l sep +:+ sep +:+ x.
Proof.
  induction l as [|y l IH]; [congruence |]. intros _.
  destruct l as [|z l]; [reflexivity |].
  change ((y :: z :: l) ++ [x]) with (y :: ((z :: l) ++ [x])).
  rewrite Join_cons by (destruct l; discriminate).
  rewrite IH by discriminate.
  rewrite (Join_cons y (z :: l)) by discriminate.
  now rewrite !append_assoc.
Qed.

Lemma normal_noSlash (l : list string) :
  Forall (fun e => normalElem e = true) l -> Forall (fun e => noSlash e = true) l.
Proof.
  intros H. eapply List.Forall_impl; [| exact H].
  intros e He. now apply normalElem_spec in He.
Qed.

(** The elements of a rooted path. *)
Lemma SplitByte_rootedPath (k : list string) :
  Forall (fun e => normalElem e = true) k ->
  Go.SplitByte "/" (rootedPath k) = EmptyString :: (if k is [] then [EmptyString] else k).
Proof.
  intros Hk. unfold rootedPath.
  change ("/" +:+ ?t) with (EmptyString +:+ String "/" t).
  rewrite SplitByte_app. cbn [Go.SplitByte app]. f_equal.
  destruct k as [|e k]; [reflexivity |].
  change "/" with (String "/" EmptyString).
  apply SplitByte_Join; [discriminate | now apply normal_noSlash].
Qed.

(** ** The elements that [Clean] keeps *)

Lemma cleanStep_skip (rooted : bool) (stack : list string) (e : string) :
  Go.isEmpty e || String.eqb e "." = true -> Go.cleanStep rooted stack e = stack.
Proof. intros H. unfold Go.cleanStep. now rewrite H. Qed.

Lemma cleanStep_normal (rooted : bool) (stack : list string) (e : string) :
  normalElem e = true -> Go.cleanStep rooted stack e = e :: stack.
Proof.
  intros (H1 & H2 & H3 & _)%normalElem_spec. unfold Go.cleanStep.
  now rewrite H1, H2, H3.
Qed.

Lemma keep_benign (rooted : bool) (l stack : list string) :
  Forall (fun e => benign e = true) l ->
  keep rooted l stack = rev (List.filter normalElem l) ++ stack.
Proof.
  intros Hl. revert stack. induction Hl as [|e l He _ IH]; intros stack; [reflexivity |].
  cbn [fold_left List.filter]. rewrite IH.
  destruct (normalElem e) eqn:Hn.
  - rewrite cleanStep_normal by exact Hn.
    cbn [rev]. now rewrite <- app_assoc.
  - unfold benign in He. rewrite Hn, orb_false_r in He.
    now rewrite cleanStep_skip.
Qed.

Lemma filter_normal_id (k : list string) :
  Forall (fun e => normalElem e = true) k ->
  List.filter normalElem k = k.
Proof.
  induction 1 as [|e k He _ IH]; [reflexivity |].
  cbn [List.filter]. rewrite He. now rewrite IH.
Qed.

Lemma normal_benign (k : list string) :
  Forall (fun e => normalElem e = true) k -> Forall (fun e => benign e = true) k.
Proof.
  intros H. eapply List.Forall_impl; [| exact H].
  intros e He. unfold benign. rewrite He. apply orb_true_r.
Qed.

(** On a rooted path only normal elements are kept. *)
Lemma keep_rooted_normal (l stack : list string) :
  Forall (fun e => noSlash e = true) l ->
  Forall (fun e => normalElem e = true) stack ->
  Forall (fun e => normalElem e = true) (keep true l stack).
Proof.
  intros Hl. revert stack. induction Hl as [|e l He _ IH]; intros stack Hs; [exact Hs |].
  cbn [fold_left]. apply IH. unfold Go.cleanStep.
  destruct (Go.isEmpty e || String.eqb e ".") eqn:Hskip; [exact Hs |].
  apply orb_false_elim in Hskip as [H1 H2].
  destruct (String.eqb e "..") eqn:Hdd.
  - destruct stack as [|top rest]; [constructor |].
    inversion Hs as [|? ? Htop Hrest]; subst.
    apply normalElem_spec in Htop as (_ & _ & -> & _). exact Hrest.
  - constructor; [| exact Hs]. unfold normalElem. now rewrite H1, H2, Hdd, He.
Qed.

Lemma rooted_app (a b : string) :
  Go.HasPrefix a "/" = true -> Go.HasPrefix (a +:+ b) "/" = true.
Proof.
  destruct a as [|c a]; [discriminate |].
  unfold Go.HasPrefix. rewrite append_cons. cbn [String.prefix].
  destruct (ascii_dec "/" c); [intros _ | discriminate].
  now destruct (a +:+ b).
Qed.

(** [Clean] of a rooted path, by its elements. *)
Lemma Clean_rooted (p : string) :
  Go.HasPrefix p "/" = true ->
  Go.Clean p = rootedPath (rev (keep true (Go.SplitByte "/" p) [])).
Proof. intros Hp. unfold Go.Clean. rewrite Hp. reflexivity. Qed.

Lemma Clean_rooted_normal (p : string) :
  Go.HasPrefix p "/" = true ->
  exists k, Forall (fun e => normalElem e = true) k /\ Go.Clean p = rootedPath k.
Proof.
  intros Hp. eexists. split; [| now apply Clean_rooted].
  apply Forall_rev. apply keep_rooted_normal; [apply SplitByte_noSlash | constructor].
Qed.

Lemma rootedPath_rooted (k : list string) : Go.HasPrefix (rootedPath k) "/" = true.
Proof.
  unfold rootedPath, Go.HasPrefix. rewrite append_cons, append_nil_l.
  cbn [String.prefix]. now destruct (Go.Join k "/").
Qed.

Lemma keep_rootedPath (k : list string) :
  Forall (fun e => normalElem e = true) k ->
  keep true (Go.SplitByte "/" (rootedPath k)) [] = rev k.
Proof.
  intros Hk. rewrite SplitByte_rootedPath by exact Hk.
  cbn [fold_left]. rewrite cleanStep_skip by reflexivity.
  destruct k as [|e k]; [reflexivity |].
  rewrite keep_benign by now apply normal_benign.
  rewrite filter_normal_id by exact Hk. apply app_nil_r.
Qed.

(** Joining more elements to a rooted path, and cleaning. *)
Lemma Clean_rootedPath_app (k : list string) (x : string) :
  Forall (fun e => normalElem e = true) k ->
  Go.Clean (rootedPath k +:+ "/" +:+ x)
  = rootedPath (rev (keep true (Go.SplitByte "/" x) (rev k))).
Proof.
  intros Hk.
  rewrite Clean_rooted by apply rooted_app, rootedPath_rooted.
  change ("/" +:+ x) with (String "/" x).
  rewrite SplitByte_app, fold_left_app, keep_rootedPath by exact Hk.
  reflexivity.
Qed.

Lemma Clean_rootedPath_benign (k : list string) (x : string) :
  Forall (fun e => normalElem e = true) k ->
  Forall (fun e => benign e = true) (Go.SplitByte "/" x) ->
  Go.Clean (rootedPath k +:+ "/" +:+ x)
  = rootedPath (k ++ List.filter normalElem (Go.SplitByte "/" x)).
Proof.
  intros Hk Hx. rewrite Clean_rootedPath_app by exact Hk.
  rewrite keep_benign by exact Hx.
  now rewrite rev_app_distr, !rev_involutive.
Qed.

End PathFacts.

Section InsideFacts.
Import Paths Handler.

Local Abbreviation noSlash := (Go.allBytes (fun c => negb (Ascii.eqb c "/"))).
Local Abbreviation keep := (fun rooted => fold_left (Go.cleanStep rooted)).
Local Abbreviation normal := (Forall (fun e => normalElem e = true)).

(** ** Prefixes and positions *)

Lemma prefix_nil (s : string) : String.prefix EmptyString s = true.
Proof. now destruct s. Qed.

Lemma HasPrefix_slash (c : ascii) (s : string) :
  Go.HasPrefix (String c s) "/" = Ascii.eqb c "/".
Proof.
  unfold Go.HasPrefix. cbn [String.prefix].
  destruct (ascii_dec "/" c) as [<- | Hne].
  - now rewrite prefix_nil.
  - symmetry. apply Ascii.eqb_neq. congruence.
Qed.

Lemma prefix_refl (s : string) : String.prefix s s = true.
Proof.
  induction s as [|c s IH]; [reflexivity |]. cbn.
  destruct (ascii_dec c c); [exact IH | congruence].
Qed.

Lemma prefix_app_r (p a b : string) :
  String.prefix p a = true -> String.prefix p (a +:+ b) = true.
Proof.
  revert a. induction p as [|c p IH]; intros a; [intros _; apply prefix_nil |].
  destruct a as [|d a]; [discriminate |]. rewrite append_cons. cbn.
  destruct (ascii_dec c d); [apply IH | discriminate].
Qed.

Lemma get_lt (n : nat) (s : string) (c : ascii) :
  String.get n s = Some c -> (n < String.length s)%nat.
Proof.
  revert n. induction s as [|d s IH]; intros n; [destruct n; discriminate |].
  destruct n as [|n]; cbn; [lia |]. intros H%IH. lia.
Qed.

Lemma get_app_l (n : nat) (a b : string) :
  (n < String.length a)%nat -> String.get n (a +:+ b) = String.get n a.
Proof. intros H. symmetry. now apply append_correct1. Qed.

Lemma get_app_at (a b : string) (c : ascii) :
  String.get (String.length a) (a +:+ String c b) = Some c.
Proof.
  pose proof (append_correct2 a (String c b) 0) as H. cbn in H. now rewrite <- H.
Qed.

Lemma trimRightBy_app (p : ascii -> bool) (a b : string) :
  Go.isEmpty b = false -> Go.trimRightBy p b = b ->
  Go.trimRightBy p (a +:+ b) = a +:+ b.
Proof.
  intros Hne Hb. induction a as [|c a IH]; [exact Hb |].
  rewrite append_cons. cbn [Go.trimRightBy]. rewrite IH.
  replace (Go.isEmpty (a +:+ b)) with false; [reflexivity |].
  symmetry. rewrite isEmpty_append, Hne. apply andb_false_r.
Qed.

(** ** [pathIsInside] on rooted paths *)

Lemma pathIsInside_refl (p : string) : pathIsInside p p = true.
Proof.
  unfold pathIsInside, Go.HasPrefix. now rewrite prefix_refl, Nat.eqb_refl.
Qed.

Lemma rootedPath_snoc (k : list string) (e : string) :
  rootedPath (k ++ [e]) = stripped k +:+ "/" +:+ e.
Proof.
  unfold stripped, rootedPath. destruct k as [|x k]; [reflexivity |].
  rewrite Join_snoc by discriminate. now rewrite !append_assoc.
Qed.

Lemma stripTrailingSep_rootedPath (k : list string) :
  normal k -> stripTrailingSep (rootedPath k) = stripped k.
Proof.
  intros Hk. destruct k as [|x k _] using rev_ind; [reflexivity |].
  apply Forall_app in Hk as [_ He]. inversion He as [|? ? Hn _]; subst.
  apply normalElem_spec in Hn as (Hne & _ & _ & Hslash).
  assert (Hst : stripped (k ++ [x]) = rootedPath (k ++ [x]))
    by (unfold stripped; now destruct k).
  rewrite Hst, rootedPath_snoc.
  unfold stripTrailingSep, Go.TrimRightByte.
  rewrite <- append_assoc. apply trimRightBy_app; [exact Hne |].
  apply trimRightBy_id.
  eapply allBytes_impl; [| exact Hslash].
  intros c Hc. unfold Separator. now rewrite Ascii.eqb_sym.
Qed.

(** One more element below a path inside [parent] is inside [parent]. *)
Lemma pathIsInside_snoc (k : list string) (e parent : string) :
  normal k -> normalElem e = true ->
  pathIsInside (rootedPath k) parent = true ->
  pathIsInside (rootedPath (k ++ [e])) parent = true.
Proof.
  intros Hk He Hin.
  assert (Hke : normal (k ++ [e])) by (apply Forall_app; split; [exact Hk | now constructor]).
  unfold pathIsInside in *.
  rewrite stripTrailingSep_rootedPath in * by assumption.
  assert (Hst : stripped (k ++ [e]) = stripped k +:+ String "/" e).
  { transitivity (rootedPath (k ++ [e])); [unfold stripped; now destruct k |].
    now rewrite rootedPath_snoc. }
  rewrite Hst.
  set (parent' := stripTrailingSep parent) in *.
  apply andb_prop in Hin as [Hpre Hbound].
  unfold Go.HasPrefix in *. rewrite prefix_app_r by exact Hpre. cbn [andb].
  apply orb_true_intro. right.
  apply orb_prop in Hbound as [Hlen | Hat].
  - apply Nat.eqb_eq in Hlen. rewrite <- Hlen.
    unfold Go.at_. rewrite get_app_at. apply Ascii.eqb_refl.
  - unfold Go.at_ in *.
    destruct (String.get (String.length parent') (stripped k)) as [c|] eqn:Hget;
      [| discriminate].
    rewrite get_app_l by (eapply get_lt; exact Hget). now rewrite Hget.
Qed.

Lemma pathIsInside_app (k cs : list string) (parent : string) :
  normal k -> normal cs ->
  pathIsInside (rootedPath k) parent = true ->
  pathIsInside (rootedPath (k ++ cs)) parent = true.
Proof.
  intros Hk Hcs Hin. induction cs as [|e cs IH] using rev_ind.
  - now rewrite app_nil_r.
  - apply Forall_app in Hcs as [Hcs He]. inversion He; subst.
    rewrite app_assoc. apply pathIsInside_snoc; auto.
    apply Forall_app; split; assumption.
Qed.

End InsideFacts.

(* ================================================================== *)
(** * Paths joined to the public root                                  *)
(* ================================================================== *)

Section JoinFacts.
Import Paths Handler.

Local Abbreviation noSlash := (Go.allBytes (fun c => negb (Ascii.eqb c "/"))).
Local Abbreviation keep := (fun rooted => fold_left (Go.cleanStep rooted)).
Local Abbreviation normal := (Forall (fun e => normalElem e = true)).
Local Abbreviation split := (Go.SplitByte "/").

Lemma rootedPath_not_empty (k : list string) : Go.isEmpty (rootedPath k) = false.
Proof. unfold rootedPath. now rewrite append_cons. Qed.

Lemma root_elems (root : string) :
  Go.HasPrefix root "/" = true -> Go.Clean root = root ->
  exists k, normal k /\ root = rootedPath k.
Proof.
  intros Hr Hc. destruct (Clean_rooted_normal root Hr) as (k & Hk & E).
  exists k. split; [exact Hk | congruence].
Qed.

Lemma PathJoin_root (k : list string) (x : string) :
  Go.PathJoin [rootedPath k; x] = Go.Clean (rootedPath k +:+ "/" +:+ x).
Proof. cbn [Go.PathJoin]. now rewrite rootedPath_not_empty. Qed.

Lemma PathJoin_root_normal (k : list string) (x : string) :
  exists q, normal q /\ Go.PathJoin [rootedPath k; x] = rootedPath q.
Proof.
  rewrite PathJoin_root. apply Clean_rooted_normal, rooted_app, rootedPath_rooted.
Qed.

Lemma filter_normal (l : list string) : normal (List.filter normalElem l).
Proof.
  induction l as [|e l IH]; cbn [List.filter]; [constructor |].
  destruct (normalElem e) eqn:He; [constructor |]; assumption.
Qed.

Lemma PathJoin_benign (k : list string) (x : string) :
  normal k -> Forall (fun e => benign e = true) (split x) ->
  Go.PathJoin [rootedPath k; x] = rootedPath (k ++ List.filter normalElem (split x)).
Proof. intros Hk Hx. rewrite PathJoin_root. now apply Clean_rootedPath_benign. Qed.

(** Joining the root with a path without [..] elements stays inside. *)
Lemma insideRoot_benign (k : list string) (x : string) :
  normal k -> Forall (fun e => benign e = true) (split x) ->
  insideRoot (rootedPath k) (Go.PathJoin [rootedPath k; x]).
Proof.
  intros Hk Hx. rewrite PathJoin_benign by assumption.
  exists (k ++ List.filter normalElem (split x)).
  split; [apply Forall_app; split; [exact Hk | apply filter_normal] |].
  split; [reflexivity |].
  apply pathIsInside_app; [exact Hk | apply filter_normal | apply pathIsInside_refl].
Qed.

Lemma insideRoot_snoc (root : string) (k : list string) (e : string) :
  normal k -> normalElem e = true ->
  pathIsInside (rootedPath k) root = true ->
  insideRoot root (Go.PathJoin [rootedPath k; e]).
Proof.
  intros Hk He Hin.
  assert (Hs : split e = [e]).
  { apply SplitByte_without. now apply normalElem_spec in He as (_ & _ & _ & H). }
  rewrite PathJoin_benign, Hs; [| exact Hk | rewrite Hs; apply normal_benign; now constructor].
  cbn [List.filter]. rewrite He.
  exists (k ++ [e]). split; [apply Forall_app; split; [exact Hk | now constructor] |].
  split; [reflexivity |]. now apply pathIsInside_snoc.
Qed.

(** ** [slasher] *)

Lemma slasher_cases (t : string) :
  slasher t = Go.PathJoin ["/"; t]
  \/ exists rest, slasher t = "!" +:+ Go.PathJoin ["/"; rest].
Proof.
  destruct t as [|c t]; [now left |].
  destruct c as [[] [] [] [] [] [] [] []];
    solve [left; reflexivity | right; eexists; reflexivity].
Qed.

Lemma split_rootedPath_benign (q : list string) :
  normal q -> Forall (fun e => benign e = true) (split (rootedPath q)).
Proof.
  intros Hq. rewrite SplitByte_rootedPath by exact Hq.
  constructor; [reflexivity |].
  destruct q; [now repeat constructor | now apply normal_benign].
Qed.

Lemma slasher_benign (t : string) :
  Forall (fun e => benign e = true) (split (slasher t)).
Proof.
  destruct (slasher_cases t) as [-> | [rest ->]].
  - change "/" with (rootedPath []).
    destruct (PathJoin_root_normal [] t) as (q & Hq & ->).
    now apply split_rootedPath_benign.
  - change "/" with (rootedPath []).
    destruct (PathJoin_root_normal [] rest) as (q & Hq & ->).
    unfold rootedPath.
    change ("!" +:+ "/" +:+ ?s) with ("!" +:+ String "/" s).
    rewrite (SplitByte_append "/" "!") by reflexivity.
    constructor; [reflexivity |].
    destruct q as [|x q]; [now repeat constructor |].
    rewrite SplitByte_Join; [now apply normal_benign | discriminate |].
    now apply normal_noSlash.
Qed.

End JoinFacts.

(* ================================================================== *)
(** * Relative paths below the root                                    *)
(* ================================================================== *)

Section RelativeFacts.
Import Paths Handler.

Local Abbreviation noSlash := (Go.allBytes (fun c => negb (Ascii.eqb c "/"))).
Local Abbreviation keep := (fun rooted => fold_left (Go.cleanStep rooted)).
Local Abbreviation normal := (Forall (fun e => normalElem e = true)).
Local Abbreviation split := (Go.SplitByte "/").
(** What [Clean] keeps of a relative path: normal elements and [..]. *)
Local Abbreviation kept := (Forall (fun e => normalElem e = true \/ e = "..")).

Lemma normalElem_intro (e : string) :
  Go.isEmpty e || String.eqb e "." = false -> String.eqb e ".." = false ->
  noSlash e = true -> normalElem e = true.
Proof.
  intros H1 H2 H3. apply orb_false_elim in H1 as [Ha Hb].
  unfold normalElem. now rewrite Ha, Hb, H2, H3.
Qed.

Lemma cleanStep_relative_kept (stack : list string) (e : string) :
  noSlash e = true -> kept stack -> kept (Go.cleanStep false stack e).
Proof.
  intros He Hst. unfold Go.cleanStep.
  destruct (Go.isEmpty e || String.eqb e ".") eqn:Hskip; [exact Hst |].
  destruct (String.eqb e "..") eqn:Hdd.
  - apply String.eqb_eq in Hdd as ->.
    destruct stack as [|top rest]; [repeat constructor; now right |].
    destruct (String.eqb top ".."); [constructor; [now right | exact Hst] |].
    now inversion Hst.
  - constructor; [left; now apply normalElem_intro | exact Hst].
Qed.

Lemma keep_relative_kept (l stack : list string) :
  Forall (fun e => noSlash e = true) l -> kept stack -> kept (keep false l stack).
Proof.
  intros Hl. revert stack. induction Hl as [|e l He _ IH]; intros stack Hst; [exact Hst |].
  cbn [fold_left]. now apply IH, cleanStep_relative_kept.
Qed.

(** Cleaning a relative path first changes nothing below a root. *)
Lemma keep_rev_relative (l s : list string) :
  Forall (fun e => noSlash e = true) l ->
  keep true (rev (keep false l [])) s = keep true l s.
Proof.
  induction l as [|e l IH] using rev_ind; intros Hl; [reflexivity |].
  apply Forall_app in Hl as [Hl He]. inversion He as [|? ? Hne _]; subst.
  specialize (IH Hl).
  pose proof (keep_relative_kept l [] Hl ltac:(constructor)) as Hk.
  rewrite !fold_left_app. cbn [fold_left].
  rewrite <- IH. set (st := keep false l []) in *.
  unfold Go.cleanStep at 2.
  destruct (Go.isEmpty e || String.eqb e ".") eqn:Hskip.
  { now rewrite cleanStep_skip. }
  destruct (String.eqb e "..") eqn:Hdd.
  - apply String.eqb_eq in Hdd as ->.
    destruct st as [|top rest]; [reflexivity |].
    destruct (String.eqb top "..") eqn:Htop.
    + cbn [rev]. now rewrite fold_left_app.
    + cbn [rev]. rewrite fold_left_app. cbn [fold_left].
      inversion Hk as [|? ? [Hn | ->] _]; subst; [| discriminate].
      rewrite (cleanStep_normal true _ top Hn).
      unfold Go.cleanStep. cbn. now rewrite Htop.
  - cbn [rev]. rewrite fold_left_app. reflexivity.
Qed.

Lemma kept_noSlash (l : list string) :
  kept l -> Forall (fun e => noSlash e = true) l.
Proof.
  intros H. eapply List.Forall_impl; [| exact H].
  intros e [Hn | ->]; [| reflexivity].
  now apply normalElem_spec in Hn as (_ & _ & _ & Hs).
Qed.

Lemma Join_not_empty (x : string) (l : list string) :
  Go.isEmpty x = false -> Go.isEmpty (Go.Join (x :: l) "/") = false.
Proof.
  intros Hx. destruct l as [|y l]; [exact Hx |].
  rewrite Join_cons by discriminate. now rewrite isEmpty_append, Hx.
Qed.

Lemma split_Clean_relative (x : string) (s : list string) :
  Go.HasPrefix x "/" = false ->
  keep true (split (Go.Clean x)) s = keep true (split x) s.
Proof.
  intros Hrel. unfold Go.Clean. rewrite Hrel, append_nil_l.
  pose proof (SplitByte_noSlash "/" x) as Hns.
  pose proof (keep_relative_kept (split x) [] Hns ltac:(constructor)) as Hk.
  rewrite <- (keep_rev_relative (split x) s Hns).
  set (st := keep false (split x) []) in *.
  apply Forall_rev in Hk.
  destruct (rev st) as [|e l] eqn:Hrev; [reflexivity |].
  assert (He : Go.isEmpty e = false).
  { inversion Hk as [|? ? [Hn | ->] _]; subst; [| reflexivity].
    now apply normalElem_spec in Hn as (H & _). }
  rewrite Join_not_empty by exact He.
  rewrite SplitByte_Join; [reflexivity | discriminate | now apply kept_noSlash].
Qed.

Lemma PathJoin_root_Clean_relative (k : list string) (x : string) :
  normal k -> Go.HasPrefix x "/" = false ->
  Go.PathJoin [rootedPath k; Go.Clean x] = Go.PathJoin [rootedPath k; x].
Proof.
  intros Hk Hrel. rewrite !PathJoin_root, !Clean_rootedPath_app by exact Hk.
  now rewrite split_Clean_relative.
Qed.

(** The first candidate of [getPossiblePaths]: when the joined request path
    is inside the root, so is the index file below it. *)
Lemma insideRoot_index (k : list string) (p name : string) :
  normal k -> normalElem name = true ->
  pathIsInside (Go.PathJoin [rootedPath k; p]) (rootedPath k) = true ->
  insideRoot (rootedPath k) (Go.PathJoin [rootedPath k; Go.PathJoin [p; name]]).
Proof.
  intros Hk Hname Hin.
  assert (Hsplit : split name = [name]).
  { apply SplitByte_without. now apply normalElem_spec in Hname as (_ & _ & _ & H). }
  destruct p as [|c p].
  - (* the empty request path *)
    assert (Hne : Go.isEmpty name = false) by now apply normalElem_spec in Hname as (H & _).
    assert (Hj : Go.PathJoin [EmptyString; name] = Go.Clean name).
    { cbn [Go.PathJoin Go.isEmpty]. now rewrite Hne. }
    rewrite Hj.
    assert (Hrel : Go.HasPrefix name "/" = false).
    { apply normalElem_spec in Hname as (_ & _ & _ & H).
      destruct name as [|d name]; [reflexivity |]. cbn [Go.allBytes] in H.
      apply andb_prop in H as [H _]. rewrite HasPrefix_slash.
      now apply negb_true_iff in H. }
    rewrite PathJoin_root_Clean_relative by assumption.
    now apply insideRoot_snoc; [| | apply pathIsInside_refl].
  - set (P := String c p) in *.
    assert (Hj : Go.PathJoin [P; name] = Go.Clean (P +:+ "/" +:+ name)) by reflexivity.
    rewrite Hj.
    destruct (Go.HasPrefix P "/") eqn:Hrooted.
    + (* a rooted request path: its cleaned form has no [..] *)
      destruct (Clean_rooted_normal (P +:+ "/" +:+ name)) as (q & Hq & ->).
      { now apply rooted_app. }
      apply insideRoot_benign; [exact Hk | now apply split_rootedPath_benign].
    + assert (Hrel : Go.HasPrefix (P +:+ "/" +:+ name) "/" = false).
      { subst P. rewrite append_cons. now rewrite HasPrefix_slash in *. }
      rewrite PathJoin_root_Clean_relative by assumption.
      rewrite PathJoin_root in *. rewrite Clean_rootedPath_app in * by exact Hk.
      change (P +:+ "/" +:+ name) with (P +:+ String "/" name).
      rewrite SplitByte_app, Hsplit, fold_left_app. cbn [fold_left].
      rewrite cleanStep_normal by exact Hname. cbn [rev].
      set (kA := rev (keep true (split P) (rev k))) in *.
      assert (HkA : normal kA).
      { apply Forall_rev, keep_rooted_normal; [apply SplitByte_noSlash | now apply Forall_rev]. }
      exists (kA ++ [name]). split; [apply Forall_app; split; [exact HkA | now constructor] |].
      split; [reflexivity |]. now apply pathIsInside_snoc.
Qed.

End RelativeFacts.

(* ================================================================== *)
(** * Pipeline: the served file and the public root                    *)
(* ================================================================== *)

Section BoundaryFacts.
Import Http Handler Paths.

Variable regexpCompiles : string -> bool.
Variable urlParse : string -> option string.
Variables rSlash rOpen rClose rComma rPeriod : Z.
Variable Regexp : Type.
Variable reMatchString : Regexp -> string -> bool.
Variable emptyRegexp : Regexp.
Variable parsePortion : Minimatch.Options -> string -> Minimatch.parsed Regexp.
Variable fs : FileSystem.

Local Abbreviation normal := (Forall (fun e => normalElem e = true)).
Local Abbreviation firstTarget :=
  (Handler.firstTarget regexpCompiles urlParse rSlash rOpen rClose rComma rPeriod
     Regexp reMatchString emptyRegexp parsePortion).
Local Abbreviation applyRewritesFrom :=
  (Handler.applyRewritesFrom regexpCompiles urlParse rSlash rOpen rClose rComma rPeriod
     Regexp reMatchString emptyRegexp parsePortion).
Local Abbreviation applyRewrites :=
  (Handler.applyRewrites regexpCompiles urlParse rSlash rOpen rClose rComma rPeriod
     Regexp reMatchString emptyRegexp parsePortion).
Local Abbreviation applicable :=
  (Handler.applicable regexpCompiles rSlash rOpen rClose rComma rPeriod
     Regexp reMatchString emptyRegexp parsePortion).
Local Abbreviation shouldRedirect :=
  (Handler.shouldRedirect regexpCompiles urlParse rSlash rOpen rClose rComma rPeriod
     Regexp reMatchString emptyRegexp parsePortion).
Local Abbreviation canBeListed :=
  (Handler.canBeListed regexpCompiles rSlash rOpen rClose rComma rPeriod
     Regexp reMatchString emptyRegexp parsePortion).
Local Abbreviation firstSingle :=
  (Handler.firstSingle regexpCompiles rSlash rOpen rClose rComma rPeriod
     Regexp reMatchString emptyRegexp parsePortion).
Local Abbreviation renderDirectory :=
  (Handler.renderDirectory regexpCompiles rSlash rOpen rClose rComma rPeriod
     Regexp reMatchString emptyRegexp parsePortion fs).
Local Abbreviation ServeHTTP :=
  (Handler.ServeHTTP regexpCompiles urlParse rSlash rOpen rClose rComma rPeriod
     Regexp reMatchString emptyRegexp parsePortion fs).

(** ** What the steps of the pipeline hand on *)

(** A rewritten path is the request path, or comes out of [slasher]. *)
Lemma applyRewritesFrom_result (fuel : nat) (p : string) (rw : list ConfigRewrite)
    (trace : list nat) (out : string) :
  applyRewritesFrom fuel p rw = Ret (trace, Some out) ->
  out = p \/ exists t, out = slasher t.
Proof.
  revert p rw trace. induction fuel as [|fuel IH]; intros p rw trace; [discriminate |].
  cbn [Handler.applyRewritesFrom].
  destruct (List.length rw =? 0)%nat; [intros [= _ ->]; now left |].
  destruct (firstTarget p rw 0) as [[[idx target]|]| |];
    cbn [mbind run_bind]; try discriminate.
  destruct (applyRewritesFrom fuel (slasher target) _) as [[trace' out']| |] eqn:E;
    cbn [mbind run_bind fst snd]; try discriminate.
  intros [= _ ->]. right.
  destruct (IH _ _ _ E) as [-> | Ht]; [now exists target | exact Ht].
Qed.

Lemma applyRewrites_result (p : string) (rw : list ConfigRewrite) (out : string) :
  applyRewrites p rw = Ret (Some out) -> out = p \/ exists t, out = slasher t.
Proof.
  unfold Handler.applyRewrites, Handler.applyRewritesTrace.
  destruct (applyRewritesFrom _ p rw) as [[trace o]| |] eqn:E;
    cbn [mbind run_bind snd]; try discriminate.
  intros [= ->]. eapply applyRewritesFrom_result, E.
Qed.

Lemma firstExisting_some (current : string) (possible : list string)
    (st : FileInfo) (a : string) :
  firstExisting fs current possible = (Some st, a) ->
  exists rel, In rel possible /\ a = Go.PathJoin [current; rel].
Proof.
  induction possible as [|rel rest IH]; cbn [firstExisting]; [discriminate |].
  destruct (Lstat fs _) eqn:E; intros H.
  - injection H as _ <-. exists rel. split; [now left | reflexivity].
  - destruct (IH H) as (rel' & Hin & ->). exists rel'. split; [now right | reflexivity].
  - discriminate.
Qed.

Lemma getPossiblePaths_html (p rel : string) :
  In rel (getPossiblePaths p ".html") ->
  rel = Go.PathJoin [p; "index.html"] \/ rel = htmlCompanion p.
Proof.
  unfold getPossiblePaths. fold (htmlCompanion p).
  destruct (negb _); cbn; intuition.
Qed.

(** Without symlinks, the file served is the one the pipeline settled on. *)
Lemma serveResolved_served (state : Configuration) (st : option FileInfo)
    (a F : string) (mt : Z) :
  Symlinks state = false ->
  serveResolved fs state st a = Ret (ServeContent F mt) -> F = a.
Proof.
  intros Hs. unfold serveResolved. rewrite Hs.
  destruct st as [info|]; [| discriminate]. cbn [negb andb].
  destruct (IsSymlink info); [discriminate |].
  destruct (Open fs a); [| discriminate]. now intros [= <- _].
Qed.

Lemma firstSingle_some (unlisted : list string) (can : bool) (a : string)
    (files : list FileInfo) (res : renderDirResult) :
  firstSingle unlisted can a files = Ret (Some res) ->
  exists file, In file files /\ absolutePath res = Go.PathJoin [a; FileName file].
Proof.
  induction files as [|file rest IH]; cbn [Handler.firstSingle]; [discriminate |].
  destruct (canBeListed unlisted (FileName file)) as [listed| |];
    cbn [mbind run_bind]; try discriminate.
  assert (Hrest : firstSingle unlisted can a rest = Ret (Some res) ->
                  exists f, In f (file :: rest)
                            /\ absolutePath res = Go.PathJoin [a; FileName f]).
  { intros H. destruct (IH H) as (f & Hin & E). exists f. split; [now right | exact E]. }
  destruct listed; cbn [negb]; [| exact Hrest].
  destruct (negb (IsDir file) && can); [| exact Hrest].
  intros [= <-]. exists file. split; [now left | reflexivity].
Qed.

Lemma renderDirectory_single (state : Configuration) (current rel a : string)
    (related : renderDirResult) :
  renderDirectory state current rel a = Ret (inl related) ->
  singleFile related = true ->
  exists files file,
    ReadDir fs a = Some files /\ In file files
    /\ absolutePath related = Go.PathJoin [a; FileName file].
Proof.
  unfold Handler.renderDirectory.
  destruct (applicable rel _ _) as [ok| |]; cbn [mbind run_bind]; try discriminate.
  destruct ok; cbn [negb]; [| intros [= <-]; discriminate].
  destruct (ReadDir fs a) as [files|] eqn:Hread; [| discriminate].
  destruct (firstSingle _ _ a files) as [[res|]| |] eqn:E;
    cbn [mbind run_bind]; try discriminate.
  - intros [= <-] _. destruct (firstSingle_some _ _ _ _ _ E) as (file & Hin & Ea).
    now exists files, file.
  - destruct (Rel fs current a); [| discriminate].
    destruct (_ <? 2)%nat; [discriminate |]. intros [= <-]; discriminate.
Qed.

Lemma serveResolved_no_redirect (state : Configuration) (st : option FileInfo)
    (a location : string) (code : Z) :
  serveResolved fs state st a <> Ret (Redirect location code).
Proof.
  unfold serveResolved. destruct st as [info|]; [| discriminate].
  destruct (negb (Symlinks state) && IsSymlink info); [discriminate |].
  destruct (IsSymlink info).
  - destruct (Readlink fs a); try discriminate;
      destruct (lstatOr400 fs _) as [[info'|]|]; try discriminate;
      destruct (Open fs _); discriminate.
  - destruct (Open fs a); discriminate.
Qed.

(** X7. Whatever the type of the redirect rule, the pipeline redirects with 307. *)
Lemma redirect_status_is_307 (state : Configuration) (r : Request)
    (location : string) (code : Z) :
  ServeHTTP state r = Ret (Redirect location code) -> code = StatusTemporaryRedirect.
Proof.
  unfold Handler.ServeHTTP.
  destruct (negb (pathIsInside _ _)); [discriminate |].
  destruct (applicable _ _ _) as [cleanUrl| |]; cbn [mbind run_bind]; try discriminate.
  destruct (shouldRedirect state _ cleanUrl) as [[target ty]| |];
    cbn [mbind run_bind fst]; try discriminate.
  destruct target; [now intros [= _ <-] |].
  match goal with |- match ?first with _ => _ end = _ -> _ =>
    destruct first as [stats0|]; [| discriminate] end.
  destruct (applyRewrites _ _) as [rewritten| |]; cbn [mbind run_bind]; try discriminate.
  match goal with |- (let '(s, a) := ?m in _) = _ -> _ =>
    destruct m as [stats1 a1] end.
  match goal with |- match ?second with _ => _ end = _ -> _ =>
    destruct second as [stats2|]; [| discriminate] end.
  intros H. exfalso. revert H.
  destruct stats2 as [info|]; [| apply serveResolved_no_redirect].
  destruct (IsDir info); [| apply serveResolved_no_redirect].
  destruct (renderDirectory _ _ _ _) as [[related|]| |];
    cbn [mbind run_bind]; try discriminate.
  destruct (singleFile related); [apply serveResolved_no_redirect |].
  destruct (outputData related); [discriminate | apply serveResolved_no_redirect].
Qed.

Lemma insideRoot_intro (k : list string) (x : string) :
  pathIsInside (Go.PathJoin [rootedPath k; x]) (rootedPath k) = true ->
  insideRoot (rootedPath k) (Go.PathJoin [rootedPath k; x]).
Proof.
  intros Hin. destruct (PathJoin_root_normal k x) as (q & Hq & E).
  exists q. now rewrite E in *.
Qed.

(** The related path is inside the root as soon as the joined request path
    and its [.html] companion are. *)
Lemma findRelated_inside (k : list string) (p : string) (rewritten : option string)
    (st : FileInfo) (a : string) :
  normal k ->
  pathIsInside (Go.PathJoin [rootedPath k; p]) (rootedPath k) = true ->
  pathIsInside (Go.PathJoin [rootedPath k; htmlCompanion p]) (rootedPath k) = true ->
  (forall out, rewritten = Some out -> out = p \/ exists t, out = slasher t) ->
  findRelated fs (rootedPath k) p rewritten = (Some st, a) ->
  insideRoot (rootedPath k) a.
Proof.
  intros Hk Hin Hhtml Hrw H. unfold findRelated in H.
  apply firstExisting_some in H as (rel & Hrel & ->).
  assert (Hposs : In rel (getPossiblePaths p ".html") ->
                  insideRoot (rootedPath k) (Go.PathJoin [rootedPath k; rel])).
  { intros [-> | ->]%getPossiblePaths_html.
    - now apply insideRoot_index.
    - now apply insideRoot_intro. }
  destruct rewritten as [out|]; [| now apply Hposs].
  destruct (Go.isEmpty out); [now apply Hposs |].
  destruct Hrel as [<- | []].
  destruct (Hrw out eq_refl) as [-> | [t ->]].
  - now apply insideRoot_intro.
  - apply insideRoot_benign; [exact Hk | apply slasher_benign].
Qed.

(** C1, amended.  A request whose path, joined to the public root, is not
    inside the root is answered with 400 Bad Request.  Moreover, let the
    public root be a cleaned absolute path (as [LoadConfiguration] makes
    it), let symlinks not be followed, let the directory entries have plain
    names, and let the [.html] companion of the request path, joined to the
    root, be inside the root: then every file that the pipeline serves is
    inside the root at a separator boundary. *)
Theorem C1_served_file_is_inside_the_root (state : Configuration) (r : Request) :
  (pathIsInside (Go.PathJoin [Public state; Path r]) (Public state) = false ->
   ServeHTTP state r = Ret (SendError StatusBadRequest))
  /\ (Go.HasPrefix (Public state) "/" = true ->
      Go.Clean (Public state) = Public state ->
      Symlinks state = false ->
      (forall dir files, ReadDir fs dir = Some files ->
         Forall (fun file => normalElem (FileName file) = true) files) ->
      pathIsInside (Go.PathJoin [Public state; htmlCompanion (Path r)]) (Public state)
      = true ->
      forall F mt, ServeHTTP state r = Ret (ServeContent F mt) ->
                   pathIsInside F (Public state) = true).
Proof.
  unfold Handler.ServeHTTP. split; [now intros -> |].
  intros Hrooted Hclean Hsym Hdir Hhtml.
  destruct (root_elems _ Hrooted Hclean) as (k & Hk & ER).
  rewrite ER in *. clear ER Hrooted Hclean.
  set (R := rootedPath k) in *. set (P := Path r) in *.
  intros F mt.
  destruct (pathIsInside (Go.PathJoin [R; P]) R) eqn:Hin; cbn [negb]; [| discriminate].
  pose proof (insideRoot_intro k P Hin) as HA0. fold R in HA0.
  destruct (applicable P _ _) as [cleanUrl| |]; cbn [mbind run_bind]; try discriminate.
  destruct (shouldRedirect state P cleanUrl) as [[location ty]| |];
    cbn [mbind run_bind fst]; try discriminate.
  destruct location; [discriminate |].
  match goal with |- match ?first with _ => _ end = _ -> _ =>
    destruct first as [stats0|]; [| discriminate] end.
  destruct (applyRewrites P _) as [rewritten| |] eqn:Hrw;
    cbn [mbind run_bind]; try discriminate.
  match goal with |- (let '(s, a) := ?m in _) = _ -> _ =>
    remember m as found eqn:Hfound end.
  destruct found as [stats1 A1].
  assert (HA1 : insideRoot R A1).
  { destruct stats0; [now injection Hfound as _ -> |].
    destruct (cleanUrl || bool_decide (rewritten <> None)); [| now injection Hfound as _ ->].
    destruct (findRelated fs R P rewritten) as [[tstats|] ta] eqn:Hrel;
      [| now injection Hfound as _ ->].
    injection Hfound as _ ->.
    eapply (findRelated_inside k P rewritten); eauto.
    intros out ->. eapply applyRewrites_result, Hrw. }
  clear Hfound. destruct HA1 as (k1 & Hk1 & -> & Hin1).
  assert (Hserve : forall st, serveResolved fs state st (rootedPath k1)
                              = Ret (ServeContent F mt) ->
                              pathIsInside F R = true).
  { intros st Hs. now apply serveResolved_served in Hs as ->. }
  match goal with |- match ?second with _ => _ end = _ -> _ =>
    destruct second as [stats2|]; [| discriminate] end.
  destruct stats2 as [info|]; [| apply Hserve].
  destruct (IsDir info); [| apply Hserve].
  destruct (renderDirectory state R P (rootedPath k1)) as [[related|]| |] eqn:Hdirs;
    cbn [mbind run_bind]; try discriminate.
  destruct (singleFile related) eqn:Hsingle.
  - intros Hs. apply serveResolved_served in Hs as ->; [| exact Hsym].
    destruct (renderDirectory_single _ _ _ _ _ Hdirs Hsingle)
      as (files & file & Hread & Hfile & ->).
    pose proof (Hdir _ _ Hread) as Hnames.
    rewrite List.Forall_forall in Hnames.
    destruct (insideRoot_snoc R k1 (FileName file) Hk1 (Hnames _ Hfile) Hin1)
      as (q & _ & _ & Hq).
    exact Hq.
  - destruct (outputData related); [discriminate | apply Hserve].
Qed.

End BoundaryFacts.

(** [C1_served_file_is_inside_the_root] at work on the sample site: the
    request for [/../etc/passwd] is refused, the file [a.txt] is served
    from inside the root. *)
Lemma C1_witness :
  Handler.ServeHTTP Sample.compilesAll Sample.noScheme 0 0 0 0 0
    string Sample.literalMatch Sample.literalEmpty Sample.literalPortion
    Sample.siteFiles (Sample.siteState false) (Sample.get "/../etc/passwd" ∅)
  = Ret (Handler.SendError Http.StatusBadRequest)
  /\ Handler.ServeHTTP Sample.compilesAll Sample.noScheme 0 0 0 0 0
       string Sample.literalMatch Sample.literalEmpty Sample.literalPortion
       Sample.siteFiles (Sample.siteState false) (Sample.get "/a.txt" ∅)
     = Ret (Handler.ServeContent "/srv/www/a.txt" 7)
  /\ Handler.pathIsInside "/srv/www/a.txt" "/srv/www" = true.
Proof.
  split; [| split; [reflexivity |]].
  - apply (C1_served_file_is_inside_the_root Sample.compilesAll Sample.noScheme
             0 0 0 0 0 string Sample.literalMatch Sample.literalEmpty
             Sample.literalPortion Sample.siteFiles (Sample.siteState false)
             (Sample.get "/../etc/passwd" ∅)).
    reflexivity.
  - apply (proj2 (C1_served_file_is_inside_the_root Sample.compilesAll Sample.noScheme
             0 0 0 0 0 string Sample.literalMatch Sample.literalEmpty
             Sample.literalPortion Sample.siteFiles (Sample.siteState false)
             (Sample.get "/a.txt" ∅))) with (mt := 7);
      try reflexivity.
    intros dir files. cbn.
    destruct (String.eqb dir "/srv/www"); [| discriminate].
    intros [= <-]. repeat constructor.
Defined.

(** C1 as stated fails when symlinks are followed: the request for the
    link [/x] passes the boundary check and the pipeline serves the target
    of the link, [/etc/passwd], which is not inside the root. *)
Lemma C1_counterexample :
  Handler.pathIsInside (Go.PathJoin ["/srv/www"; "/x"]) "/srv/www" = true
  /\ Handler.ServeHTTP Sample.compilesAll Sample.noScheme 0 0 0 0 0
       string Sample.literalMatch Sample.literalEmpty Sample.literalPortion
       Sample.siteFiles (Sample.siteState true) (Sample.get "/x" ∅)
     = Ret (Handler.ServeContent "/etc/passwd" 2)
  /\ Handler.pathIsInside "/etc/passwd" (Handler.Public (Sample.siteState true)) = false.
Proof. repeat split; reflexivity. Qed.

(** The hypothesis on the [.html] companion cannot be dropped: with clean
    URLs on and no rewrite rule firing, the request for [/../www] passes
    the boundary check (the joined path is the root itself) and the file
    [/srv/www.html], next to the root, is served. *)
Lemma html_companion_is_not_checked :
  Handler.pathIsInside (Go.PathJoin ["/srv/www"; "/../www"]) "/srv/www" = true
  /\ Handler.ServeHTTP Sample.compilesAll Sample.strictParse 0 0 0 0 0
       string Sample.literalMatch Sample.literalEmpty Sample.literalPortion
       Sample.siteFiles Sample.cleanUrlState (Sample.get "/../www" ∅)
     = Ret (Handler.ServeContent "/srv/www.html" 1)
  /\ Handler.pathIsInside "/srv/www.html" "/srv/www" = false.
Proof. repeat split; vm_compute; reflexivity. Qed.

(* ================================================================== *)
(** * [pathIsInside] and [slasher] on their own                        *)
(* ================================================================== *)

Section InsideOrder.
Import Paths Handler.

Lemma trimRightBy_snoc (p : ascii -> bool) (s : string) (c : ascii) :
  p c = true ->
  Go.trimRightBy p (s +:+ String c EmptyString) = Go.trimRightBy p s.
Proof.
  intros Hc. induction s as [|x s IH]; sstep.
  - now rewrite Hc.
  - now rewrite IH.
Qed.

Lemma stripTrailingSep_slash (p : string) :
  stripTrailingSep (p +:+ "/") = stripTrailingSep p.
Proof. apply trimRightBy_snoc. reflexivity. Qed.

(** X1. Trailing separators play no part, on either side. *)
Theorem pathIsInside_trailing_separator (thePath potentialParent : string) :
  pathIsInside (thePath +:+ "/") potentialParent = pathIsInside thePath potentialParent
  /\ pathIsInside thePath (potentialParent +:+ "/") = pathIsInside thePath potentialParent.
Proof.
  unfold pathIsInside. now rewrite !stripTrailingSep_slash.
Qed.

Lemma prefix_split (p s : string) :
  String.prefix p s = true -> s = p +:+ Go.drop (String.length p) s.
Proof.
  revert s. induction p as [|c p IH]; intros s H; [now destruct s |].
  destruct s as [|d s]; [discriminate |]. cbn [String.prefix] in H.
  destruct (ascii_dec c d) as [<- |]; [| discriminate].
  sstep. f_equal. now apply IH.
Qed.

Lemma prefix_length (p s : string) :
  String.prefix p s = true -> (String.length p <= String.length s)%nat.
Proof.
  intros H. rewrite (prefix_split p s H), length_append. lia.
Qed.

Lemma prefix_trans (a b c : string) :
  String.prefix a b = true -> String.prefix b c = true -> String.prefix a c = true.
Proof.
  intros Hab Hbc. rewrite (prefix_split b c Hbc). now apply prefix_app_r.
Qed.

Lemma prefix_get (p s : string) (n : nat) (c : ascii) :
  String.prefix p s = true -> String.get n p = Some c -> String.get n s = Some c.
Proof.
  intros Hp Hget. rewrite (prefix_split p s Hp).
  rewrite get_app_l by (eapply get_lt; exact Hget). exact Hget.
Qed.

Lemma prefix_same_length (p s : string) :
  String.prefix p s = true -> String.length p = String.length s -> p = s.
Proof.
  intros Hp Hlen. pose proof (prefix_split p s Hp) as E.
  assert (Hd : Go.drop (String.length p) s = EmptyString).
  { rewrite E, length_append in Hlen.
    destruct (Go.drop (String.length p) s); [reflexivity | cbn in Hlen; lia]. }
  rewrite Hd, append_nil_r in E. congruence.
Qed.

(** X2. What is inside a path that is inside a parent is inside that parent. *)
Theorem pathIsInside_transitive (a b c : string) :
  pathIsInside a b = true -> pathIsInside b c = true -> pathIsInside a c = true.
Proof.
  unfold pathIsInside, Go.HasPrefix, Go.at_.
  set (a' := stripTrailingSep a). set (b' := stripTrailingSep b).
  set (c' := stripTrailingSep c).
  intros [Hba Hab]%andb_prop [Hcb Hbc]%andb_prop.
  rewrite (prefix_trans _ _ _ Hcb Hba). cbn [andb].
  apply orb_prop in Hbc as [Hlen | Hsep].
  - apply Nat.eqb_eq in Hlen. now rewrite <- Hlen.
  - apply orb_true_intro. right.
    destruct (String.get (String.length c') b') as [x|] eqn:Hget; [| discriminate].
    now rewrite (prefix_get b' a' _ x Hba Hget).
Qed.

(** X3. Two paths that are inside one another differ in trailing separators only. *)
Theorem pathIsInside_antisymmetric (a b : string) :
  pathIsInside a b = true -> pathIsInside b a = true ->
  stripTrailingSep a = stripTrailingSep b.
Proof.
  unfold pathIsInside, Go.HasPrefix.
  intros [Hba _]%andb_prop [Hab _]%andb_prop.
  apply prefix_same_length; [exact Hab |].
  apply prefix_length in Hba, Hab. lia.
Qed.

(** ** [slasher] *)

Lemma slasher_rooted (x : string) :
  slasher (String "/" x) = Go.PathJoin ["/"; String "/" x].
Proof. reflexivity. Qed.

Lemma slasher_bang (x : string) :
  slasher (String "!" x) = "!" +:+ Go.PathJoin ["/"; x].
Proof. reflexivity. Qed.

Lemma PathJoin_slash_rootedPath (q : list string) :
  Forall (fun e => normalElem e = true) q ->
  Go.PathJoin ["/"; rootedPath q] = rootedPath q.
Proof.
  intros Hq. change "/" with (rootedPath []) at 1.
  rewrite PathJoin_benign; [| constructor | now apply split_rootedPath_benign].
  rewrite SplitByte_rootedPath by exact Hq. cbn [app List.filter].
  change (normalElem EmptyString) with false. cbv iota.
  destruct q as [|e q]; [reflexivity |]. now rewrite filter_normal_id.
Qed.

(** X4. [slasher] gives a cleaned rooted path, or [!] followed by one;
    applying it again changes nothing. *)
Theorem slasher_idempotent (value : string) :
  (exists q, Forall (fun e => normalElem e = true) q
             /\ (slasher value = rootedPath q \/ slasher value = "!" +:+ rootedPath q))
  /\ slasher (slasher value) = slasher value.
Proof.
  destruct (slasher_cases value) as [E | [rest E]]; rewrite E;
    change "/" with (rootedPath []) at 1 2 3 4.
  - destruct (PathJoin_root_normal [] value) as (q & Hq & ->).
    split; [exists q; auto |].
    unfold rootedPath at 1. rewrite append_cons, append_nil_l, slasher_rooted.
    now apply PathJoin_slash_rootedPath.
  - destruct (PathJoin_root_normal [] rest) as (q & Hq & ->).
    split; [exists q; auto |].
    change ("!" +:+ rootedPath q) with (String "!" (rootedPath q)).
    rewrite slasher_bang. now rewrite PathJoin_slash_rootedPath.
Qed.

End InsideOrder.

(** [/x/y/z] is inside [/x/y], which is inside [/x]. *)
Lemma pathIsInside_transitive_witness :
  Handler.pathIsInside "/x/y/z" "/x" = true.
Proof.
  apply (pathIsInside_transitive "/x/y/z" "/x/y/" "/x"); reflexivity.
Defined.

(** [/x/y/] and [/x/y] are inside one another. *)
Lemma pathIsInside_antisymmetric_witness :
  Handler.stripTrailingSep "/x/y/" = Handler.stripTrailingSep "/x/y".
Proof.
  apply (pathIsInside_antisymmetric "/x/y/" "/x/y"); reflexivity.
Defined.

(* ================================================================== *)
(** * Pipeline: rewrites without a path, clean URLs, sites without rules *)
(* ================================================================== *)

Section PipelineExtras.
Import Http Handler Paths.

Variable regexpCompiles : string -> bool.
Variable urlParse : string -> option string.
Variables rSlash rOpen rClose rComma rPeriod : Z.
Variable Regexp : Type.
Variable reMatchString : Regexp -> string -> bool.
Variable emptyRegexp : Regexp.
Variable parsePortion : Minimatch.Options -> string -> Minimatch.parsed Regexp.
Variable fs : FileSystem.

Local Abbreviation normal := (Forall (fun e => normalElem e = true)).
Local Abbreviation firstTarget :=
  (Handler.firstTarget regexpCompiles urlParse rSlash rOpen rClose rComma rPeriod
     Regexp reMatchString emptyRegexp parsePortion).
Local Abbreviation applyRewritesFrom :=
  (Handler.applyRewritesFrom regexpCompiles urlParse rSlash rOpen rClose rComma rPeriod
     Regexp reMatchString emptyRegexp parsePortion).
Local Abbreviation applyRewrites :=
  (Handler.applyRewrites regexpCompiles urlParse rSlash rOpen rClose rComma rPeriod
     Regexp reMatchString emptyRegexp parsePortion).
Local Abbreviation applicable :=
  (Handler.applicable regexpCompiles rSlash rOpen rClose rComma rPeriod
     Regexp reMatchString emptyRegexp parsePortion).
Local Abbreviation shouldRedirect :=
  (Handler.shouldRedirect regexpCompiles urlParse rSlash rOpen rClose rComma rPeriod
     Regexp reMatchString emptyRegexp parsePortion).
Local Abbreviation renderDirectory :=
  (Handler.renderDirectory regexpCompiles rSlash rOpen rClose rComma rPeriod
     Regexp reMatchString emptyRegexp parsePortion fs).
Local Abbreviation ServeHTTP :=
  (Handler.ServeHTTP regexpCompiles urlParse rSlash rOpen rClose rComma rPeriod
     Regexp reMatchString emptyRegexp parsePortion fs).

Lemma firstTarget_any_path (p p' : string) (rewrites : list ConfigRewrite) (idx : nat) :
  firstTarget p rewrites idx = firstTarget p' rewrites idx.
Proof.
  revert idx. induction rewrites as [|item rest IH]; intros idx; [reflexivity |].
  cbn [Handler.firstTarget]. rewrite !toTarget_targetOf. cbn [mbind run_bind].
  destruct (Rules.targetOf _ _ _ _); [reflexivity | apply IH].
Qed.

(** X6. As soon as one rewrite rule is configured, the request path plays no
    part in rewrite resolution: any two paths are rewritten alike. *)
Theorem applyRewrites_ignores_the_path (p p' : string) (rewrites : list ConfigRewrite) :
  rewrites <> [] -> applyRewrites p rewrites = applyRewrites p' rewrites.
Proof.
  intros Hne. unfold Handler.applyRewrites, Handler.applyRewritesTrace.
  cbn [Handler.applyRewritesFrom].
  destruct rewrites as [|item rest]; [congruence |].
  cbn [List.length Nat.eqb]. now rewrite (firstTarget_any_path p p').
Qed.

(** X8. With clean URLs on for every path, for a request inside the public
    root whose path ends in [.html], or else in [/index], the pipeline
    calls [http.Redirect] with the status 307 and, as its target, the path
    without that ending (with a slash put in front if it has none). *)
Theorem clean_url_redirect (state : Configuration) (r : Request) (target : string) :
  NoCleanUrls state = false ->
  CleanUrls state = [] ->
  pathIsInside (Go.PathJoin [Public state; Path r]) (Public state) = true ->
  (Go.HasSuffix (Path r) ".html" = true
   /\ target = Go.take (String.length (Path r) - 5) (Path r))
  \/ (Go.HasSuffix (Path r) ".html" = false /\ Go.HasSuffix (Path r) "/index" = true
      /\ target = Go.take (String.length (Path r) - 6) (Path r)) ->
  ServeHTTP state r = Ret (Redirect (ensureSlashStart target) StatusTemporaryRedirect).
Proof.
  intros Hno Hclean Hin Hsuffix. unfold Handler.ServeHTTP.
  rewrite Hin. cbn [negb].
  unfold Handler.applicable. rewrite Hno, Hclean. cbn [List.length Nat.eqb mbind run_bind].
  unfold Handler.shouldRedirect. rewrite andb_false_r. cbn [negb andb].
  destruct Hsuffix as [[-> ->] | (-> & -> & ->)]; reflexivity.
Qed.

(** ** Sites without rewrite rules *)

(** What [ServeHTTP] serves is inside the root as soon as the related
    paths that [findRelated] can come up with are. *)
Lemma served_inside_by_related (state : Configuration) (r : Request) (k : list string) :
  Public state = rootedPath k -> normal k ->
  Symlinks state = false ->
  (forall dir files, ReadDir fs dir = Some files ->
     Forall (fun file => normalElem (FileName file) = true) files) ->
  (forall rewritten st a,
     pathIsInside (Go.PathJoin [rootedPath k; Path r]) (rootedPath k) = true ->
     applyRewrites (Path r) (Rewrites state) = Ret rewritten ->
     findRelated fs (rootedPath k) (Path r) rewritten = (Some st, a) ->
     insideRoot (rootedPath k) a) ->
  forall F mt, ServeHTTP state r = Ret (ServeContent F mt) ->
               pathIsInside F (Public state) = true.
Proof.
  intros ER Hk Hsym Hdir Hrelated F mt.
  unfold Handler.ServeHTTP. rewrite ER in *.
  set (R := rootedPath k) in *. set (P := Path r) in *.
  destruct (pathIsInside (Go.PathJoin [R; P]) R) eqn:Hin; cbn [negb]; [| discriminate].
  pose proof (insideRoot_intro k P Hin) as HA0. fold R in HA0.
  destruct (applicable P _ _) as [cleanUrl| |]; cbn [mbind run_bind]; try discriminate.
  destruct (shouldRedirect state P cleanUrl) as [[location ty]| |];
    cbn [mbind run_bind fst]; try discriminate.
  destruct location; [discriminate |].
  match goal with |- match ?first with _ => _ end = _ -> _ =>
    destruct first as [stats0|]; [| discriminate] end.
  destruct (applyRewrites P _) as [rewritten| |] eqn:Hrw;
    cbn [mbind run_bind]; try discriminate.
  match goal with |- (let '(s, a) := ?m in _) = _ -> _ =>
    remember m as found eqn:Hfound end.
  destruct found as [stats1 A1].
  assert (HA1 : insideRoot R A1).
  { destruct stats0; [now injection Hfound as _ -> |].
    destruct (cleanUrl || bool_decide (rewritten <> None)); [| now injection Hfound as _ ->].
    destruct (findRelated fs R P rewritten) as [[tstats|] ta] eqn:Hrel;
      [| now injection Hfound as _ ->].
    injection Hfound as _ ->. eapply Hrelated; eauto. }
  clear Hfound. destruct HA1 as (k1 & Hk1 & -> & Hin1).
  assert (Hserve : forall st, serveResolved fs state st (rootedPath k1)
                              = Ret (ServeContent F mt) ->
                              pathIsInside F R = true).
  { intros st Hs. now apply serveResolved_served in Hs as ->. }
  match goal with |- match ?second with _ => _ end = _ -> _ =>
    destruct second as [stats2|]; [| discriminate] end.
  destruct stats2 as [info|]; [| apply Hserve].
  destruct (IsDir info); [| apply Hserve].
  destruct (renderDirectory state R P (rootedPath k1)) as [[related|]| |] eqn:Hdirs;
    cbn [mbind run_bind]; try discriminate.
  destruct (singleFile related) eqn:Hsingle.
  - intros Hs. apply serveResolved_served in Hs as ->; [| exact Hsym].
    destruct (renderDirectory_single _ _ _ _ _ _ _ _ _ _ _ _ _ _ _ _ Hdirs Hsingle)
      as (files & file & Hread & Hfile & ->).
    pose proof (Hdir _ _ Hread) as Hnames.
    rewrite List.Forall_forall in Hnames.
    destruct (insideRoot_snoc R k1 (FileName file) Hk1 (Hnames _ Hfile) Hin1)
      as (q & _ & _ & Hq).
    exact Hq.
  - destruct (outputData related); [discriminate | apply Hserve].
Qed.

(** X9. Without rewrite rules and without symlinks, every file that the
    pipeline serves is inside the public root (a cleaned absolute path):
    the [.html] companion of the request path is never looked up. *)
Theorem served_inside_without_rewrites (state : Configuration) (r : Request) :
  Go.HasPrefix (Public state) "/" = true ->
  Go.Clean (Public state) = Public state ->
  Rewrites state = [] ->
  Symlinks state = false ->
  (forall dir files, ReadDir fs dir = Some files ->
     Forall (fun file => normalElem (FileName file) = true) files) ->
  forall F mt, ServeHTTP state r = Ret (ServeContent F mt) ->
               pathIsInside F (Public state) = true.
Proof.
  intros Hrooted Hclean Hrules Hsym Hdir.
  destruct (root_elems _ Hrooted Hclean) as (k & Hk & ER).
  apply (served_inside_by_related state r k ER Hk Hsym Hdir).
  intros rewritten st a Hinside. rewrite Hrules. intros [= <-] Hrel.
  unfold findRelated in Hrel.
  apply firstExisting_some in Hrel as (rel & Hin & ->).
  destruct (Path r) as [|c p] eqn:HP.
  - destruct Hin as [<- | []].
    change (Go.PathJoin [EmptyString; "index" +:+ ".html"]) with "index.html".
    apply insideRoot_snoc; [exact Hk | reflexivity | apply pathIsInside_refl].
  - destruct Hin as [<- | []]. now apply insideRoot_intro.
Qed.

End PipelineExtras.

(** The rules [/a -> /a], [/b -> /c]: the path [/zzz] is rewritten like [/a]. *)
Lemma applyRewrites_ignores_the_path_witness :
  Handler.applyRewrites Sample.compilesAll Sample.noScheme 0 0 0 0 0
    string Sample.literalMatch Sample.literalEmpty Sample.literalPortion
    "/zzz" [Sample.ruleA; Sample.ruleB] = Ret (Some "/a")
  /\ Handler.applyRewrites Sample.compilesAll Sample.noScheme 0 0 0 0 0
       string Sample.literalMatch Sample.literalEmpty Sample.literalPortion
       "/a" [Sample.ruleA; Sample.ruleB]
     = Handler.applyRewrites Sample.compilesAll Sample.noScheme 0 0 0 0 0
         string Sample.literalMatch Sample.literalEmpty Sample.literalPortion
         "/zzz" [Sample.ruleA; Sample.ruleB].
Proof.
  split; [reflexivity |].
  apply (applyRewrites_ignores_the_path Sample.compilesAll Sample.noScheme 0 0 0 0 0
           string Sample.literalMatch Sample.literalEmpty Sample.literalPortion).
  discriminate.
Defined.

(** The request for [/about.html] on the site with clean URLs. *)
Lemma clean_url_redirect_witness :
  Handler.ServeHTTP Sample.compilesAll Sample.strictParse 0 0 0 0 0
    string Sample.literalMatch Sample.literalEmpty Sample.literalPortion
    Sample.siteFiles Sample.cleanUrlState (Sample.get "/about.html" ∅)
  = Ret (Handler.Redirect "/about" Http.StatusTemporaryRedirect).
Proof.
  apply (clean_url_redirect Sample.compilesAll Sample.strictParse 0 0 0 0 0
           string Sample.literalMatch Sample.literalEmpty Sample.literalPortion
           Sample.siteFiles Sample.cleanUrlState (Sample.get "/about.html" ∅) "/about");
    try reflexivity.
  left. split; reflexivity.
Defined.

(** The file [a.txt] of the sample site, which has no rewrite rules. *)
Lemma served_inside_without_rewrites_witness :
  Handler.ServeHTTP Sample.compilesAll Sample.noScheme 0 0 0 0 0
    string Sample.literalMatch Sample.literalEmpty Sample.literalPortion
    Sample.siteFiles (Sample.siteState false) (Sample.get "/a.txt" ∅)
  = Ret (Handler.ServeContent "/srv/www/a.txt" 7)
  /\ Handler.pathIsInside "/srv/www/a.txt" "/srv/www" = true.
Proof.
  split; [reflexivity |].
  apply (served_inside_without_rewrites Sample.compilesAll Sample.noScheme 0 0 0 0 0
           string Sample.literalMatch Sample.literalEmpty Sample.literalPortion
           Sample.siteFiles (Sample.siteState false) (Sample.get "/a.txt" ∅))
    with (mt := 7); try reflexivity.
  intros dir files. cbn.
  destruct (String.eqb dir "/srv/www"); [| discriminate].
  intros [= <-]. repeat constructor.
Defined.

(** The redirect rule [/old -> /new] of type 301. *)
Lemma redirect_status_is_307_witness :
  Handler.ServeHTTP Sample.compilesAll Sample.noScheme 0 0 0 0 0
    string Sample.literalMatch Sample.literalEmpty Sample.literalPortion
    Sample.noFiles Sample.redirectState (Sample.get "/old" ∅)
  = Ret (Handler.Redirect "/new" 307)
  /\ 307 = Http.StatusTemporaryRedirect.
Proof.
  split; [reflexivity |].
  apply (redirect_status_is_307 Sample.compilesAll Sample.noScheme 0 0 0 0 0
           string Sample.literalMatch Sample.literalEmpty Sample.literalPortion
           Sample.noFiles Sample.redirectState (Sample.get "/old" ∅) "/new" 307).
  reflexivity.
Defined.

(* ================================================================== *)
(** * Content server: ranges kept in bounds, whole contents, HEAD      *)
(* ================================================================== *)

(** Turns the comparisons among the hypotheses into propositions. *)
Ltac zprops :=
  repeat match goal with
    | H : (_ >? _) = _ |- _ => rewrite Z.gtb_ltb in H
    | H : (_ >=? _) = _ |- _ => rewrite Z.geb_leb in H
    | H : (_ <? _) = true |- _ => apply Z.ltb_lt in H
    | H : (_ <? _) = false |- _ => apply Z.ltb_ge in H
    | H : (_ <=? _) = true |- _ => apply Z.leb_le in H
    | H : (_ <=? _) = false |- _ => apply Z.leb_gt in H
    end.

Section ContentExtras.
Import Http SwHttp Ranges.

Variable ParseTime : string -> option Time.
Variable FormatHTTPTime : Time -> string.
Variable TypeByExtension : string -> string.
Variable DetectContentType : string -> string.
Variable multipartBoundary : string.
Variable multipartOverhead : list httpRange -> string -> Z -> Z.
Variable multipartBody : list httpRange -> string -> Z -> string -> string.

Local Abbreviation checkPreconditions := (SwHttp.checkPreconditions ParseTime).
Local Abbreviation setLastModified := (SwHttp.setLastModified FormatHTTPTime).
Local Abbreviation serveSized :=
  (SwHttp.serveSized multipartBoundary multipartOverhead multipartBody).
Local Abbreviation ServeContent :=
  (SwHttp.ServeContent ParseTime FormatHTTPTime TypeByExtension DetectContentType
     multipartBoundary multipartOverhead multipartBody).

(** ** [parseRange] *)

Lemma parseRangeSpec_within (ra : string) (size : Z) (r : httpRange) :
  0 <= size -> parseRangeSpec ra size = inr (Some r) -> within size r.
Proof.
  intros Hsize. unfold parseRangeSpec, within.
  repeat (case_match; try discriminate); intros [= <-]; cbn [start length];
    zprops; lia.
Qed.

Lemma parseRangeSpec_error (ra : string) (size : Z) (e : rangeResult) :
  parseRangeSpec ra size = inl e -> e = ErrInvalidRange.
Proof.
  unfold parseRangeSpec. repeat (case_match; try discriminate); now intros [= <-].
Qed.

Lemma parseRangeLoop_within (specs : list string) (size : Z)
    (acc ranges : list httpRange) (noOverlap : bool) :
  0 <= size -> Forall (within size) acc ->
  parseRangeLoop specs size acc noOverlap = RangesOk ranges ->
  Forall (within size) ranges.
Proof.
  intros Hsize. revert acc noOverlap.
  induction specs as [|ra rest IH]; intros acc noOverlap Hacc; cbn [parseRangeLoop].
  - case_match; [discriminate |]. now intros [= <-].
  - case_match; [now apply IH |].
    destruct (parseRangeSpec _ size) as [e | [r|]] eqn:E.
    + apply parseRangeSpec_error in E as ->. discriminate.
    + apply IH. apply Forall_app. split; [exact Hacc |].
      constructor; [| constructor]. eapply parseRangeSpec_within; eauto.
    + now apply IH.
Qed.

(** X10. Whatever the header, every range that [parseRange] returns lies
    within the content: it starts at or after 0, has a length that is not
    negative, and ends at or before the size. *)
Theorem parseRange_within_content (s : string) (size : Z) (ranges : list httpRange) :
  0 <= size -> parseRange s size = RangesOk ranges -> Forall (within size) ranges.
Proof.
  intros Hsize. unfold parseRange.
  case_match; [now intros [= <-] |].
  case_match; [discriminate |].
  now apply parseRangeLoop_within.
Qed.

(** ** Whole contents *)

(** Past the preconditions, the response that reaches the range stage has
    the headers it had, but for [Last-Modified] and [Content-Type]. *)
Lemma ServeContent_continue_headers (w w1 : ResponseWriter) (r : Request)
    (name : string) (modtime : Time) (content : Content) (rangeReq : string) :
  checkPreconditions (setLastModified w modtime) r modtime = (false, rangeReq, w1) ->
  exists w2 ctype,
    ServeContent w r name modtime content
    = serveSized w2 r rangeReq ctype (Z.of_nat (String.length (data content)))
        {| data := data content; pos := 0 |}
    /\ Status w2 = Status w /\ Written w2 = Written w
    /\ forall key, key <> "Last-Modified" -> key <> "Content-Type" ->
                   RespHeader w2 !! key = RespHeader w !! key.
Proof.
  intros Hpre.
  pose proof (checkPreconditions_continue _ _ _ _ _ _ Hpre) as ->.
  destruct (setLastModified_status FormatHTTPTime w modtime) as [Hst Hwr].
  assert (Hh : forall key, key <> "Last-Modified" ->
                           RespHeader (setLastModified w modtime) !! key
                           = RespHeader w !! key).
  { intros key Hk. unfold SwHttp.setLastModified. case_match; [| reflexivity].
    cbn [RespHeader withHeader]. unfold Set_. lookup_header.
    now rewrite lookup_insert_ne by congruence. }
  unfold SwHttp.ServeContent, SwHttp.serveContent. cbv beta zeta. rewrite Hpre.
  set (w1 := setLastModified w modtime) in *.
  assert (Ht : forall ctype key, key <> "Last-Modified" -> key <> "Content-Type" ->
             RespHeader (withHeader w1 (Set_ (RespHeader w1) "Content-Type" ctype)) !! key
             = RespHeader w !! key).
  { intros ctype key H1 H2. cbn [RespHeader withHeader]. unfold Set_. lookup_header.
    rewrite lookup_insert_ne by congruence. now apply Hh. }
  destruct (RespHeader w1 !! "Content-Type") as [ctypes|] eqn:Hct.
  - exists w1, (hd EmptyString ctypes).
    rewrite Seek_end, Seek_start. auto.
  - destruct (Go.isEmpty (TypeByExtension (Go.Ext name))) eqn:Hext.
    + destruct (readN content sniffLen) as [buf content1] eqn:Hread.
      assert (Hdata : data content1 = data content).
      { unfold readN in Hread. injection Hread as _ <-. reflexivity. }
      rewrite Seek_start, Seek_end, Seek_start. cbn [data]. rewrite Hdata.
      eexists _, _. split; [reflexivity |]. auto.
    + rewrite Seek_end, Seek_start. eexists _, _. split; [reflexivity |]. auto.
Qed.

Lemma take_all (s : string) : Go.take (String.length s) s = s.
Proof. induction s as [|c s IH]; cbn; [reflexivity | now rewrite IH]. Qed.

(** What [serveSized] does once the ranges are left aside: 200, the
    length headers, the whole content unless the method is HEAD. *)
Lemma serveSized_whole (w : ResponseWriter) (r : Request) (content : string) :
  Status w = None ->
  let size := Z.of_nat (String.length content) in
  let resp :=
    let w := WriteHeader
               (withHeader w
                  (let h := Set_ (RespHeader w) "Accept-Ranges" "bytes" in
                   if Go.isEmpty (Get h "Content-Encoding")
                   then Set_ h "Content-Length" (Go.FormatInt size) else h))
               StatusOK in
    if negb (String.eqb (Method r) "HEAD")
    then CopyN w {| data := content; pos := 0 |} size else w in
  Status resp = Some StatusOK
  /\ Written resp = Written w +:+ (if String.eqb (Method r) "HEAD" then EmptyString else content)
  /\ RespHeader resp !! "Accept-Ranges" = Some ["bytes"]
  /\ (Get (RespHeader w) "Content-Encoding" = EmptyString ->
      RespHeader resp !! "Content-Length" = Some [Go.FormatInt size])
  /\ (forall key, key <> "Accept-Ranges" -> key <> "Content-Length" ->
                  RespHeader resp !! key = RespHeader w !! key).
Proof.
  intros Hfresh size resp. subst resp.
  unfold WriteHeader. cbn [Status withHeader]. rewrite Hfresh.
  assert (Henc : Get (Set_ (RespHeader w) "Accept-Ranges" "bytes") "Content-Encoding"
                 = Get (RespHeader w) "Content-Encoding").
  { unfold Get, Set_. canon. now rewrite lookup_insert_ne by discriminate. }
  rewrite Henc.
  assert (Hheaders :
    forall h, h = (if Go.isEmpty (Get (RespHeader w) "Content-Encoding")
                   then Set_ (Set_ (RespHeader w) "Accept-Ranges" "bytes")
                          "Content-Length" (Go.FormatInt size)
                   else Set_ (RespHeader w) "Accept-Ranges" "bytes") ->
      h !! "Accept-Ranges" = Some ["bytes"]
      /\ (Get (RespHeader w) "Content-Encoding" = EmptyString ->
          h !! "Content-Length" = Some [Go.FormatInt size])
      /\ (forall key, key <> "Accept-Ranges" -> key <> "Content-Length" ->
                      h !! key = RespHeader w !! key)).
  { intros h ->. split; [| split].
    - case_match; unfold Set_; lookup_header; reflexivity.
    - intros ->. cbn [Go.isEmpty]. unfold Set_. lookup_header. reflexivity.
    - intros key H1 H2. case_match; unfold Set_; canon;
        now rewrite !lookup_insert_ne by congruence. }
  destruct (String.eqb (Method r) "HEAD"); cbn [negb].
  - cbn [Status Written RespHeader]. rewrite append_nil_r.
    repeat split; now apply (Hheaders _ eq_refl).
  - unfold CopyN. destruct (size <=? 0) eqn:Hzero.
    + assert (content = EmptyString) as ->.
      { zprops. subst size. destruct content; [reflexivity | cbn in Hzero; lia]. }
      cbn [Status Written RespHeader]. rewrite append_nil_r.
      repeat split; now apply (Hheaders _ eq_refl).
    + unfold readN, Write, WriteHeader. cbn [Status Written RespHeader data pos fst Go.drop].
      subst size. rewrite Nat2Z.id, take_all.
      repeat split; now apply (Hheaders _ eq_refl).
Qed.

(** X11. A request that gets past the preconditions without a Range header is
    answered 200 with [Accept-Ranges: bytes], with the length of the
    content as [Content-Length] (unless a [Content-Encoding] is set) and,
    unless its method is HEAD, with the whole content as body. *)
Theorem no_range_is_200 (w w1 : ResponseWriter) (r : Request) (name : string)
    (modtime : Time) (content : Content) :
  Status w = None ->
  checkPreconditions (setLastModified w modtime) r modtime = (false, EmptyString, w1) ->
  let resp := ServeContent w r name modtime content in
  Status resp = Some StatusOK
  /\ Written resp
     = Written w +:+ (if String.eqb (Method r) "HEAD" then EmptyString else data content)
  /\ RespHeader resp !! "Accept-Ranges" = Some ["bytes"]
  /\ (Get (RespHeader w) "Content-Encoding" = EmptyString ->
      RespHeader resp !! "Content-Length"
      = Some [Go.FormatInt (Z.of_nat (String.length (data content)))]).
Proof.
  intros Hfresh Hpre resp.
  destruct (ServeContent_continue_headers w w1 r name modtime content _ Hpre)
    as (w2 & ctype & Hserve & Hst & Hwr & Hh).
  subst resp. rewrite Hserve. unfold SwHttp.serveSized.
  replace (Z.of_nat (String.length (data content)) >=? 0) with true by zdecide.
  change (parseRange EmptyString _) with (RangesOk []).
  assert (Hfresh2 : Status w2 = None) by congruence.
  destruct (serveSized_whole w2 r (data content) Hfresh2) as (H1 & H2 & H3 & H4 & _).
  rewrite Hwr in H2.
  assert (H5 : Get (RespHeader w) "Content-Encoding" = EmptyString ->
               Get (RespHeader w2) "Content-Encoding" = EmptyString).
  { unfold Get. canon. now rewrite Hh by discriminate. }
  cbv beta iota zeta.
  destruct (sumRangesSize [] >? _);
    (split; [exact H1 | split; [exact H2 | split; [exact H3 |]]]);
    intros Henc; apply H4, H5, Henc.
Qed.

(** X12. On a response to which no status was written yet, for a request
    that gets past the preconditions: ranges that add up to more than the
    content are left aside, and the answer is 200 with the whole content
    (no body for HEAD) and the [Content-Range] header as it was. *)
Theorem oversize_ranges_are_ignored (w w1 : ResponseWriter) (r : Request) (name : string)
    (modtime : Time) (content : Content) (rangeReq : string) (ranges : list httpRange) :
  let size := Z.of_nat (String.length (data content)) in
  Status w = None ->
  checkPreconditions (setLastModified w modtime) r modtime = (false, rangeReq, w1) ->
  parseRange rangeReq size = RangesOk ranges ->
  sumRangesSize ranges > size ->
  let resp := ServeContent w r name modtime content in
  Status resp = Some StatusOK
  /\ Written resp
     = Written w +:+ (if String.eqb (Method r) "HEAD" then EmptyString else data content)
  /\ RespHeader resp !! "Content-Range" = RespHeader w !! "Content-Range".
Proof.
  intros size Hfresh Hpre Hparse Hsum resp.
  destruct (ServeContent_continue_headers w w1 r name modtime content _ Hpre)
    as (w2 & ctype & Hserve & Hst & Hwr & Hh).
  subst resp. rewrite Hserve. fold size. unfold SwHttp.serveSized.
  replace (size >=? 0) with true by (subst size; zdecide).
  rewrite Hparse.
  replace (sumRangesSize ranges >? size) with true by zdecide.
  cbv beta iota zeta.
  assert (Hfresh2 : Status w2 = None) by congruence.
  destruct (serveSized_whole w2 r (data content) Hfresh2) as (H1 & H2 & _ & _ & H5).
  fold size in H1, H2, H5. rewrite Hwr in H2.
  split; [exact H1 | split; [exact H2 |]].
  rewrite <- (Hh "Content-Range") by discriminate.
  apply H5; discriminate.
Qed.

(** ** HEAD *)







(** ** [If-None-Match: *] *)

(** X14. A request with [If-None-Match: *] (and neither [If-Match] nor
    [If-Unmodified-Since]) gets no body: with GET or HEAD the answer is 304,
    without [Content-Type] and [Content-Length]; with another method it
    is 412. *)
Theorem if_none_match_star (w : ResponseWriter) (r : Request) (name : string)
    (modtime : Time) (content : Content) :
  Status w = None ->
  Get (ReqHeader r) "If-Match" = EmptyString ->
  Get (ReqHeader r) "If-Unmodified-Since" = EmptyString ->
  Get (ReqHeader r) "If-None-Match" = "*" ->
  let resp := ServeContent w r name modtime content in
  Written resp = Written w
  /\ (if isGetOrHead r
      then Status resp = Some StatusNotModified
           /\ RespHeader resp !! "Content-Type" = None
           /\ RespHeader resp !! "Content-Length" = None
      else Status resp = Some StatusPreconditionFailed).
Proof.
  intros Hfresh H1 H2 H3 resp. subst resp.
  destruct (setLastModified_status FormatHTTPTime w modtime) as [Hst Hwr].
  unfold SwHttp.ServeContent, SwHttp.serveContent. cbv beta zeta.
  unfold SwHttp.checkPreconditions, checkIfMatch, SwHttp.checkIfUnmodifiedSince,
    checkIfNoneMatch.
  rewrite H1, H2, H3. cbn [Go.isEmpty orb condResult_eqb].
  change (checkIfNoneMatchLoop _ "*" _) with condFalse. cbv iota.
  destruct (isGetOrHead r).
  - unfold writeNotModified, WriteHeader. cbn [Status withHeader].
    rewrite Hst, Hfresh. cbn [Status Written RespHeader].
    split; [exact Hwr |]. split; [reflexivity |].
    split; case_match; cbn [RespHeader withHeader];
      rewrite ?lookup_delete_ne by discriminate;
      rewrite ?lookup_delete_eq; reflexivity.
  - unfold WriteHeader. rewrite Hst, Hfresh. cbn [Status Written]. now split.
Qed.

(** ** Entity tags *)

Lemma etagEnd_spec (t : string) (k : nat) :
  etagEnd t = Some k ->
  exists body rest,
    t = body +:+ String dquote rest /\ String.length body = k
    /\ Go.allBytes etagByte body = true.
Proof.
  revert k. induction t as [|c t IH]; intros k; cbn [etagEnd]; [discriminate |].
  fold (etagByte c). destruct (etagByte c) eqn:Hc.
  - destruct (etagEnd t) as [k'|]; [| discriminate]. intros [= <-].
    destruct (IH k' eq_refl) as (body & rest & -> & <- & Hall).
    exists (String c body), rest. cbn [Go.allBytes String.length].
    now rewrite Hc, Hall.
  - destruct (Ascii.eqb_spec c dquote) as [-> |]; [| discriminate].
    intros [= <-]. now exists EmptyString, t.
Qed.

Lemma take_snoc (body rest : string) (c : ascii) :
  Go.take (String.length body + 1) (body +:+ String c rest)
  = body +:+ String c EmptyString.
Proof. induction body as [|x body IH]; sstep; [reflexivity | now rewrite IH]. Qed.

Lemma drop_snoc (body rest : string) (c : ascii) :
  Go.drop (String.length body + 1) (body +:+ String c rest) = rest.
Proof. induction body as [|x body IH]; sstep; [reflexivity | exact IH]. Qed.

(** X15. What [scanETag] returns as an entity tag is one: bytes without a
    double quote between double quotes, after [W/] or not; the tag and
    the remaining text make up the trimmed input. *)
Theorem scanETag_valid (s etag remain : string) :
  scanETag s = (etag, remain) -> Go.isEmpty etag = false ->
  exists body,
    Go.allBytes etagByte body = true
    /\ (etag = quoted body \/ etag = "W/" +:+ quoted body)
    /\ Go.TrimString s = etag +:+ remain.
Proof.
  unfold scanETag. set (t := Go.TrimString s). clearbody t.
  destruct (Go.HasPrefix t "W/") eqn:HW.
  - pose proof (prefix_split "W/" t HW) as E.
    destruct t as [|a [|b u]]; try discriminate.
    cbn in E. injection E as -> ->. clear HW.
    cbn [Go.drop]. case_match; [intros [= <- <-]; discriminate |].
    apply orb_false_elim in H as [_ Hq]. apply negb_false_iff in Hq.
    pose proof (prefix_split _ u Hq) as E.
    destruct u as [|q v]; [discriminate |]. cbn in E. injection E as ->.
    cbn [Go.drop Nat.add].
    destruct (etagEnd v) as [k|] eqn:Hend; [| intros [= <- <-]; discriminate].
    destruct (etagEnd_spec v k Hend) as (body & rest & -> & <- & Hall).
    cbn [Go.take Go.drop Nat.add]. rewrite take_snoc, drop_snoc.
    intros [= <- <-] _. exists body. split; [exact Hall |]. split; [now right |].
    unfold quoted. sstep. rewrite append_assoc. reflexivity.
  - cbn [Go.drop]. case_match; [intros [= <- <-]; discriminate |].
    apply orb_false_elim in H as [_ Hq]. apply negb_false_iff in Hq.
    pose proof (prefix_split _ t Hq) as E.
    destruct t as [|q v]; [discriminate |]. cbn in E. injection E as ->.
    cbn [Go.drop Nat.add].
    destruct (etagEnd v) as [k|] eqn:Hend; [| intros [= <- <-]; discriminate].
    destruct (etagEnd_spec v k Hend) as (body & rest & -> & <- & Hall).
    cbn [Go.take Go.drop Nat.add]. rewrite take_snoc, drop_snoc.
    intros [= <- <-] _. exists body. split; [exact Hall |]. split; [now left |].
    unfold quoted. sstep. rewrite append_assoc. reflexivity.
Qed.

End ContentExtras.

(** The header [bytes=0-4,-3,20-] against ten bytes. *)
Lemma parseRange_within_content_witness :
  SwHttp.parseRange "bytes=0-4,-3,20-" 10
  = SwHttp.RangesOk [{| SwHttp.start := 0; SwHttp.length := 5 |};
                     {| SwHttp.start := 7; SwHttp.length := 3 |}]
  /\ Forall (Ranges.within 10) [{| SwHttp.start := 0; SwHttp.length := 5 |};
                                {| SwHttp.start := 7; SwHttp.length := 3 |}].
Proof.
  split; [reflexivity |].
  apply (parseRange_within_content "bytes=0-4,-3,20-" 10); [lia | reflexivity].
Defined.

(** A plain GET request for the file of ten bytes. *)
Lemma no_range_is_200_witness :
  Http.Status (Sample.serve (Sample.get "/digits.txt" ∅)) = Some Http.StatusOK
  /\ Http.Written (Sample.serve (Sample.get "/digits.txt" ∅)) = "0123456789"
  /\ Http.RespHeader (Sample.serve (Sample.get "/digits.txt" ∅)) !! "Accept-Ranges"
     = Some ["bytes"]
  /\ (Http.Get (Http.RespHeader Http.newResponseWriter) "Content-Encoding" = EmptyString ->
      Http.RespHeader (Sample.serve (Sample.get "/digits.txt" ∅)) !! "Content-Length"
      = Some ["10"]).
Proof.
  refine (no_range_is_200 Sample.noTime Sample.anyDate Sample.textPlain
            Sample.textPlain Sample.boundary Sample.noOverhead Sample.noParts
            Http.newResponseWriter Http.newResponseWriter
            (Sample.get "/digits.txt" ∅) "digits.txt" SwHttp.unixEpochTime
            Sample.tenBytes _ _); reflexivity.
Defined.

(** [Range: bytes=0-,0-] asks for twenty bytes of the file of ten. *)
Lemma oversize_ranges_are_ignored_witness :
  Http.Status (Sample.serve (Sample.ranged "GET" "bytes=0-,0-")) = Some Http.StatusOK
  /\ Http.Written (Sample.serve (Sample.ranged "GET" "bytes=0-,0-")) = "0123456789"
  /\ Http.RespHeader (Sample.serve (Sample.ranged "GET" "bytes=0-,0-")) !! "Content-Range"
     = None.
Proof.
  refine (oversize_ranges_are_ignored Sample.noTime Sample.anyDate Sample.textPlain
            Sample.textPlain Sample.boundary Sample.noOverhead Sample.noParts
            Http.newResponseWriter Http.newResponseWriter
            (Sample.ranged "GET" "bytes=0-,0-") "digits.txt" SwHttp.unixEpochTime
            Sample.tenBytes "bytes=0-,0-"
            [{| SwHttp.start := 0; SwHttp.length := 10 |};
             {| SwHttp.start := 0; SwHttp.length := 10 |}] _ _ _ _); reflexivity.
Defined.


(** A GET request with [If-None-Match: *]. *)
Lemma if_none_match_star_witness :
  Http.Written (Sample.serve (Sample.rangedIfNoneMatch "bytes=0-4")) = EmptyString
  /\ Http.Status (Sample.serve (Sample.rangedIfNoneMatch "bytes=0-4"))
     = Some Http.StatusNotModified
  /\ Http.RespHeader (Sample.serve (Sample.rangedIfNoneMatch "bytes=0-4")) !! "Content-Type"
     = None
  /\ Http.RespHeader (Sample.serve (Sample.rangedIfNoneMatch "bytes=0-4"))
       !! "Content-Length" = None.
Proof.
  refine (if_none_match_star Sample.noTime Sample.anyDate Sample.textPlain
            Sample.textPlain Sample.boundary Sample.noOverhead Sample.noParts
            Http.newResponseWriter (Sample.rangedIfNoneMatch "bytes=0-4")
            "digits.txt" SwHttp.unixEpochTime Sample.tenBytes _ _ _ _); reflexivity.
Defined.

(** A weak tag followed by a strong one. *)
Lemma scanETag_valid_witness :
  exists body,
    Go.allBytes Ranges.etagByte body = true
    /\ (String "W" (String "/" (Ranges.quoted "v1")) = Ranges.quoted body
        \/ String "W" (String "/" (Ranges.quoted "v1")) = "W/" +:+ Ranges.quoted body)
    /\ Go.TrimString (" W/" +:+ Ranges.quoted "v1" +:+ ", " +:+ Ranges.quoted "v2")
       = String "W" (String "/" (Ranges.quoted "v1")) +:+ (", " +:+ Ranges.quoted "v2").
Proof.
  apply (scanETag_valid (" W/" +:+ Ranges.quoted "v1" +:+ ", " +:+ Ranges.quoted "v2"));
    reflexivity.
Defined.

(* ================================================================== *)
(** * Glob matcher: comments, negation, lists                          *)
(* ================================================================== *)

Section MinimatchExtras.

Variables rSlash rOpen rClose rComma rPeriod : Z.
Variable Regexp : Type.
Variable reMatchString : Regexp -> string -> bool.
Variable emptyRegexp : Regexp.
Variable parsePortion : Minimatch.Options -> string -> Minimatch.parsed Regexp.

Local Abbreviation NewMinimatch :=
  (Minimatch.NewMinimatch rSlash rOpen rClose rComma rPeriod Regexp emptyRegexp parsePortion).
Local Abbreviation make :=
  (Minimatch.make rSlash rOpen rClose rComma rPeriod Regexp emptyRegexp parsePortion).
Local Abbreviation MatchString :=
  (Minimatch.MatchString rSlash rOpen rClose rComma rPeriod Regexp reMatchString
     emptyRegexp parsePortion).
Local Abbreviation MatchList :=
  (Minimatch.MatchList rSlash rOpen rClose rComma rPeriod Regexp reMatchString
     emptyRegexp parsePortion).
Local Abbreviation Match := (Minimatch.Match Regexp reMatchString).
Local Abbreviation matchItems := (Minimatch.matchItems Regexp reMatchString).

(** No white-space character starts with the byte [#]. *)
Lemma trimLeftSpace_hash (x : string) :
  Go.trimLeftSpace (String "#" x) = String "#" x.
Proof. destruct x as [|d [|e x]]; reflexivity. Qed.

Lemma TrimSpace_hash (x : string) :
  Go.TrimSpace (String "#" x) = String "#" (Go.trimRightSpace x).
Proof.
  unfold Go.TrimSpace. rewrite trimLeftSpace_hash.
  cbn [Go.trimRightSpace]. now rewrite trimLeftSpace_hash.
Qed.

(** With comments on, a pattern that starts with [#] matches no path. *)
Lemma comment_matches_nothing (path text : string) (options : Minimatch.Options) :
  Minimatch.NoComment options = false ->
  MatchString path ("#" +:+ text) options = Ret false.
Proof.
  intros Hcomment. unfold Minimatch.MatchString, Minimatch.NewMinimatch.
  change ("#" +:+ text) with (String "#" text).
  rewrite TrimSpace_hash.
  unfold Minimatch.make. cbn [Minimatch.options Minimatch.pattern].
  rewrite Hcomment. reflexivity.
Qed.

(** With comments off, a blank pattern matches the empty path and no other. *)
Lemma blank_pattern_without_comments (path pattern : string)
    (options : Minimatch.Options) :
  Minimatch.NoComment options = true ->
  Go.TrimSpace pattern = EmptyString ->
  MatchString path pattern options = Ret (Go.isEmpty path).
Proof.
  intros Hcomment Hblank. unfold Minimatch.MatchString, Minimatch.NewMinimatch.
  rewrite Hblank. unfold Minimatch.make. cbn [Minimatch.options Minimatch.pattern].
  rewrite Hcomment. reflexivity.
Qed.

(** X16. With comments on, a pattern that starts with [#] matches no path.
    With comments off, a pattern of white space only matches the empty
    path and no other. *)
Theorem comment_and_blank_patterns (path text pattern : string)
    (options : Minimatch.Options) :
  (Minimatch.NoComment options = false ->
   MatchString path ("#" +:+ text) options = Ret false)
  /\ (Minimatch.NoComment options = true ->
      Go.TrimSpace pattern = EmptyString ->
      MatchString path pattern options = Ret (Go.isEmpty path)).
Proof.
  split; [apply comment_matches_nothing | apply blank_pattern_without_comments].
Qed.

(** ** Negation *)

Lemma stripBangs_bang (negate : bool) (pattern : string) :
  Minimatch.stripBangs negate (String "!" pattern)
  = Minimatch.stripBangs (negb negate) pattern.
Proof. reflexivity. Qed.

Lemma stripBangs_negb (negate : bool) (pattern : string) :
  Minimatch.stripBangs (negb negate) pattern
  = (negb (fst (Minimatch.stripBangs negate pattern)),
     snd (Minimatch.stripBangs negate pattern)).
Proof.
  revert negate. induction pattern as [|c rest IH]; intros negate; [reflexivity |].
  destruct (Ascii.eqb_spec c "!") as [-> | Hc].
  - rewrite !stripBangs_bang. apply IH.
  - destruct c as [[] [] [] [] [] [] [] []]; try reflexivity. congruence.
Qed.

(** The matcher made for a pattern that is not a comment: negation, braces,
    rows. *)
Lemma make_glob (c : ascii) (rest : string) (options : Minimatch.Options) :
  Ascii.eqb c "#" = false \/ Minimatch.NoComment options = true ->
  make {| Minimatch.Comment := false; Minimatch.Empty := false;
          Minimatch.pattern := String c rest; Minimatch.options := options;
          Minimatch.negate := false; Minimatch.set := [] |}
  = let m := Minimatch.parseNegate Regexp
               {| Minimatch.Comment := false; Minimatch.Empty := false;
                  Minimatch.pattern := String c rest; Minimatch.options := options;
                  Minimatch.negate := false; Minimatch.set := [] |} in
    globSet ← Minimatch.braceExpand rSlash rOpen rClose rComma rPeriod Regexp m;
    set_ ← Minimatch.makeSet Regexp emptyRegexp parsePortion (Minimatch.options Regexp m)
             (map Minimatch.slashSplit globSet);
    Ret {| Minimatch.Comment := false; Minimatch.Empty := false;
           Minimatch.pattern := Minimatch.pattern Regexp m;
           Minimatch.options := Minimatch.options Regexp m;
           Minimatch.negate := Minimatch.negate Regexp m; Minimatch.set := set_ |}.
Proof.
  intros Hc. unfold Minimatch.make.
  cbn [Minimatch.pattern Minimatch.options String.length Nat.eqb].
  assert (E : (if negb (Minimatch.NoComment options)
               then Ret (Ascii.eqb c "#") else Ret false) = @Ret bool false).
  { destruct Hc as [-> | ->]; [now destruct (Minimatch.NoComment options) | reflexivity]. }
  rewrite E. cbn [mbind run_bind]. cbv zeta.
  unfold Minimatch.parseNegate. cbn [Minimatch.options Minimatch.pattern Minimatch.negate].
  destruct (Minimatch.NoNegate options); [reflexivity |].
  destruct (Minimatch.stripBangs false (String c rest)); reflexivity.
Qed.

Lemma first_byte (s : string) (p : ascii) :
  Go.HasPrefix s (String p EmptyString) = false ->
  match s with String c _ => Ascii.eqb c p = false | EmptyString => True end.
Proof.
  destruct s as [|c s]; [easy |]. unfold Go.HasPrefix. cbn [String.prefix].
  destruct (ascii_dec p c) as [<- | Hne].
  - now rewrite prefix_nil.
  - intros _. apply Ascii.eqb_neq. congruence.
Qed.

(** X17. Two [!] at the head of a pattern cancel each other: when negation
    is on, [!!G] matches the paths that [G] matches, for a pattern [G]
    without leading white space (in the sense of [unicode.IsSpace], which
    is what [strings.TrimSpace] trims) that is neither blank nor a
    comment. *)
Theorem double_negation (G P : string) (options : Minimatch.Options) :
  Go.trimLeftSpace G = G ->
  Go.isEmpty (Go.TrimSpace G) = false ->
  Go.HasPrefix (Go.TrimSpace G) "#" = false \/ Minimatch.NoComment options = true ->
  Minimatch.NoNegate options = false ->
  MatchString P ("!!" +:+ G) options = MatchString P G options.
Proof.
  intros Hlead Hne Hhash Hnoneg.
  unfold Minimatch.MatchString, Minimatch.NewMinimatch.
  change ("!!" +:+ G) with (String "!" (String "!" G)).
  rewrite TrimSpace_bang by apply trimLeftSpace_bang.
  rewrite TrimSpace_bang by exact Hlead.
  destruct (Go.TrimSpace G) as [|c rest]; [discriminate |].
  rewrite !make_glob.
  - cbv zeta. unfold Minimatch.parseNegate.
    cbn [Minimatch.options Minimatch.pattern Minimatch.negate]. rewrite Hnoneg.
    reflexivity.
  - destruct Hhash as [Hhash | Hnc]; [left | now right].
    exact (first_byte _ _ Hhash).
  - now left.
Qed.

Lemma matchSet_flipped (m m' : Minimatch.matcher Regexp) (fparts : list string)
    (filename : string) (partial : bool) (rows : list (list (Minimatch.part Regexp))) :
  Minimatch.options Regexp m' = Minimatch.options Regexp m ->
  Minimatch.FlipNegate (Minimatch.options Regexp m) = true ->
  Minimatch.matchSet Regexp reMatchString m' fparts filename partial rows
  = Minimatch.matchSet Regexp reMatchString m fparts filename partial rows.
Proof.
  intros Hopt Hflip.
  induction rows as [|row rows IH]; cbn [Minimatch.matchSet]; rewrite Hopt, Hflip;
    [reflexivity |].
  destruct (Minimatch.matchOne _ _ _ _ _ _) as [[|]| |]; cbn; (reflexivity || exact IH).
Qed.

(** X18. With [FlipNegate] set (and negation on), a [!] at the head of a
    pattern changes nothing: [!G] matches the paths that [G] matches, for
    a pattern [G] without leading white space (in the sense of
    [unicode.IsSpace], which is what [strings.TrimSpace] trims) that is
    neither blank nor a comment. *)
Theorem flipped_negation (G P : string) (options : Minimatch.Options) :
  Go.trimLeftSpace G = G ->
  Go.isEmpty (Go.TrimSpace G) = false ->
  Go.HasPrefix (Go.TrimSpace G) "#" = false \/ Minimatch.NoComment options = true ->
  Minimatch.NoNegate options = false ->
  Minimatch.FlipNegate options = true ->
  MatchString P ("!" +:+ G) options = MatchString P G options.
Proof.
  intros Hlead Hne Hhash Hnoneg Hflip.
  unfold Minimatch.MatchString, Minimatch.NewMinimatch.
  change ("!" +:+ G) with (String "!" G).
  rewrite TrimSpace_bang by exact Hlead.
  destruct (Go.TrimSpace G) as [|c rest]; [discriminate |].
  rewrite !make_glob.
  - cbv zeta. unfold Minimatch.parseNegate.
    cbn [Minimatch.options Minimatch.pattern Minimatch.negate]. rewrite Hnoneg.
    rewrite stripBangs_bang, stripBangs_negb.
    destruct (Minimatch.stripBangs false (String c rest)) as [negate pattern].
    cbn [fst snd]. unfold Minimatch.braceExpand.
    cbn [Minimatch.options Minimatch.pattern Minimatch.negate].
    match goal with |- context [if ?b then Ret [pattern] else ?e] =>
      destruct (if b then Ret [pattern] else e) as [globSet| |] end; try reflexivity.
    cbn [mbind run_bind].
    destruct (Minimatch.makeSet _ _ _ _ _) as [rows| |]; try reflexivity.
    cbn [mbind run_bind]. unfold Minimatch.Match.
    cbn [Minimatch.Comment Minimatch.Empty Minimatch.set].
    destruct (String.eqb P "/" && false); [reflexivity |].
    now apply matchSet_flipped.
  - destruct Hhash as [Hhash | Hnc]; [left | now right].
    exact (first_byte _ _ Hhash).
  - now left.
Qed.

(** ** Lists *)

Lemma matchItems_sublist (mm : Minimatch.matcher Regexp) (items result : list string) :
  matchItems mm items = Ret result ->
  result = List.filter (fun item => Globs.saysYes (Match mm item false)) items
  /\ Forall (fun item => exists hit, Match mm item false = Ret hit) items.
Proof.
  revert result. induction items as [|item rest IH]; intros result; cbn [Minimatch.matchItems].
  - intros [= <-]. split; [reflexivity | constructor].
  - destruct (Match mm item false) as [hit| |] eqn:Hhit; cbn [mbind run_bind];
      try discriminate.
    destruct (matchItems mm rest) as [result'| |]; cbn [mbind run_bind]; try discriminate.
    intros [= <-]. destruct (IH result' eq_refl) as [-> Hall].
    split; [| constructor; [now exists hit | exact Hall]].
    cbn [List.filter]. rewrite Hhit. now destruct hit.
Qed.

(** X19. What the function [Match] returns is the list of the items that the
    matcher matches, in their order; or, with [NoNull] set and no item
    matched, the pattern as it was given. *)
Theorem MatchList_filters (items result : list string) (pattern : string)
    (options : Minimatch.Options) :
  MatchList items pattern options = Ret result ->
  exists mm,
    NewMinimatch pattern options = Ret mm
    /\ let hits :=
         List.filter (fun item => Globs.saysYes (Match mm item false)) items in
       result = if Minimatch.NoNull options && (List.length hits =? 0)%nat
                then [pattern] else hits.
Proof.
  unfold Minimatch.MatchList.
  destruct (NewMinimatch pattern options) as [mm| |]; cbn [mbind run_bind]; try discriminate.
  destruct (matchItems mm items) as [hits| |] eqn:Hitems; cbn [mbind run_bind];
    try discriminate.
  apply matchItems_sublist in Hitems as [-> _].
  intros H. exists mm. split; [reflexivity |]. cbv zeta.
  destruct (Minimatch.NoNull options && _); now injection H as <-.
Qed.

End MinimatchExtras.

(** The comment [#a] on the path [#a]; a pattern of two spaces on the path
    [a] and on the empty path, with comments off. *)
Lemma comment_and_blank_patterns_witness :
  Sample.literalMatchString "#a" "#a" Minimatch.zeroOptions = Ret false
  /\ Sample.literalMatchString "a" "  " Sample.noComment = Ret false
  /\ Sample.literalMatchString EmptyString "  " Sample.noComment = Ret true.
Proof.
  split; [| split].
  - apply (comment_and_blank_patterns 0 0 0 0 0 string Sample.literalMatch
             Sample.literalEmpty Sample.literalPortion "#a" "a" EmptyString
             Minimatch.zeroOptions).
    reflexivity.
  - apply (comment_and_blank_patterns 0 0 0 0 0 string Sample.literalMatch
             Sample.literalEmpty Sample.literalPortion "a" EmptyString "  "
             Sample.noComment); reflexivity.
  - apply (comment_and_blank_patterns 0 0 0 0 0 string Sample.literalMatch
             Sample.literalEmpty Sample.literalPortion EmptyString EmptyString "  "
             Sample.noComment); reflexivity.
Defined.

(** The globs [!!a] and [a] on the path [a]. *)
Lemma double_negation_witness :
  Sample.literalMatchString "a" "a" Minimatch.zeroOptions = Ret true
  /\ Sample.literalMatchString "a" "!!a" Minimatch.zeroOptions
     = Sample.literalMatchString "a" "a" Minimatch.zeroOptions.
Proof.
  split; [reflexivity |].
  apply (double_negation 0 0 0 0 0 string Sample.literalMatch Sample.literalEmpty
           Sample.literalPortion "a" "a" Minimatch.zeroOptions);
    solve [ reflexivity | left; reflexivity ].
Defined.

(** The globs [!a] and [a] on the path [a], with [FlipNegate]. *)
Lemma flipped_negation_witness :
  Sample.literalMatchString "a" "a" Sample.flipNegate = Ret true
  /\ Sample.literalMatchString "a" "!a" Sample.flipNegate
     = Sample.literalMatchString "a" "a" Sample.flipNegate.
Proof.
  split; [reflexivity |].
  apply (flipped_negation 0 0 0 0 0 string Sample.literalMatch Sample.literalEmpty
           Sample.literalPortion "a" "a" Sample.flipNegate);
    solve [ reflexivity | left; reflexivity ].
Defined.

(** The paths [a], [b], [a] against the glob [a]; no path against [c], with
    [NoNull]. *)
Lemma MatchList_filters_witness :
  Sample.literalMatchList ["a"; "b"; "a"] "a" Minimatch.zeroOptions = Ret ["a"; "a"]
  /\ Sample.literalMatchList ["a"; "b"] " c" Sample.noNull = Ret [" c"]
  /\ exists mm,
       Minimatch.NewMinimatch 0 0 0 0 0 string Sample.literalEmpty Sample.literalPortion
         "a" Minimatch.zeroOptions = Ret mm
       /\ ["a"; "a"]
          = List.filter
              (fun item => Globs.saysYes (Minimatch.Match string Sample.literalMatch mm item false))
              ["a"; "b"; "a"].
Proof.
  split; [reflexivity | split; [reflexivity |]].
  apply (MatchList_filters 0 0 0 0 0 string Sample.literalMatch Sample.literalEmpty
           Sample.literalPortion ["a"; "b"; "a"] ["a"; "a"] "a" Minimatch.zeroOptions).
  reflexivity.
Defined.

(* ================================================================== *)
(** * Reverse proxy: the headers that are copied                       *)
(* ================================================================== *)

Section ProxyExtras.
Import Http Headers.

Variable NewRequestOk : string -> string -> bool.
Variable Do : Proxy.Upstream -> option Proxy.UpstreamResponse.

Lemma foldl_Add (dst : Header) (k k' : string) (vv : list string) :
  Go.CanonicalMIMEHeaderKey k = k ->
  foldl (fun d v => Add d k v) dst vv !! k'
  = if decide (k' = k)
    then match vv with
         | [] => dst !! k
         | _ => Some (default [] (dst !! k) ++ vv)
         end
    else dst !! k'.
Proof.
  intros Hk. revert dst. induction vv as [|v vv IH]; intros dst; cbn [foldl].
  - now destruct (decide (k' = k)) as [-> |].
  - rewrite IH. unfold Add. rewrite Hk.
    destruct (decide (k' = k)) as [-> | Hne].
    + rewrite lookup_insert_eq. cbn [default].
      destruct vv; [reflexivity |]. unfold id. now rewrite <- List.app_assoc.
    + now rewrite lookup_insert_ne by congruence.
Qed.

(** [copyHeader] adds the values of every header of [src] that is not to
    be omitted to those that [dst] has, and leaves the other headers of
    [dst] as they are. *)
Lemma copyHeader_lookup (dst src : Header) (omit : gset string) (k : string) :
  canonicalKeys src ->
  Proxy.copyHeader dst src omit !! k
  = if decide (k ∈ omit) then dst !! k else added dst src k.
Proof.
  unfold Proxy.copyHeader, added. revert k.
  apply (map_fold_weak_ind
           (fun r m => forall k, canonicalKeys m ->
              r !! k = if decide (k ∈ omit) then dst !! k
                       else match m !! k with
                            | Some (v :: vs) => Some (default [] (dst !! k) ++ v :: vs)
                            | _ => dst !! k
                            end)).
  - intros k _. rewrite lookup_empty. now destruct (decide (k ∈ omit)).
  - intros i x m r Hi IH k Hcanon.
    assert (Hm : canonicalKeys m).
    { intros j vv Hj. apply (Hcanon j vv).
      rewrite lookup_insert_ne; [exact Hj | congruence]. }
    assert (Hci : Go.CanonicalMIMEHeaderKey i = i).
    { apply (Hcanon i x). apply lookup_insert_eq. }
    specialize (IH k Hm).
    destruct (decide (i ∈ omit)) as [Hio | Hio].
    + rewrite IH. destruct (decide (k ∈ omit)); [reflexivity |].
      rewrite lookup_insert_ne by congruence. reflexivity.
    + rewrite foldl_Add by exact Hci.
      destruct (decide (k = i)) as [-> | Hne].
      * rewrite lookup_insert_eq. specialize (IH). rewrite decide_False in * by exact Hio.
        rewrite Hi in IH. rewrite IH. now destruct x.
      * rewrite lookup_insert_ne by congruence. exact IH.
Qed.

(** X20. The response of the upstream is passed on with its status and its
    body; its headers are added to those of the response, but for the
    hop-by-hop headers, which stay as they were. *)
Theorem proxy_response (remote : string) (urlParams : list (string * string))
    (wr : ResponseWriter) (req : Request) (newreq : Proxy.Upstream)
    (resp : Proxy.UpstreamResponse) :
  Proxy.upstreamRequest NewRequestOk remote urlParams req = Some newreq ->
  Do newreq = Some resp ->
  canonicalKeys (Proxy.UpRespHeader resp) ->
  Status wr = None ->
  let out := fst (Proxy.ServeHTTP NewRequestOk Do remote urlParams wr req) in
  Status out = Some (Proxy.UpStatus resp)
  /\ Written out = Written wr +:+ Proxy.UpRespBody resp
  /\ forall k,
       RespHeader out !! k
       = if decide (k ∈ Proxy.hopHeaders) then RespHeader wr !! k
         else added (RespHeader wr) (Proxy.UpRespHeader resp) k.
Proof.
  intros Hup Hdo Hcanon Hfresh out. subst out.
  unfold Proxy.ServeHTTP. rewrite Hup, Hdo.
  unfold Write, WriteHeader. cbn [fst Status withHeader Written RespHeader].
  rewrite Hfresh. cbn [Status Written RespHeader].
  split; [reflexivity | split; [reflexivity |]].
  intros k. now apply copyHeader_lookup.
Qed.

(** X21. The upstream request has the method and the body of the client's,
    every header of it with a value (hop-by-hop or not), and the client's
    address at the end of [X-Forwarded-For]. *)
Theorem upstream_request (remote : string) (urlParams : list (string * string))
    (req : Request) (clientIP port : string) :
  NewRequestOk (Method req)
    (fold_left (fun remote kv => Go.ReplaceAll remote (fst kv) (snd kv)) urlParams remote)
  = true ->
  canonicalKeys (ReqHeader req) ->
  Go.SplitHostPort (RemoteAddr req) = Some (clientIP, port) ->
  exists up,
    Proxy.upstreamRequest NewRequestOk remote urlParams req = Some up
    /\ Proxy.UpMethod up = Method req /\ Proxy.UpBody up = Body req
    /\ Proxy.UpHeader up !! "X-Forwarded-For"
       = Some [match ReqHeader req !! "X-Forwarded-For" with
               | Some (v :: vs) => Go.Join (v :: vs) ", " +:+ ", " +:+ clientIP
               | _ => clientIP
               end]
    /\ forall k, k <> "X-Forwarded-For" ->
         Proxy.UpHeader up !! k
         = match ReqHeader req !! k with
           | Some (v :: vs) => Some (v :: vs)
           | _ => None
           end.
Proof.
  intros Hok Hcanon Haddr. unfold Proxy.upstreamRequest.
  rewrite Hok, Haddr. cbn [negb]. eexists. split; [reflexivity |].
  cbn [Proxy.UpMethod Proxy.UpBody Proxy.UpHeader].
  split; [reflexivity | split; [reflexivity |]].
  assert (Hcopy : forall k, Proxy.copyHeader ∅ (ReqHeader req) ∅ !! k
                            = match ReqHeader req !! k with
                              | Some (v :: vs) => Some (v :: vs)
                              | _ => None
                              end).
  { intros k. rewrite copyHeader_lookup by exact Hcanon.
    rewrite decide_False by set_solver. unfold added. rewrite lookup_empty.
    now destruct (ReqHeader req !! k) as [[|v vs]|]. }
  unfold Proxy.appendHostToXForwardHeader, Set_.
  change (Go.CanonicalMIMEHeaderKey "X-Forwarded-For") with "X-Forwarded-For".
  split.
  - rewrite lookup_insert_eq, Hcopy.
    now destruct (ReqHeader req !! "X-Forwarded-For") as [[|v vs]|].
  - intros k Hk. rewrite lookup_insert_ne by congruence. apply Hcopy.
Qed.

End ProxyExtras.

(** Looks a key up in a header map that is written out. *)
Ltac header_cases H :=
  repeat (apply lookup_insert_Some in H as [[<- _] | [_ H]]; [reflexivity |]);
  first [ apply lookup_singleton_Some in H as [<- _]; reflexivity
        | now rewrite lookup_empty in H ].

(** The upstream answers 201 with [Connection: close]. *)
Lemma proxy_response_witness :
  Http.Status (fst (Proxy.ServeHTTP Sample.anyRequest Sample.pong "http://u/*"
                      [("*", "ping")] Http.newResponseWriter Sample.ping))
  = Some 201
  /\ Http.Written (fst (Proxy.ServeHTTP Sample.anyRequest Sample.pong "http://u/*"
                         [("*", "ping")] Http.newResponseWriter Sample.ping))
     = "pong"
  /\ forall k,
       Http.RespHeader (fst (Proxy.ServeHTTP Sample.anyRequest Sample.pong "http://u/*"
                               [("*", "ping")] Http.newResponseWriter Sample.ping)) !! k
       = if decide (k ∈ Proxy.hopHeaders) then (∅ : Http.Header) !! k
         else Headers.added ∅ {[ "Connection" := ["close"];
                                 "Content-Type" := ["text/plain"] ]} k.
Proof.
  refine (proxy_response Sample.anyRequest Sample.pong "http://u/*" [("*", "ping")]
            Http.newResponseWriter Sample.ping _ _ eq_refl eq_refl _ eq_refl).
  intros k vv H. cbn in H. header_cases H.
Defined.

(** The request of the sample, from [10.0.0.1:4711]. *)
Lemma upstream_request_witness :
  exists up,
    Proxy.upstreamRequest Sample.anyRequest "http://u/*" [("*", "ping")] Sample.ping
    = Some up
    /\ Proxy.UpMethod up = "GET" /\ Proxy.UpBody up = "ping"
    /\ Proxy.UpHeader up !! "X-Forwarded-For" = Some ["192.0.2.1, 10.0.0.1"]
    /\ forall k, k <> "X-Forwarded-For" ->
         Proxy.UpHeader up !! k
         = match Http.ReqHeader Sample.ping !! k with
           | Some (v :: vs) => Some (v :: vs)
           | _ => None
           end.
Proof.
  refine (upstream_request Sample.anyRequest "http://u/*" [("*", "ping")] Sample.ping
            "10.0.0.1" "4711" eq_refl _ eq_refl).
  intros k vv H. cbn in H. header_cases H.
Defined.

(* ================================================================== *)
(** * Balanced match                                                   *)
(* ================================================================== *)

Section IndexFacts.
Import Balanced.

Lemma Index_unfold (s sub : string) :
  Go.Index s sub
  = if String.prefix sub s then Some O
    else match s with
         | EmptyString => None
         | String _ s' => option_map S (Go.Index s' sub)
         end.
Proof. destruct s; reflexivity. Qed.

Lemma Index_Some (s sub : string) (n : nat) :
  Go.Index s sub = Some n ->
  String.prefix sub (Go.drop n s) = true
  /\ (n + String.length sub <= String.length s)%nat.
Proof.
  revert n. induction s as [|c s IH]; intros n; rewrite Index_unfold.
  - destruct (String.prefix sub EmptyString) eqn:Hp; [| discriminate].
    intros [= <-]. split; [exact Hp |]. apply prefix_length in Hp. cbn in *. lia.
  - destruct (String.prefix sub (String c s)) eqn:Hp.
    + intros [= <-]. split; [exact Hp |]. apply prefix_length in Hp. cbn in *. lia.
    + destruct (Go.Index s sub) as [k|]; [| discriminate]. intros [= <-].
      destruct (IH k eq_refl) as [H1 H2]. split; [exact H1 | cbn; lia].
Qed.

Lemma Index_None_drop (s sub : string) (n : nat) :
  Go.Index s sub = None -> Go.Index (Go.drop n s) sub = None.
Proof.
  revert s. induction n as [|n IH]; intros s H; [now destruct s |].
  destruct s as [|c s]; [exact H |]. cbn [Go.drop]. apply IH.
  rewrite Index_unfold in H. destruct (String.prefix sub (String c s)); [discriminate |].
  now destruct (Go.Index s sub).
Qed.

Lemma drop_drop (m n : nat) (s : string) :
  Go.drop n (Go.drop m s) = Go.drop (m + n) s.
Proof.
  revert s. induction m as [|m IH]; intros s; [now destruct s |].
  destruct s as [|c s]; [now destruct n |]. cbn [Go.drop Nat.add]. apply IH.
Qed.

Lemma take_drop (n : nat) (s : string) : Go.take n s +:+ Go.drop n s = s.
Proof.
  revert s. induction n as [|n IH]; intros [|c s]; cbn [Go.take Go.drop]; sstep;
    try reflexivity.
  now rewrite IH.
Qed.

Lemma indexOf_found (str x : string) (offset : Z) :
  Go.isEmpty x = false -> 0 <= offset ->
  Minimatch.indexOf str x offset = -1
  \/ (offset <= Minimatch.indexOf str x offset
      /\ occurs x str (Minimatch.indexOf str x offset)).
Proof.
  intros Hx Hoff. unfold Minimatch.indexOf.
  destruct (Go.Index _ x) as [n|] eqn:E; [right | now left].
  apply Index_Some in E as [Hp Hlen]. rewrite drop_drop in Hp.
  rewrite length_drop in Hlen.
  assert (0 < String.length x)%nat by (destruct x; [discriminate | cbn; lia]).
  split; [lia |]. unfold occurs. split; [lia |]. split; [| lia].
  replace (Z.to_nat (Z.of_nat n + offset)) with (Z.to_nat offset + n)%nat by lia.
  exact Hp.
Qed.

Lemma indexOf_missing (str x : string) (offset : Z) :
  Go.Index str x = None -> Minimatch.indexOf str x offset = -1.
Proof.
  intros H. unfold Minimatch.indexOf. now rewrite Index_None_drop.
Qed.

Lemma prefix_common (a b s : string) :
  String.prefix a s = true -> String.prefix b s = true ->
  String.prefix a b = true \/ String.prefix b a = true.
Proof.
  revert b s. induction a as [|x a IH]; intros b s Ha Hb.
  - left. apply prefix_nil.
  - destruct b as [|y b]; [right; apply prefix_nil |].
    destruct s as [|z s]; [discriminate |]. cbn [String.prefix] in *.
    destruct (ascii_dec x z) as [<- |]; [| discriminate].
    destruct (ascii_dec y x) as [-> |]; [| discriminate].
    destruct (ascii_dec x x); [| congruence]. now apply (IH b s).
Qed.

Lemma occurs_apart (a b str : string) (i : Z) :
  String.prefix a b = false -> String.prefix b a = false ->
  occurs a str i -> occurs b str i -> False.
Proof.
  intros Hab Hba (_ & Ha & _) (_ & Hb & _).
  destruct (prefix_common _ _ _ Ha Hb); congruence.
Qed.

Lemma occurs_inside (x str : string) (i : Z) :
  Go.isEmpty x = false -> occurs x str i -> i < Z.of_nat (String.length str).
Proof.
  intros Hx (_ & _ & H). destruct x; [discriminate |]. cbn [String.length] in H. lia.
Qed.

Lemma occurs_split (x str : string) (i : Z) :
  occurs x str i ->
  Go.drop (Z.to_nat i) str
  = x +:+ Go.drop (Z.to_nat (i + Z.of_nat (String.length x))) str.
Proof.
  intros (Hi & Hp & _). rewrite (prefix_split _ _ Hp) at 1. f_equal.
  rewrite drop_drop. f_equal. lia.
Qed.

Lemma last_Forall {A : Type} (P : A -> Prop) (l : list A) (x : A) :
  Forall P l -> last l = Some x -> P x.
Proof.
  intros Hl Hx. apply last_Some in Hx as [l' ->].
  apply Forall_app in Hl as [_ Hl]. now inversion Hl.
Qed.

Lemma removelast_Forall {A : Type} (P : A -> Prop) (l : list A) :
  Forall P l -> Forall P (removelast l).
Proof.
  induction 1 as [|x l Hx Hl IH]; [constructor |].
  cbn [removelast]. destruct l; [constructor | now constructor].
Qed.

End IndexFacts.

(** The position that the loop of [balanceMatchRange] moves to. *)
Lemma next_position (x y i : Z) :
  x = -1 \/ i < x -> y = -1 \/ i < y -> 0 <= i ->
  let i' := if (x <? y) && (x >=? 0) then x else y in
  (i' = -1 \/ (i < i' /\ 0 <= i')) /\ (i' = x \/ i' = y)
  /\ (x = -1 \/ i' <= x) /\ (y = -1 \/ i' <= y) /\ (0 <= y -> 0 <= i').
Proof.
  intros Hx Hy Hi. cbv zeta. rewrite Z.geb_leb.
  destruct (Z.ltb_spec x y), (Z.leb_spec 0 x); cbn [andb]; lia.
Qed.

Section BalancedFacts.
Import Balanced.

Variables a b str : string.
Hypothesis Hab : String.prefix a b = false.
Hypothesis Hba : String.prefix b a = false.

Local Abbreviation len := (Z.of_nat (String.length str)).
Local Abbreviation occursA := (occurs a str).
Local Abbreviation occursB := (occurs b str).

Lemma delimiters_not_empty : Go.isEmpty a = false /\ Go.isEmpty b = false.
Proof.
  split.
  - destruct a; [| reflexivity]. now rewrite prefix_nil in Hab.
  - destruct b; [| reflexivity]. now rewrite prefix_nil in Hba.
Qed.

(** The loop of [balanceMatchRange] returns, and what it returns are
    positions of the delimiters, an opening one before a closing one. *)
Lemma balanceLoop_returns (fuel : nat) (ai bi i : Z) (begs : list Z) (left_ right_ : Z) :
  (ai = -1 \/ (occursA ai /\ i <= ai)) ->
  (bi = -1 \/ (occursB bi /\ i <= bi)) ->
  (i = -1 \/ (0 <= i /\ (i = ai \/ i = bi))) ->
  Forall (fun g => occursA g /\ (0 <= i -> g < i)) begs ->
  (begs <> [] \/ i = ai) ->
  ((occursA left_ /\ occursB right_ /\ left_ < right_)
   \/ (left_ = len /\ right_ = 0 /\ 0 <= bi /\ 0 <= i)) ->
  Z.of_nat fuel > (if i <? 0 then 0 else len - i) ->
  exists result begs' left' right',
    Minimatch.balanceLoop fuel a b str ai bi i begs left_ right_
    = Ret (result, begs', left', right')
    /\ (forall s e, result = Some (s, e) ->
          begs' = [] /\ occursA s /\ occursB e /\ s < e)
    /\ (result = None -> occursA left' /\ occursB right' /\ left' < right').
Proof.
  destruct delimiters_not_empty as [Hane Hbne].
  revert ai bi i begs left_ right_.
  induction fuel as [|fuel IH]; intros ai bi i begs left_ right_ Hai Hbi Hi Hbegs Hne Hlr Hfuel.
  { exfalso. destruct (i <? 0) eqn:E; [lia |]. apply Z.ltb_ge in E.
    destruct Hi as [-> | [_ [-> | ->]]]; [lia | |].
    - destruct Hai as [-> | [Ho _]]; [lia |].
      pose proof (occurs_inside _ _ _ Hane Ho). lia.
    - destruct Hbi as [-> | [Ho _]]; [lia |].
      pose proof (occurs_inside _ _ _ Hbne Ho). lia. }
  cbn [Minimatch.balanceLoop].
  destruct (i <? 0) eqn:Hneg.
  { apply Z.ltb_lt in Hneg. eexists _, _, _, _. split; [reflexivity |].
    split; [discriminate |]. intros _.
    destruct Hlr as [H | (_ & _ & _ & H)]; [exact H | lia]. }
  apply Z.ltb_ge in Hneg.
  destruct Hi as [-> | [_ Hi]]; [lia |].
  destruct (i =? ai) eqn:Hpush.
  - (* an opening delimiter at [i] *)
    apply Z.eqb_eq in Hpush. subst ai.
    destruct Hai as [-> | [HoA _]]; [lia |].
    assert (Hin : i < len) by exact (occurs_inside a str i Hane HoA).
    assert (Hbi' : bi = -1 \/ (occursB bi /\ i < bi)).
    { destruct Hbi as [-> | [HoB Hle]]; [now left | right].
      split; [exact HoB |]. destruct (Z.eq_dec bi i) as [-> |]; [| lia].
      exfalso. exact (occurs_apart a b str i Hab Hba HoA HoB). }
    pose proof (indexOf_found str a (i + 1) Hane ltac:(lia)) as Hnext.
    set (ai' := Minimatch.indexOf str a (i + 1)) in *.
    assert (Hx : ai' = -1 \/ i < ai')
      by (destruct Hnext as [-> | [? _]]; [now left | right; lia]).
    assert (Hy : bi = -1 \/ i < bi)
      by (destruct Hbi' as [-> | [_ ?]]; [now left | now right]).
    destruct (next_position ai' bi i Hx Hy Hneg) as (E1 & E2 & E3 & E4 & E5).
    set (i' := if (ai' <? bi) && (ai' >=? 0) then ai' else bi) in *.
    apply IH.
    + destruct Hnext as [-> | [_ Ho]]; [now left | right].
      split; [exact Ho |]. destruct E3 as [E3 | E3]; [| exact E3].
      destruct Ho as [? _]. lia.
    + destruct Hbi' as [-> | [Ho _]]; [now left | right].
      split; [exact Ho |]. destruct E4 as [E4 | E4]; [| exact E4].
      destruct Ho as [? _]. lia.
    + destruct E1 as [-> | [_ ?]]; [now left | right]. now split.
    + apply Forall_app. split.
      * eapply List.Forall_impl; [| exact Hbegs]. cbn. intros g [Hg Hlt].
        split; [exact Hg |]. intros Hi'. specialize (Hlt Hneg). lia.
      * constructor; [| constructor]. split; [exact HoA | lia].
    + left. now destruct begs.
    + destruct Hlr as [H | (H1 & H2 & H3 & _)]; [now left | right].
      repeat split; try assumption. now apply E5.
    + destruct E1 as [-> | [? ?]]; [cbn; lia |].
      replace (i' <? 0) with false by (symmetry; apply Z.ltb_ge; lia). lia.
  - (* a closing delimiter at [i] *)
    apply Z.eqb_neq in Hpush.
    destruct Hi as [-> | ->]; [congruence |].
    destruct Hbi as [-> | [HoB _]]; [lia |].
    assert (Hin : bi < len) by exact (occurs_inside b str bi Hbne HoB).
    destruct Hne as [Hne | ->]; [| congruence].
    destruct begs as [|g1 [|g2 rest]]; [congruence | |].
    + (* the pair is complete *)
      eexists _, _, _, _. split; [reflexivity |].
      split; [| discriminate]. intros s e [= <- <-].
      inversion Hbegs as [|? ? [Hg Hlt] _]; subst.
      split; [reflexivity |]. split; [exact Hg |]. split; [exact HoB | now apply Hlt].
    + set (begs := g1 :: g2 :: rest) in *.
      assert (Hsome : is_Some (last begs)) by (apply last_is_Some; exact Hne).
      destruct Hsome as [beg Hlast]. rewrite Hlast.
      destruct (last_Forall _ _ _ Hbegs Hlast) as [Hbeg Hblt].
      specialize (Hblt Hneg).
      assert (Hai' : ai = -1 \/ (occursA ai /\ bi < ai)).
      { destruct Hai as [-> | [HoA Hle]]; [now left | right].
        split; [exact HoA | lia]. }
      set (lr := if beg <? left_ then (beg, bi) else (left_, right_)).
      assert (Hlr' : occursA (fst lr) /\ occursB (snd lr) /\ fst lr < snd lr).
      { subst lr. destruct (beg <? left_) eqn:E; cbn [fst snd].
        - split; [exact Hbeg | split; [exact HoB | exact Hblt]].
        - apply Z.ltb_ge in E. destruct Hlr as [H | (-> & _)]; [exact H |].
          pose proof (occurs_inside _ _ _ Hane Hbeg). lia. }
      destruct lr as [left' right'] eqn:Elr. cbn [fst snd] in Hlr'.
      pose proof (indexOf_found str b (bi + 1) Hbne ltac:(lia)) as Hnext.
      set (bi' := Minimatch.indexOf str b (bi + 1)) in *.
      assert (Hx : ai = -1 \/ bi < ai)
        by (destruct Hai' as [-> | [_ ?]]; [now left | now right]).
      assert (Hy : bi' = -1 \/ bi < bi')
        by (destruct Hnext as [-> | [? _]]; [now left | right; lia]).
      destruct (next_position ai bi' bi Hx Hy Hneg) as (E1 & E2 & E3 & E4 & _).
      set (i' := if (ai <? bi') && (ai >=? 0) then ai else bi') in *.
      apply IH.
      * destruct Hai' as [-> | [Ho _]]; [now left | right].
        split; [exact Ho |]. destruct E3 as [E3 | E3]; [| exact E3].
        destruct Ho as [? _]. lia.
      * destruct Hnext as [-> | [_ Ho]]; [now left | right].
        split; [exact Ho |]. destruct E4 as [E4 | E4]; [| exact E4].
        destruct Ho as [? _]. lia.
      * destruct E1 as [-> | [_ ?]]; [now left | right]. now split.
      * apply removelast_Forall. eapply List.Forall_impl; [| exact Hbegs].
        cbn. intros g [Hg Hlt]. split; [exact Hg |]. intros Hi'.
        specialize (Hlt Hneg). lia.
      * left. subst begs. cbn. now destruct rest.
      * now left.
      * destruct E1 as [-> | [? ?]]; [cbn; lia |].
        replace (i' <? 0) with false by (symmetry; apply Z.ltb_ge; lia). lia.
Qed.

Lemma balanceMatchRange_returns :
  exists r,
    Minimatch.balanceMatchRange a b str = Ret r
    /\ forall s e, r = Some (s, e) -> occursA s /\ occursB e /\ s < e.
Proof.
  destruct delimiters_not_empty as [Hane Hbne].
  unfold Minimatch.balanceMatchRange.
  pose proof (indexOf_found str a 0 Hane ltac:(lia)) as Ha.
  set (ai := Minimatch.indexOf str a 0) in *.
  destruct (ai >=? 0) eqn:Hai0; cbn [andb];
    [| exists None; split; [reflexivity | discriminate]].
  rewrite Z.geb_leb in Hai0. apply Z.leb_le in Hai0.
  destruct Ha as [Ha | [_ HoA]]; [lia |].
  pose proof (indexOf_found str b (ai + 1) Hbne ltac:(lia)) as Hb.
  set (bi := Minimatch.indexOf str b (ai + 1)) in *.
  destruct (bi >? 0) eqn:Hbi0; [| exists None; split; [reflexivity | discriminate]].
  rewrite Z.gtb_ltb in Hbi0. apply Z.ltb_lt in Hbi0.
  destruct Hb as [Hb | [Hle HoB]]; [lia |].
  destruct (balanceLoop_returns (S (String.length str)) ai bi ai [] len 0)
    as (result & begs & left_ & right_ & -> & Hsome & Hnone).
  - right. split; [exact HoA | lia].
  - right. split; [exact HoB | lia].
  - right. split; [lia | now left].
  - constructor.
  - now right.
  - right. repeat split; lia.
  - replace (ai <? 0) with false by (symmetry; apply Z.ltb_ge; lia). lia.
  - cbn [mbind run_bind].
    destruct result as [[s e]|].
    + destruct (Hsome s e eq_refl) as (-> & H). cbn [List.length Nat.eqb negb].
      eexists. split; [reflexivity |]. now intros s' e' [= <- <-].
    + destruct (negb (List.length begs =? 0)%nat).
      * eexists. split; [reflexivity |]. intros s e [= <- <-]. now apply Hnone.
      * exists None. split; [reflexivity | discriminate].
Qed.

(** The shape of what [BalancedMatch] returns. *)
Lemma BalancedMatch_shape :
  exists r,
    Minimatch.BalancedMatch a b str = Ret r
    /\ forall m, r = Some m ->
         Minimatch.Start m < Minimatch.End_ m
         /\ Z.of_nat (String.length (Minimatch.Pre m)) = Minimatch.Start m
         /\ (Minimatch.Start m + Z.of_nat (String.length a) <= Minimatch.End_ m ->
             str = Minimatch.Pre m +:+ a +:+ Minimatch.Body m +:+ b +:+ Minimatch.Post m
             /\ Minimatch.End_ m
                = Minimatch.Start m + Z.of_nat (String.length a)
                  + Z.of_nat (String.length (Minimatch.Body m))).
Proof.
  destruct delimiters_not_empty as [Hane Hbne].
  unfold Minimatch.BalancedMatch.
  destruct balanceMatchRange_returns as (r & -> & Hr). cbn [mbind run_bind].
  destruct r as [[s e]|]; [| exists None; split; [reflexivity | discriminate]].
  destruct (Hr s e eq_refl) as (HoA & HoB & Hlt).
  eexists. split; [reflexivity |]. intros m [= <-].
  cbn [Minimatch.Start Minimatch.End_ Minimatch.Pre Minimatch.Body Minimatch.Post].
  pose proof (occurs_inside _ _ _ Hane HoA) as Hs.
  pose proof HoA as (Hs0 & _ & HsA). pose proof HoB as (He0 & _ & HeB).
  split; [exact Hlt |]. split; [rewrite length_take; lia |].
  intros Hfar.
  replace (s + Z.of_nat (String.length a) >? e) with false
    by (symmetry; rewrite Z.gtb_ltb; apply Z.ltb_ge; lia).
  replace (e + Z.of_nat (String.length b) >? len) with false
    by (symmetry; rewrite Z.gtb_ltb; apply Z.ltb_ge; lia).
  split; [| rewrite length_take, length_drop; lia].
  rewrite <- (take_drop (Z.to_nat s) str) at 1. f_equal.
  rewrite (occurs_split _ _ _ HoA). f_equal.
  set (from := Z.to_nat (s + Z.of_nat (String.length a))).
  set (n := Z.to_nat (e - (s + Z.of_nat (String.length a)))).
  rewrite <- (take_drop n (Go.drop from str)) at 1. f_equal.
  rewrite drop_drop. replace (from + n)%nat with (Z.to_nat e) by lia.
  apply (occurs_split _ _ _ HoB).
Qed.

(** X22. [BalancedMatch] returns: it neither panics nor goes on for ever.  In
    what it finds, [Start] is before [End] and the length of [Pre] is
    [Start]; when the opening delimiter ends at or before [End], the
    string is made of [Pre], the opening delimiter, [Body], the closing
    delimiter and [Post], in this order. *)
Theorem BalancedMatch_splits :
  exists r,
    Minimatch.BalancedMatch a b str = Ret r
    /\ forall m, r = Some m ->
         Minimatch.Start m < Minimatch.End_ m
         /\ Z.of_nat (String.length (Minimatch.Pre m)) = Minimatch.Start m
         /\ (Minimatch.Start m + Z.of_nat (String.length a) <= Minimatch.End_ m ->
             str = Minimatch.Pre m +:+ a +:+ Minimatch.Body m +:+ b +:+ Minimatch.Post m
             /\ Minimatch.End_ m
                = Minimatch.Start m + Z.of_nat (String.length a)
                  + Z.of_nat (String.length (Minimatch.Body m))).
Proof. exact BalancedMatch_shape. Qed.

End BalancedFacts.

(** Without an opening or without a closing delimiter in the string,
    [BalancedMatch] returns its error. *)
Lemma BalancedMatch_no_match (a b str : string) :
  Go.Index str a = None \/ Go.Index str b = None ->
  Minimatch.BalancedMatch a b str = Ret None.
Proof.
  intros H. unfold Minimatch.BalancedMatch, Minimatch.balanceMatchRange.
  destruct H as [H | H].
  - rewrite (indexOf_missing str a 0 H). reflexivity.
  - rewrite (indexOf_missing str b _ H). now rewrite andb_false_r.
Qed.

(** The first test of [balanced_test.go]. *)
Lemma BalancedMatch_splits_witness :
  Minimatch.BalancedMatch "{" "}" "pre{in{nest}}post"
  = Ret (Some {| Minimatch.Start := 3; Minimatch.End_ := 12; Minimatch.Pre := "pre";
                 Minimatch.Body := "in{nest}"; Minimatch.Post := "post" |})
  /\ "pre{in{nest}}post" = "pre" +:+ "{" +:+ "in{nest}" +:+ "}" +:+ "post".
Proof.
  split; [reflexivity |].
  destruct (BalancedMatch_splits "{" "}" "pre{in{nest}}post" eq_refl eq_refl)
    as (r & Hr & Hm).
  vm_compute in Hr. injection Hr as <-.
  destruct (Hm _ eq_refl) as (_ & _ & Hsplit).
  destruct Hsplit as [Hstr _]; [vm_compute; discriminate |]. exact Hstr.
Defined.

(* ================================================================== *)
(** * Brace expansion: comma parts, patterns without braces            *)
(* ================================================================== *)

Section BraceExtras.

Variables rSlash rOpen rClose rComma rPeriod : Z.

(** ** Splitting and joining *)

Lemma Join_SplitByte (sep : ascii) (s : string) :
  Go.Join (Go.SplitByte sep s) (String sep EmptyString) = s.
Proof.
  induction s as [|c s IH]; [reflexivity |]. cbn [Go.SplitByte].
  pose proof (SplitByte_not_nil sep s) as Hne.
  destruct (Ascii.eqb_spec c sep) as [-> | Hc].
  - rewrite Join_cons by exact Hne. now rewrite IH.
  - destruct (Go.SplitByte sep s) as [|x xs]; [congruence |].
    destruct xs as [|y l].
    + cbn in IH |- *. now rewrite IH.
    + rewrite Join_cons in IH |- * by discriminate.
      rewrite append_cons. now rewrite IH.
Qed.

Lemma removelast_snoc_not_nil {A : Type} (l : list A) (x : A) : removelast l ++ [x] <> [].
Proof. now destruct (removelast l). Qed.

Lemma Join_last_append (p : list string) (x sep : string) :
  p <> [] ->
  Go.Join (removelast p ++ [default EmptyString (last p) +:+ x]) sep = Go.Join p sep +:+ x.
Proof.
  induction p as [|y p IH]; [congruence |]. intros _.
  destruct p as [|z p]; [reflexivity |].
  change (removelast (y :: z :: p)) with (y :: removelast (z :: p)).
  change (last (y :: z :: p)) with (last (z :: p)).
  change ((y :: removelast (z :: p)) ++ [default EmptyString (last (z :: p)) +:+ x])
    with (y :: (removelast (z :: p) ++ [default EmptyString (last (z :: p)) +:+ x])).
  rewrite Join_cons by apply removelast_snoc_not_nil.
  rewrite IH by discriminate.
  rewrite (Join_cons y (z :: p)) by discriminate.
  now rewrite !append_assoc.
Qed.

Lemma Join_app (p q : list string) (sep : string) :
  p <> [] -> q <> [] ->
  Go.Join (p ++ q) sep = Go.Join p sep +:+ sep +:+ Go.Join q sep.
Proof.
  induction p as [|y p IH]; [congruence |]. intros _ Hq.
  destruct p as [|z p].
  - cbn [app]. now rewrite Join_cons by exact Hq.
  - change ((y :: z :: p) ++ q) with (y :: ((z :: p) ++ q)).
    rewrite Join_cons by discriminate. rewrite IH by (discriminate || exact Hq).
    rewrite (Join_cons y (z :: p)) by discriminate.
    now rewrite !append_assoc.
Qed.

Lemma Join_glue (p rest : list string) (first sep : string) :
  p <> [] ->
  Go.Join (removelast p ++ [default EmptyString (last p) +:+ first] ++ rest) sep
  = Go.Join p sep +:+ Go.Join (first :: rest) sep.
Proof.
  intros Hp. destruct rest as [|r rest].
  - rewrite List.app_nil_r. rewrite Join_last_append by exact Hp. reflexivity.
  - rewrite List.app_assoc. rewrite Join_app by (apply removelast_snoc_not_nil || discriminate).
    rewrite Join_last_append by exact Hp.
    rewrite (Join_cons first (r :: rest)) by discriminate.
    now rewrite !append_assoc.
Qed.

(** X23. [parseCommaParts] returns, with at least one part, and the parts
    joined by commas are the string it was given: it splits at commas only
    and loses nothing. *)
Theorem parseCommaParts_round_trip (fuel : nat) (str : string) :
  (String.length str < fuel)%nat ->
  exists parts,
    Minimatch.parseCommaParts fuel str = Ret parts
    /\ parts <> [] /\ Go.Join parts "," = str.
Proof.
  revert str. induction fuel as [|fuel IH]; intros str Hfuel; [lia |].
  cbn [Minimatch.parseCommaParts].
  destruct (Go.isEmpty str) eqn:Hempty.
  { apply isEmpty_true in Hempty as ->. now exists [EmptyString]. }
  destruct (BalancedMatch_shape "{" "}" str eq_refl eq_refl) as (r & -> & Hm).
  cbn [mbind run_bind]. destruct r as [m|].
  - destruct (Hm m eq_refl) as (Hlt & Hpre & Hsplit).
    destruct Hsplit as [Hstr _]; [cbn; lia |].
    assert (Hpost : (String.length (Minimatch.Post m) < fuel)%nat).
    { apply (f_equal String.length) in Hstr. rewrite !length_append in Hstr.
      cbn [String.length] in Hstr. lia. }
    destruct (IH _ Hpost) as (postParts & -> & Hne & Hjoin).
    cbn [mbind run_bind].
    pose proof (SplitByte_not_nil "," (Minimatch.Pre m)) as Hp.
    pose proof (Join_SplitByte "," (Minimatch.Pre m)) as Hjp.
    set (p := Go.SplitByte "," (Minimatch.Pre m)) in *.
    set (group := "{" +:+ Minimatch.Body m +:+ "}").
    pose proof (removelast_snoc_not_nil p (default EmptyString (last p) +:+ group)) as Hp'.
    assert (Hjoin' : Go.Join (removelast p ++ [default EmptyString (last p) +:+ group]) ","
                     = Minimatch.Pre m +:+ group).
    { rewrite Join_last_append by exact Hp. now rewrite Hjp. }
    destruct (Go.isEmpty (Minimatch.Post m)) eqn:Hpe; cbn [negb].
    + apply isEmpty_true in Hpe. eexists. split; [reflexivity |].
      split; [exact Hp' |]. rewrite Hjoin'. rewrite Hstr, Hpe.
      subst group. now rewrite ?append_assoc, ?append_nil_r.
    + destruct postParts as [|first rest]; [congruence |].
      eexists. split; [reflexivity |]. split.
      * now destruct (removelast (removelast p ++ [default EmptyString (last p) +:+ group])).
      * rewrite Join_glue by exact Hp'. rewrite Hjoin', Hjoin.
        rewrite Hstr. subst group. now rewrite ?append_assoc.
  - eexists. split; [reflexivity |]. split; [apply SplitByte_not_nil |].
    apply Join_SplitByte.
Qed.

(** ** Patterns without braces *)

Lemma Index_absent (c : ascii) (old s : string) :
  Go.allBytes (fun x => negb (Ascii.eqb x c)) s = true ->
  Go.Index s (String c old) = None.
Proof.
  induction s as [|x s IH]; intros H; rewrite Index_unfold; [reflexivity |].
  cbn [Go.allBytes] in H. apply andb_prop in H as [Hx Hs].
  cbn [String.prefix]. destruct (ascii_dec c x) as [<- |].
  - now rewrite Ascii.eqb_refl in Hx.
  - now rewrite (IH Hs).
Qed.

Lemma splitFrom_absent (s sep : string) :
  Go.Index s sep = None -> Go.splitFrom O s sep = [s].
Proof.
  induction s as [|c s IH]; intros H; [reflexivity |].
  rewrite Index_unfold in H. cbn [Go.splitFrom].
  destruct (String.prefix sep (String c s)); [discriminate |].
  destruct (Go.Index s sep); [discriminate |]. now rewrite IH.
Qed.

Lemma swap_absent (s new : string) (c : ascii) (rest : string) :
  Go.allBytes (fun x => negb (Ascii.eqb x c)) s = true ->
  Minimatch.swap s (String c rest) new = s.
Proof.
  intros H. unfold Minimatch.swap, Go.Split.
  now rewrite splitFrom_absent by now apply Index_absent.
Qed.

(** X24. A pattern that is not empty and has no opening brace, no backslash
    and no NUL byte expands to itself alone. *)
Theorem BraceExpansion_plain (str : string) :
  Go.isEmpty str = false ->
  Go.allBytes (fun x => negb (Ascii.eqb x "{")) str = true ->
  Go.allBytes (fun x => negb (Ascii.eqb x "\")) str = true ->
  Go.allBytes (fun x => negb (Ascii.eqb x "000")) str = true ->
  Minimatch.BraceExpansion rSlash rOpen rClose rComma rPeriod str = Ret [str].
Proof.
  intros Hne Hbrace Hslash Hnul. unfold Minimatch.BraceExpansion. rewrite Hne.
  assert (Hprefix : Go.HasPrefix str "{}" = false).
  { destruct str as [|c s]; [reflexivity |]. cbn [Go.allBytes] in Hbrace.
    apply andb_prop in Hbrace as [Hc _]. unfold Go.HasPrefix. cbn [String.prefix].
    destruct (ascii_dec "{" c) as [<- |]; [discriminate | reflexivity]. }
  rewrite Hprefix.
  assert (Hesc : Minimatch.escapeBraces rSlash rOpen rClose rComma rPeriod str = str).
  { unfold Minimatch.escapeBraces.
    now rewrite !(swap_absent str _ "\" _ Hslash). }
  rewrite Hesc. cbn [Minimatch.expand].
  unfold Minimatch.BalancedMatch, Minimatch.balanceMatchRange.
  rewrite (indexOf_missing str "{" 0) by now apply Index_absent.
  cbn [mbind run_bind map Z.geb Z.compare andb]. f_equal. f_equal.
  unfold Minimatch.unescapeBraces, Minimatch.escSlash, Minimatch.escOpen,
    Minimatch.escClose, Minimatch.escComma, Minimatch.escPeriod, Minimatch.nul.
  rewrite !append_cons.
  now rewrite !(swap_absent str _ "000" _ Hnul).
Qed.

End BraceExtras.

(** The members of [a,{b,c},d]. *)
Lemma parseCommaParts_round_trip_witness :
  Minimatch.parseCommaParts 10 "a,{b,c},d" = Ret ["a"; "{b,c}"; "d"]
  /\ exists parts,
       Minimatch.parseCommaParts 10 "a,{b,c},d" = Ret parts
       /\ parts <> [] /\ Go.Join parts "," = "a,{b,c},d".
Proof.
  split; [reflexivity |].
  apply (parseCommaParts_round_trip 10 "a,{b,c},d"). cbn. lia.
Defined.

(** The pattern [file-*.jpg]. *)
Lemma BraceExpansion_plain_witness :
  Minimatch.BraceExpansion 1 2 3 4 5 "file-*.jpg" = Ret ["file-*.jpg"].
Proof. apply BraceExpansion_plain; reflexivity. Defined.

(* ================================================================== *)
(** * The file handler                                                 *)
(* ================================================================== *)

Section FileHandlerFacts.
Import Http SwHttp FileHandler Files.

Variable ParseTime : string -> option Time.
Variable FormatHTTPTime : Time -> string.
Variable TypeByExtension : string -> string.
Variable DetectContentType : string -> string.
Variable multipartBoundary : string.
Variable multipartOverhead : list httpRange -> string -> Z -> Z.
Variable multipartBody : list httpRange -> string -> Z -> string -> string.
Variable RawQuery : string.
Variable ToLower : string -> string.
Variable errorTemplate : Z -> string -> string -> string.
Variable directoryPage : Request -> File -> string -> option string.

Local Abbreviation serveContent :=
  (SwHttp.serveContent ParseTime FormatHTTPTime TypeByExtension DetectContentType
     multipartBoundary multipartOverhead multipartBody).
Local Abbreviation serveFile :=
  (FileHandler.serveFile ParseTime FormatHTTPTime TypeByExtension DetectContentType
     multipartBoundary multipartOverhead multipartBody RawQuery ToLower errorTemplate
     directoryPage).
Local Abbreviation sendErrorWith := (FileHandler.sendErrorWith ToLower errorTemplate).
Local Abbreviation ServeHTTP :=
  (FileHandler.ServeHTTP ParseTime FormatHTTPTime TypeByExtension DetectContentType
     multipartBoundary multipartOverhead multipartBody RawQuery ToLower errorTemplate
     directoryPage).
Local Abbreviation localRedirect := (FileHandler.localRedirect RawQuery).
Local Abbreviation acceptJSON := (FileHandler.acceptJSON ToLower).

(** ** A status that has been sent stays *)

Lemma WriteHeader_kept (w : ResponseWriter) (c code : Z) :
  Status w = Some c -> WriteHeader w code = w.
Proof. intros H. unfold WriteHeader. now rewrite H. Qed.

Lemma withHeader_status (w : ResponseWriter) (h : Header) :
  Status (withHeader w h) = Status w.
Proof. reflexivity. Qed.

Lemma Write_status (w : ResponseWriter) (c : Z) (p : string) :
  Status w = Some c -> Status (Write w p) = Some c.
Proof. intros H. unfold Write. now rewrite (WriteHeader_kept w c 200 H). Qed.

Lemma WriteHeader_written (w : ResponseWriter) (code : Z) :
  Written (WriteHeader w code) = Written w.
Proof. unfold WriteHeader. now destruct (Status w). Qed.

Lemma Write_written (w : ResponseWriter) (p : string) :
  Written (Write w p) = Written w +:+ p.
Proof. unfold Write. cbn [Written]. now rewrite WriteHeader_written. Qed.

Lemma CopyN_status (w : ResponseWriter) (c : Z) (content : Content) (n : Z) :
  Status w = Some c -> Status (CopyN w content n) = Some c.
Proof. intros H. unfold CopyN. destruct (n <=? 0); [exact H | now apply Write_status]. Qed.

Lemma Error_status (w : ResponseWriter) (c : Z) (msg : string) (code : Z) :
  Status w = Some c -> Status (Error w msg code) = Some c.
Proof.
  intros H. unfold Error. apply Write_status.
  rewrite (WriteHeader_kept _ c) by exact H. exact H.
Qed.

Lemma writeNotModified_status (w : ResponseWriter) (c : Z) :
  Status w = Some c -> Status (writeNotModified w) = Some c.
Proof.
  intros H. unfold writeNotModified. now rewrite (WriteHeader_kept _ c) by exact H.
Qed.

Lemma setLastModified_kept (w : ResponseWriter) (modtime : Time) :
  Status (setLastModified FormatHTTPTime w modtime) = Status w.
Proof. unfold setLastModified. now destruct (negb _). Qed.

Lemma checkPreconditions_status (w : ResponseWriter) (r : Request) (modtime : Time) (c : Z) :
  Status w = Some c ->
  Status (snd (checkPreconditions ParseTime w r modtime)) = Some c.
Proof.
  intros H. unfold checkPreconditions.
  repeat case_match; cbn [snd];
    first [ exact H | now apply writeNotModified_status
          | now rewrite (WriteHeader_kept _ c) by exact H ].
Qed.

Lemma serveSized_status (w : ResponseWriter) (r : Request) (rangeReq ctype : string)
    (size : Z) (content : Content) (c : Z) :
  Status w = Some c ->
  Status (serveSized multipartBoundary multipartOverhead multipartBody w r rangeReq ctype
            size content) = Some c.
Proof.
  intros H. unfold serveSized.
  repeat case_match;
    repeat first [ apply Error_status | apply CopyN_status | apply Write_status
                 | rewrite (WriteHeader_kept _ c) by (rewrite ?withHeader_status; exact H)
                 | rewrite withHeader_status | exact H ].
Qed.

Lemma serveContent_status (w : ResponseWriter) (r : Request) (name : string)
    (modtime : Time) (sizeFunc : Content -> option (Z * Content)) (content : Content)
    (c : Z) :
  Status w = Some c ->
  Status (serveContent w r name modtime sizeFunc content) = Some c.
Proof.
  intros H. unfold SwHttp.serveContent.
  assert (H0 : Status (setLastModified FormatHTTPTime w modtime) = Some c)
    by now rewrite setLastModified_kept.
  pose proof (checkPreconditions_status _ r modtime c H0) as H1.
  destruct (checkPreconditions _ _ _ _) as [[done rangeReq] w1]. cbn [snd] in H1.
  destruct done; [exact H1 |].
  match goal with |- Status (match ?t with _ => _ end) = _ =>
    assert (Ht : match t with
                 | inl w' => Status w' = Some c
                 | inr (w', _, _) => Status w' = Some c
                 end);
    [| destruct t as [w2 | [[w2 ctype] content2]]; [exact Ht |] ]
  end.
  { repeat case_match; simplify_eq; rewrite ?withHeader_status;
      first [ exact H1 | now apply Error_status ]. }
  destruct (sizeFunc content2) as [[size content3]|];
    [now apply serveSized_status | now apply Error_status].
Qed.

(** ** The error page *)

Lemma serveFile_regular (n : nat) (fh : fileHandler) (w : ResponseWriter) (r : Request)
    (name : string) (f : File) (d : FileInfo) :
  Go.HasSuffix (Path r) indexPage = false ->
  root fh name = inr f -> Stat f = inr d -> IsDir d = false ->
  serveFile (S n) fh w r name false
  = Ret (serveContent w r (Name d) (ModTime d) (fun c => Some (Size d, c)) (Data f)).
Proof.
  intros Hindex Hopen Hstat Hdir. cbn [FileHandler.serveFile].
  rewrite Hindex, Hopen, Hstat. cbn [mbind run_bind]. now rewrite !Hdir.
Qed.

(** What [sendError] does: the status is the one it was given, also when
    an error page is served; without an error page the body is the JSON
    text or the text of the template. *)
Lemma sendError_spec (n : nat) (fh : fileHandler) (w : ResponseWriter) (r : Request)
    (path_ : string) (statusCode : Z) :
  Go.HasSuffix (Path r) indexPage = false ->
  errorPagesStat fh ->
  exists out,
    sendErrorWith (serveFile (S n) fh) fh w r path_ statusCode = Ret out
    /\ (Status w = None -> Status out = Some statusCode)
    /\ (noErrorPage fh statusCode ->
        exists code message,
          Written out
          = Written w +:+ (if acceptJSON r then errorJSON code message
                           else errorTemplate statusCode code message)
          /\ (statusCode = StatusNotFound ->
              code = "not_found" /\ message = "The requested path could not be found")
          /\ (statusCode = StatusForbidden -> code = EmptyString /\ message = EmptyString)
          /\ (statusCode = StatusInternalServerError ->
              code = "internal_server_error" /\ message = "A server error has occurred")).
Proof.
  intros Hindex Hstat. unfold FileHandler.sendErrorWith, noErrorPage.
  fold (errorPage statusCode).
  set (words := if statusCode =? StatusBadRequest then _ else _).
  assert (Hwords : (statusCode = StatusNotFound ->
                    words = ("not_found", "The requested path could not be found"))
                   /\ (statusCode = StatusForbidden -> words = (EmptyString, EmptyString))
                   /\ (statusCode = StatusInternalServerError ->
                       words = ("internal_server_error", "A server error has occurred"))).
  { subst words. repeat split; intros ->; reflexivity. }
  destruct words as [code message].
  assert (Hplain : forall w0, w0 = WriteHeader w statusCode ->
            (Status w = None -> Status w0 = Some statusCode) /\ Written w0 = Written w).
  { intros w0 ->. unfold WriteHeader. split; [now intros -> |]. now destruct (Status w). }
  assert (Hbody : exists out,
    (let w0 := WriteHeader w statusCode in
     if acceptJSON r
     then Ret (Write (withHeader w0 (Set_ (RespHeader w0) "Content-Type"
                                       "application/json; charset=utf-8"))
                 (errorJSON code message))
     else Ret (Write (withHeader w0 (Set_ (RespHeader w0) "Content-Type"
                                       "text/html; charset=utf-8"))
                 (errorTemplate statusCode code message))) = Ret out
    /\ (Status w = None -> Status out = Some statusCode)
    /\ Written out = Written w +:+ (if acceptJSON r then errorJSON code message
                                    else errorTemplate statusCode code message)).
  { cbv zeta. destruct (Hplain _ eq_refl) as [Hs Hw].
    destruct (acceptJSON r); (eexists; split; [reflexivity |]); split.
    - intros Hfresh. eapply Write_status. rewrite withHeader_status. now apply Hs.
    - rewrite Write_written. cbn [Written withHeader]. now rewrite Hw.
    - intros Hfresh. eapply Write_status. rewrite withHeader_status. now apply Hs.
    - rewrite Write_written. cbn [Written withHeader]. now rewrite Hw. }
  destruct Hbody as (plain & Hret & Hst & Hwr).
  assert (Hdone : exists code0 message0,
            Written plain
            = Written w +:+ (if acceptJSON r then errorJSON code0 message0
                             else errorTemplate statusCode code0 message0)
            /\ (statusCode = StatusNotFound ->
                code0 = "not_found" /\ message0 = "The requested path could not be found")
            /\ (statusCode = StatusForbidden -> code0 = EmptyString /\ message0 = EmptyString)
            /\ (statusCode = StatusInternalServerError ->
                code0 = "internal_server_error" /\ message0 = "A server error has occurred")).
  { exists code, message. split; [exact Hwr |].
    destruct Hwords as (H1 & H2 & H3).
    split; [| split]; intros E; [apply H1 in E | apply H2 in E | apply H3 in E];
      injection E as -> ->; now split. }
  destruct (root fh (errorPage statusCode)) as [err | f] eqn:Hopen.
  - exists plain. split; [exact Hret | split; [exact Hst | intros _; exact Hdone]].
  - destruct (Hstat _ _ Hopen) as [d Hd]. rewrite Hd.
    destruct (IsDir d) eqn:Hdir; cbn [negb].
    + exists plain. split; [exact Hret | split; [exact Hst | intros _; exact Hdone]].
    + rewrite (serveFile_regular n fh _ r _ f d Hindex Hopen Hd Hdir).
      eexists. split; [reflexivity |]. split.
      * intros Hfresh. apply serveContent_status. unfold WriteHeader. now rewrite Hfresh.
      * intros (d' & Hd' & Hdir'). congruence.
Qed.

(** ** The handler returns *)

Lemma serveFile_step (m : nat) (fh : fileHandler) (w : ResponseWriter) (r : Request)
    (name : string) (redirect : bool) :
  Go.isEmpty (Path r) = false ->
  (Go.HasSuffix (Path r) indexPage = false ->
   forall path_ statusCode,
     exists out, sendErrorWith (serveFile m fh) fh w r path_ statusCode = Ret out) ->
  (singlePage fh = true -> name <> "/" ->
   exists out, serveFile m fh w r "/" false = Ret out) ->
  exists out, serveFile (S m) fh w r name redirect = Ret out.
Proof.
  intros Hurl Hsend Hroot. cbn [FileHandler.serveFile].
  destruct (Go.HasSuffix (Path r) indexPage) eqn:Hindex; [eexists; reflexivity |].
  specialize (Hsend eq_refl). rewrite Hurl.
  destruct (root fh name) as [err | f].
  - destruct (singlePage fh) eqn:Hsingle; cbn [andb].
    + destruct (String.eqb_spec name "/") as [-> | Hname]; cbn [negb].
      * destruct (toHTTPError err). apply Hsend.
      * now apply Hroot.
    + destruct (toHTTPError err). apply Hsend.
  - destruct (Stat f) as [err | d]; [destruct (toHTTPError err); apply Hsend |].
    repeat first [ progress cbn [mbind run_bind negb orb]
                 | apply Hsend
                 | solve [eexists; reflexivity]
                 | case_match ].
Qed.

Lemma sendError_returns (n : nat) (fh : fileHandler) (w : ResponseWriter) (r : Request) :
  errorPagesStat fh ->
  Go.HasSuffix (Path r) indexPage = false ->
  forall path_ statusCode,
    exists out, sendErrorWith (serveFile (S n) fh) fh w r path_ statusCode = Ret out.
Proof.
  intros Hstat Hindex path_ statusCode.
  destruct (sendError_spec n fh w r path_ statusCode Hindex Hstat) as (out & H & _).
  now exists out.
Qed.

Lemma serveFile_returns (fh : fileHandler) (w : ResponseWriter) (r : Request)
    (name : string) (redirect : bool) :
  errorPagesStat fh ->
  Go.isEmpty (Path r) = false ->
  exists out, serveFile 3 fh w r name redirect = Ret out.
Proof.
  intros Hstat Hurl. apply serveFile_step; [exact Hurl | now apply sendError_returns |].
  intros _ _. apply serveFile_step; [exact Hurl | now apply sendError_returns |].
  congruence.
Qed.

(** The request that [ServeHTTP] hands to [serveFile]: its path starts
    with a slash. *)
Lemma ServeHTTP_request (fh : fileHandler) (w : ResponseWriter) (r : Request) :
  exists r',
    ServeHTTP fh w r = serveFile 3 fh w r' (Go.Clean (Path r')) true
    /\ Go.HasPrefix (Path r') "/" = true
    /\ (Go.HasPrefix (Path r) "/" = true -> r' = r)
    /\ (Path r' = Path r \/ Path r' = "/" +:+ Path r).
Proof.
  unfold FileHandler.ServeHTTP.
  destruct (Go.HasPrefix (Path r) "/") eqn:Hslash; cbn [negb].
  - exists r. auto.
  - exists (withPath r ("/" +:+ Path r)). cbn [Path withPath].
    split; [reflexivity |]. split; [now rewrite append_cons, HasPrefix_slash |].
    split; [discriminate | now right].
Qed.

(** X26. [ServeHTTP] returns, whatever the request and the files: the calls
    between [serveFile] and [sendError] are at most three deep, and there
    is no panic (no index out of range, no nil [FileInfo]), as long as
    [Stat] works on the error pages that open.  Writes to the response
    are taken to succeed. *)
Theorem ServeHTTP_returns (fh : fileHandler) (w : ResponseWriter) (r : Request) :
  errorPagesStat fh -> exists out, ServeHTTP fh w r = Ret out.
Proof.
  intros Hstat. destruct (ServeHTTP_request fh w r) as (r' & -> & Hslash & _).
  apply serveFile_returns; [exact Hstat |].
  destruct (Path r'); [discriminate | reflexivity].
Qed.

(** ** One call of [serveFile] *)

Lemma serveFile_index_page (m : nat) (fh : fileHandler) (w : ResponseWriter) (r : Request)
    (name : string) (redirect : bool) :
  Go.HasSuffix (Path r) indexPage = true ->
  serveFile (S m) fh w r name redirect = Ret (localRedirect w r "./").
Proof. intros H. cbn [FileHandler.serveFile]. now rewrite H. Qed.

Lemma serveFile_fallback (m : nat) (fh : fileHandler) (w : ResponseWriter) (r : Request)
    (name : string) (redirect : bool) (err : fsError) :
  Go.HasSuffix (Path r) indexPage = false ->
  root fh name = inl err -> singlePage fh = true -> name <> "/" ->
  serveFile (S m) fh w r name redirect = serveFile m fh w r "/" false.
Proof.
  intros Hindex Hopen Hsingle Hname. cbn [FileHandler.serveFile].
  rewrite Hindex, Hopen, Hsingle.
  destruct (String.eqb_spec name "/"); [contradiction | reflexivity].
Qed.

Lemma serveFile_unopened (m : nat) (fh : fileHandler) (w : ResponseWriter) (r : Request)
    (name : string) (redirect : bool) (err : fsError) :
  Go.HasSuffix (Path r) indexPage = false ->
  root fh name = inl err -> singlePage fh = false ->
  serveFile (S m) fh w r name redirect
  = sendErrorWith (serveFile m fh) fh w r (fst (toHTTPError err)) (snd (toHTTPError err)).
Proof.
  intros Hindex Hopen Hsingle. cbn [FileHandler.serveFile].
  rewrite Hindex, Hopen, Hsingle. cbn [andb]. now destruct (toHTTPError err).
Qed.

Lemma HasSuffix_not_empty (s p : string) :
  Go.HasSuffix s p = true -> Go.isEmpty p = false -> Go.isEmpty s = false.
Proof.
  unfold Go.HasSuffix. intros [Hlen _]%andb_prop Hp. apply Nat.leb_le in Hlen.
  destruct s; [destruct p; [discriminate | cbn in Hlen; lia] | reflexivity].
Qed.

Lemma serveFile_directory (m : nat) (fh : fileHandler) (w : ResponseWriter) (r : Request)
    (name : string) (redirect : bool) (f : File) (d : FileInfo) :
  Go.HasSuffix (Path r) indexPage = false ->
  root fh name = inr f -> Stat f = inr d -> IsDir d = true ->
  Go.isEmpty (Path r) = false ->
  Go.HasSuffix (Path r) "/" = false ->
  serveFile (S m) fh w r name redirect
  = Ret (localRedirect w r (Go.Base (Path r) +:+ "/")).
Proof.
  intros Hindex Hopen Hstat Hdir Hurl Hslash. cbn [FileHandler.serveFile].
  rewrite Hindex, Hopen, Hstat, Hurl, !Hdir, !Hslash.
  now destruct redirect.
Qed.

Lemma serveFile_index (m : nat) (fh : fileHandler) (w : ResponseWriter) (r : Request)
    (name : string) (redirect : bool) (f ff : File) (d dd : FileInfo) :
  Go.HasSuffix (Path r) indexPage = false ->
  root fh name = inr f -> Stat f = inr d -> IsDir d = true ->
  Go.HasSuffix (Path r) "/" = true ->
  root fh (TrimSuffix name "/" +:+ indexPage) = inr ff -> Stat ff = inr dd ->
  IsDir dd = false ->
  serveFile (S m) fh w r name redirect
  = Ret (serveContent w r (Name dd) (ModTime dd) (fun c => Some (Size dd, c)) (Data ff)).
Proof.
  intros Hindex Hopen Hstat Hdir Hslash Hopen2 Hstat2 Hdir2.
  pose proof (HasSuffix_not_empty _ _ Hslash eq_refl) as Hurl.
  cbn [FileHandler.serveFile].
  rewrite Hindex, Hopen, Hstat, Hurl, !Hdir, !Hslash, Hopen2, Hstat2.
  destruct redirect; cbn [mbind run_bind negb orb]; now rewrite Hdir2.
Qed.

Lemma serveFile_unlisted (m : nat) (fh : fileHandler) (w : ResponseWriter) (r : Request)
    (name : string) (redirect : bool) (f : File) (d : FileInfo) :
  Go.HasSuffix (Path r) indexPage = false ->
  root fh name = inr f -> Stat f = inr d -> IsDir d = true ->
  Go.HasSuffix (Path r) "/" = true ->
  noIndexPage fh name ->
  allowDirectoryListing fh = false ->
  exists path_,
    serveFile (S m) fh w r name redirect
    = sendErrorWith (serveFile m fh) fh w r path_ StatusNotFound.
Proof.
  intros Hindex Hopen Hstat Hdir Hslash Hnone Hlist.
  pose proof (HasSuffix_not_empty _ _ Hslash eq_refl) as Hurl.
  unfold noIndexPage in Hnone. cbn [FileHandler.serveFile].
  rewrite Hindex, Hopen, Hstat, Hurl, !Hdir, !Hslash.
  fold indexPage in Hnone.
  destruct (root fh (TrimSuffix name "/" +:+ indexPage)) as [err | ff].
  - exists name. destruct redirect; cbn [mbind run_bind negb orb]; now rewrite Hdir, Hlist.
  - destruct (Stat ff) as [err | dd].
    + exists name. destruct redirect; cbn [mbind run_bind negb orb]; now rewrite Hdir, Hlist.
    + exists (TrimSuffix name "/" +:+ indexPage).
      destruct redirect; cbn [mbind run_bind negb orb]; now rewrite Hnone, Hlist.
Qed.

(** ** Suffixes *)

Lemma HasSuffix_cons (s p : string) (c : ascii) :
  Go.HasSuffix s p = true -> Go.HasSuffix (String c s) p = true.
Proof.
  unfold Go.HasSuffix. intros [Hlen Heq]%andb_prop. apply Nat.leb_le in Hlen.
  apply andb_true_intro. split; [apply Nat.leb_le; cbn; lia |].
  cbn [String.length].
  replace (S (String.length s) - String.length p)%nat
    with (S (String.length s - String.length p)) by lia.
  exact Heq.
Qed.

Lemma HasSuffix_split (s p : string) :
  Go.HasSuffix s p = true -> exists a, s = a +:+ p.
Proof.
  unfold Go.HasSuffix. intros [_ Heq]%andb_prop. apply String.eqb_eq in Heq.
  set (n := (String.length s - String.length p)%nat) in *.
  exists (Go.take n s). rewrite <- Heq. symmetry. apply take_drop.
Qed.

Lemma snoc_last (a b : string) (x y : ascii) :
  a +:+ String x EmptyString = b +:+ String y EmptyString -> x = y.
Proof.
  revert b. induction a as [|c a IH]; intros [|c' b]; sstep; intros E.
  - congruence.
  - injection E as _ E. now destruct b.
  - injection E as _ E. now destruct a.
  - injection E as _ E. now apply IH in E.
Qed.

Lemma slash_is_no_index_page (s : string) :
  Go.HasSuffix s "/" = true -> Go.HasSuffix s indexPage = false.
Proof.
  intros [a Ha]%HasSuffix_split.
  destruct (Go.HasSuffix s indexPage) eqn:Hindex; [| reflexivity].
  apply HasSuffix_split in Hindex as [b Hb]. exfalso.
  assert (E : a +:+ "/" = (b +:+ "/index.htm") +:+ "l").
  { rewrite append_assoc. change ("/index.htm" +:+ "l") with indexPage. congruence. }
  apply snoc_last in E. discriminate.
Qed.

(** ** What the handler answers *)

(** X27. A request for a path that ends in [/index.html] is answered 301 with
    the location [./], followed by the query if there is one, whatever
    the files are. *)
Theorem index_page_is_redirected (fh : fileHandler) (w : ResponseWriter) (r : Request) :
  Go.HasSuffix (Path r) "/index.html" = true ->
  exists out,
    ServeHTTP fh w r = Ret out
    /\ (Status w = None -> Status out = Some StatusMovedPermanently)
    /\ RespHeader out !! "Location"
       = Some [if Go.isEmpty RawQuery then "./" else "./?" +:+ RawQuery]
    /\ Written out = Written w.
Proof.
  intros Hindex. destruct (ServeHTTP_request fh w r) as (r' & -> & _ & _ & Hpath).
  assert (Hindex' : Go.HasSuffix (Path r') indexPage = true).
  { destruct Hpath as [-> | ->]; [exact Hindex |].
    rewrite append_cons, append_nil_l. now apply HasSuffix_cons. }
  rewrite (serveFile_index_page _ _ _ _ _ _ Hindex').
  eexists. split; [reflexivity |]. unfold FileHandler.localRedirect.
  split; [| split].
  - intros Hfresh. unfold WriteHeader. cbn [Status withHeader]. now rewrite Hfresh.
  - unfold WriteHeader, Set_. cbn [Status withHeader].
    destruct (Status w); cbn [RespHeader withHeader]; lookup_header;
      now destruct (Go.isEmpty RawQuery).
  - now rewrite WriteHeader_written.
Qed.

(** X28. On a response to which no status was written yet, and when [Stat]
    works on the error pages that open: a file that does not open, on a
    site that is not a single-page one, is answered with the status of
    the error: 404 when the file does not exist, 403 when permission is
    denied, 500 otherwise; also when an error page is served.  Without an
    error page, the body is the JSON text (for a request that accepts it)
    or the text of the template; the code and the message are empty for
    403.  (The path of the request starts with a slash and does not end
    in [/index.html].) *)
Theorem unopened_file_is_an_error (fh : fileHandler) (w : ResponseWriter) (r : Request)
    (err : fsError) :
  Go.HasPrefix (Path r) "/" = true ->
  Go.HasSuffix (Path r) "/index.html" = false ->
  root fh (Go.Clean (Path r)) = inl err ->
  singlePage fh = false ->
  errorPagesStat fh ->
  Status w = None ->
  let statusCode :=
    match err with
    | ErrNotExist => StatusNotFound
    | ErrPermission => StatusForbidden
    | ErrOther => StatusInternalServerError
    end in
  exists out,
    ServeHTTP fh w r = Ret out
    /\ Status out = Some statusCode
    /\ (noErrorPage fh statusCode ->
        Written out
        = Written w
          +:+ (if acceptJSON r
               then errorJSON (fst (errorWords err)) (snd (errorWords err))
               else errorTemplate statusCode (fst (errorWords err)) (snd (errorWords err)))).
Proof.
  intros Hslash Hindex Hopen Hsingle Hstat Hfresh statusCode.
  destruct (ServeHTTP_request fh w r) as (r' & -> & _ & Hsame & _).
  rewrite (Hsame Hslash).
  rewrite (serveFile_unopened _ _ _ _ _ _ _ Hindex Hopen Hsingle).
  assert (Hcode : snd (toHTTPError err) = statusCode) by now destruct err.
  rewrite Hcode.
  destruct (sendError_spec 1 fh w r (fst (toHTTPError err)) statusCode Hindex Hstat)
    as (out & Hret & Hst & Hbody).
  exists out. split; [exact Hret |]. split; [now apply Hst |].
  intros Hnone. destruct (Hbody Hnone) as (code & message & -> & H404 & H403 & H500).
  subst statusCode. f_equal.
  destruct err; cbn [errorWords fst snd];
    [destruct (H404 eq_refl) as [-> ->] | destruct (H403 eq_refl) as [-> ->]
    | destruct (H500 eq_refl) as [-> ->]]; reflexivity.
Qed.

(** X29. On a single-page site whose root is a directory, for a request
    whose path starts with a slash, does not end in [/index.html] and
    does not open: when the path does not end in a slash, the answer is
    301 to the last element of the path followed by a slash; when it
    does, and [/index.html] is a regular file, the answer is the one of
    [serveContent] for that file. *)
Theorem single_page_fallback (fh : fileHandler) (w : ResponseWriter) (r : Request)
    (err : fsError) (f : File) (d : FileInfo) :
  singlePage fh = true ->
  Go.HasPrefix (Path r) "/" = true ->
  Go.HasSuffix (Path r) "/index.html" = false ->
  root fh (Go.Clean (Path r)) = inl err ->
  root fh "/" = inr f -> Stat f = inr d -> IsDir d = true ->
  (Go.HasSuffix (Path r) "/" = false ->
   ServeHTTP fh w r = Ret (localRedirect w r (Go.Base (Path r) +:+ "/")))
  /\ (Go.HasSuffix (Path r) "/" = true ->
      forall ff dd,
        root fh "/index.html" = inr ff -> Stat ff = inr dd -> IsDir dd = false ->
        ServeHTTP fh w r
        = Ret (serveContent w r (Name dd) (ModTime dd) (fun c => Some (Size dd, c))
                 (Data ff))).
Proof.
  intros Hsingle Hslash Hindex Hopen Hroot Hstat Hdir.
  destruct (ServeHTTP_request fh w r) as (r' & -> & _ & Hsame & _).
  rewrite (Hsame Hslash).
  assert (Hname : Go.Clean (Path r) <> "/") by congruence.
  rewrite (serveFile_fallback _ _ _ _ _ _ _ Hindex Hopen Hsingle Hname).
  assert (Hurl : Go.isEmpty (Path r) = false)
    by (destruct (Path r); [discriminate | reflexivity]).
  split.
  - intros Hend. now apply (serveFile_directory 1 fh w r "/" false f d).
  - intros Hend ff dd Hopen2 Hstat2 Hdir2.
    now apply (serveFile_index 1 fh w r "/" false f ff d dd).
Qed.

(** X30. A directory without an index page, on a site without directory
    listings, is answered 404. *)
Theorem unlisted_directory_is_not_found (fh : fileHandler) (w : ResponseWriter)
    (r : Request) (f : File) (d : FileInfo) :
  allowDirectoryListing fh = false ->
  Go.HasPrefix (Path r) "/" = true ->
  Go.HasSuffix (Path r) "/" = true ->
  root fh (Go.Clean (Path r)) = inr f -> Stat f = inr d -> IsDir d = true ->
  noIndexPage fh (Go.Clean (Path r)) ->
  errorPagesStat fh ->
  Status w = None ->
  exists out, ServeHTTP fh w r = Ret out /\ Status out = Some StatusNotFound.
Proof.
  intros Hlist Hslash Hend Hopen Hstat Hdir Hnone Hpages Hfresh.
  pose proof (slash_is_no_index_page _ Hend) as Hindex.
  destruct (ServeHTTP_request fh w r) as (r' & -> & _ & Hsame & _).
  rewrite (Hsame Hslash).
  destruct (serveFile_unlisted 2 fh w r _ true f d Hindex Hopen Hstat Hdir Hend Hnone Hlist)
    as (path_ & ->).
  destruct (sendError_spec 1 fh w r path_ StatusNotFound Hindex Hpages)
    as (out & Hret & Hst & _).
  exists out. split; [exact Hret | now apply Hst].
Qed.

End FileHandlerFacts.

(** ** The sample site *)

Lemma webRoot_stat (name : string) (f : FileHandler.File) :
  SampleSite.withErrorPage name = inr f \/ SampleSite.webRoot name = inr f ->
  exists d, FileHandler.Stat f = inr d.
Proof.
  unfold SampleSite.withErrorPage, SampleSite.webRoot.
  intros [H | H]; revert H;
    repeat (destruct (String.eqb name _); [intros [= <-]; eexists; reflexivity |]);
    discriminate.
Qed.

(** A missing page of the site that has an error page: the handler returns. *)
Lemma ServeHTTP_returns_witness :
  exists out,
    SampleSite.serveSite EmptyString SampleSite.siteWithErrorPage (Sample.get "/nope" ∅)
    = Ret out.
Proof.
  unfold SampleSite.serveSite. apply ServeHTTP_returns.
  intros statusCode f H. apply (webRoot_stat (Files.errorPage statusCode)). now left.
Defined.

(** The request for [/blog/index.html?page=2]. *)
Lemma index_page_is_redirected_witness :
  exists out,
    SampleSite.serveSite "page=2" SampleSite.site (Sample.get "/blog/index.html" ∅) = Ret out
    /\ (Http.Status Http.newResponseWriter = None ->
        Http.Status out = Some Http.StatusMovedPermanently)
    /\ Http.RespHeader out !! "Location" = Some ["./?page=2"]
    /\ Http.Written out = EmptyString.
Proof.
  unfold SampleSite.serveSite.
  apply (index_page_is_redirected Sample.noTime Sample.anyDate Sample.textPlain
           Sample.textPlain Sample.boundary Sample.noOverhead Sample.noParts "page=2"
           SampleSite.asciiLower SampleSite.errorText SampleSite.noDirectoryPage
           SampleSite.site Http.newResponseWriter (Sample.get "/blog/index.html" ∅)).
  reflexivity.
Defined.

(** The request for [/nope], which accepts JSON, on the site without error
    pages. *)
Lemma unopened_file_is_an_error_witness :
  exists out,
    SampleSite.serveSite EmptyString SampleSite.site
      (Sample.get "/nope" {[ "Accept" := ["text/html, Application/JSON"] ]}) = Ret out
    /\ Http.Status out = Some 404
    /\ (Files.noErrorPage SampleSite.site 404 ->
        Http.Written out
        = FileHandler.errorJSON "not_found" "The requested path could not be found").
Proof.
  unfold SampleSite.serveSite.
  assert (Hpages : Files.errorPagesStat SampleSite.site).
  { intros statusCode f H. apply (webRoot_stat (Files.errorPage statusCode)). now right. }
  destruct (unopened_file_is_an_error Sample.noTime Sample.anyDate Sample.textPlain
              Sample.textPlain Sample.boundary Sample.noOverhead Sample.noParts EmptyString
              SampleSite.asciiLower SampleSite.errorText SampleSite.noDirectoryPage
              SampleSite.site Http.newResponseWriter
              (Sample.get "/nope" {[ "Accept" := ["text/html, Application/JSON"] ]})
              FileHandler.ErrNotExist eq_refl eq_refl eq_refl eq_refl Hpages eq_refl)
    as (out & Hret & Hst & Hbody).
  exists out. split; [exact Hret |]. split; [exact Hst |].
  intros Hnone. rewrite (Hbody Hnone). vm_compute. reflexivity.
Defined.

(** The requests for [/app/users] and [/app/users/] on the single-page site. *)
Lemma single_page_fallback_witness :
  SampleSite.serveSite EmptyString SampleSite.singlePageSite (Sample.get "/app/users" ∅)
  = Ret (FileHandler.localRedirect EmptyString Http.newResponseWriter
           (Sample.get "/app/users" ∅) "users/")
  /\ SampleSite.serveSite EmptyString SampleSite.singlePageSite (Sample.get "/app/users/" ∅)
     = Ret (SwHttp.serveContent Sample.noTime Sample.anyDate Sample.textPlain
              Sample.textPlain Sample.boundary Sample.noOverhead Sample.noParts
              Http.newResponseWriter (Sample.get "/app/users/" ∅) "index.html"
              SwHttp.unixEpochTime (fun c => Some (13, c))
              {| SwHttp.data := "<h1>home</h1>"; SwHttp.pos := 0 |}).
Proof.
  unfold SampleSite.serveSite. split.
  - apply (single_page_fallback Sample.noTime Sample.anyDate Sample.textPlain
             Sample.textPlain Sample.boundary Sample.noOverhead Sample.noParts EmptyString
             SampleSite.asciiLower SampleSite.errorText SampleSite.noDirectoryPage
             SampleSite.singlePageSite Http.newResponseWriter (Sample.get "/app/users" ∅)
             FileHandler.ErrNotExist (SampleSite.directory "/")
             {| FileHandler.Name := "/"; FileHandler.Size := 0;
                FileHandler.ModTime := SwHttp.unixEpochTime; FileHandler.IsDir := true |});
      reflexivity.
  - destruct (single_page_fallback Sample.noTime Sample.anyDate Sample.textPlain
                Sample.textPlain Sample.boundary Sample.noOverhead Sample.noParts EmptyString
                SampleSite.asciiLower SampleSite.errorText SampleSite.noDirectoryPage
                SampleSite.singlePageSite Http.newResponseWriter
                (Sample.get "/app/users/" ∅)
                FileHandler.ErrNotExist (SampleSite.directory "/")
                {| FileHandler.Name := "/"; FileHandler.Size := 0;
                   FileHandler.ModTime := SwHttp.unixEpochTime; FileHandler.IsDir := true |}
                eq_refl eq_refl eq_refl eq_refl eq_refl eq_refl eq_refl) as [_ H].
    exact (H eq_refl (SampleSite.regular "index.html" "<h1>home</h1>")
             {| FileHandler.Name := "index.html"; FileHandler.Size := 13;
                FileHandler.ModTime := SwHttp.unixEpochTime; FileHandler.IsDir := false |}
             eq_refl eq_refl eq_refl).
Defined.

(** The request for [/docs/], a directory without an index page. *)
Lemma unlisted_directory_is_not_found_witness :
  exists out,
    SampleSite.serveSite EmptyString SampleSite.site (Sample.get "/docs/" ∅) = Ret out
    /\ Http.Status out = Some Http.StatusNotFound.
Proof.
  unfold SampleSite.serveSite.
  assert (Hpages : Files.errorPagesStat SampleSite.site).
  { intros statusCode f H. apply (webRoot_stat (Files.errorPage statusCode)). now right. }
  exact (unlisted_directory_is_not_found Sample.noTime Sample.anyDate Sample.textPlain
           Sample.textPlain Sample.boundary Sample.noOverhead Sample.noParts EmptyString
           SampleSite.asciiLower SampleSite.errorText SampleSite.noDirectoryPage
           SampleSite.site Http.newResponseWriter (Sample.get "/docs/" ∅)
           (SampleSite.directory "docs")
           {| FileHandler.Name := "docs"; FileHandler.Size := 0;
              FileHandler.ModTime := SwHttp.unixEpochTime; FileHandler.IsDir := true |}
           eq_refl eq_refl eq_refl eq_refl eq_refl eq_refl I Hpages eq_refl).
Defined.

(* ================================================================== *)
(** * Path templates without parameters                                *)
(* ================================================================== *)

Section TemplateExtras.
Import PathToRegexp.

Lemma matchHere_plain (c : ascii) (s : string) :
  negb (Ascii.eqb c "\" || Ascii.eqb c ":" || Ascii.eqb c "(") = true ->
  matchHere (String c s) = None.
Proof.
  destruct c as [[] [] [] [] [] [] [] []]; try discriminate; reflexivity.
Qed.

Lemma findMatch_plain (s : string) : Templates.plain s = true -> findMatch s = None.
Proof.
  unfold Templates.plain. induction s as [|c s IH]; [reflexivity |].
  cbn [Go.allBytes]. intros [Hc Hs]%andb_prop.
  cbn [findMatch]. rewrite (matchHere_plain c s Hc). now rewrite (IH Hs).
Qed.

(** X25. A template without escapes, parameters and groups is parsed to no
    token at all: its text is not kept.  The expression that is built
    from it is the one of the empty template, whatever the text. *)
Theorem plain_template_has_no_tokens (regexpCompiles : string -> bool)
    (template : string) (options : Options) :
  Templates.plain template = true ->
  parse template options = []
  /\ PathToRegexp regexpCompiles template NewOptions
     = ({| regexp := "(?i)^(?:\/)?$"; keys := [] |},
        negb (regexpCompiles "(?i)^(?:\/)?$")).
Proof.
  intros Hplain.
  assert (Hparse : forall o, parse template o = []).
  { intros o. unfold parse. cbn [parseLoop]. now rewrite (findMatch_plain _ Hplain). }
  split; [apply Hparse |].
  unfold PathToRegexp.PathToRegexp. rewrite Hparse. reflexivity.
Qed.

End TemplateExtras.

(** The template [/about/us]. *)
Lemma plain_template_has_no_tokens_witness :
  PathToRegexp.parse "/about/us" PathToRegexp.NewOptions = []
  /\ PathToRegexp.PathToRegexp Sample.compilesAll "/about/us" PathToRegexp.NewOptions
     = ({| PathToRegexp.regexp := "(?i)^(?:\/)?$"; PathToRegexp.keys := [] |}, false).
Proof.
  apply (plain_template_has_no_tokens Sample.compilesAll "/about/us"
           PathToRegexp.NewOptions).
  reflexivity.
Defined.
